(** * Pet adoption analysis: the data cleaning functions

    A shallow embedding of [data_cleaning_functions.py] and the properties
    of its four functions: [get_data], [date_format],
    [merge_intake_n_outcome] and [calculate_time_delta].

    Modelling conventions.
    - A pandas [DataFrame] is a list of column names together with its rows,
      each row a list of cells in column order.  Row labels are the default
      [RangeIndex] that [pd.read_csv] produces, so the label of a row is its
      position.
    - A cell is a string, a timestamp, an integer, a float, a time
      difference or the missing value (pandas' [NaT] / [NaN], which [pd.isna]
      does not tell apart).
    - Floats are the exact rationals they denote.
    - Python exceptions are the [Raise] results of an error monad.
    - [pd.to_datetime] infers one format for a column of texts, as pandas 2
      does, and reads the ISO 8601 spellings; timestamps and their
      differences are counts of nanoseconds in 64 bits.  An input outside
      what is embedded gives [Raise NotModelled], and no property is stated
      of it.
    - The functions mutate the tables they are given; a call returns its
      value together with the final state of the mutated arguments. *)

From Stdlib Require Import ZArith QArith Lia Ascii String.
From stdpp Require Import gmap strings list fin_maps pretty.

Local Open Scope string_scope.
Local Open Scope list_scope.
Local Open Scope Z_scope.

(** ** Cells *)

(** A [pd.Timestamp] by its civil fields; sub-second precision is kept in
    [nanosecond]. *)
Record Timestamp := mkTimestamp {
  year : Z; month : Z; day : Z;
  hour : Z; minute : Z; second : Z; nanosecond : Z
}.

Inductive Cell :=
| Str (s : string)
| Time (t : Timestamp)
| Int (z : Z)
| Float (q : Q)
| Timedelta (ns : Z)
| Null.

Definition NaT : Cell := Null.
Definition NaN : Cell := Null.

#[global] Instance Timestamp_eq_dec : EqDecision Timestamp.
Proof. solve_decision. Defined.

#[global] Instance Q_eq_dec : EqDecision Q.
Proof. solve_decision. Defined.

#[global] Instance Cell_eq_dec : EqDecision Cell.
Proof. solve_decision. Defined.

#[global] Instance Timestamp_countable : Countable Timestamp.
Proof.
  refine (inj_countable'
    (fun t => (year t, month t, day t, hour t, minute t, second t, nanosecond t))
    (fun p => let '(y, mo, d, h, mi, s, n) := p in mkTimestamp y mo d h mi s n) _).
  by intros [].
Defined.

#[global] Instance Q_countable : Countable Q.
Proof.
  refine (inj_countable' (fun q => (Qnum q, Qden q))
                         (fun p => Qmake (fst p) (snd p)) _).
  by intros [].
Defined.

#[global] Instance Cell_countable : Countable Cell.
Proof.
  refine (inj_countable'
    (fun c => match c with
              | Str s => inl s
              | Time t => inr (inl t)
              | Int z => inr (inr (inl z))
              | Float q => inr (inr (inr (inl q)))
              | Timedelta ns => inr (inr (inr (inr (inl ns))))
              | Null => inr (inr (inr (inr (inr ()))))
              end)
    (fun e => match e with
              | inl s => Str s
              | inr (inl t) => Time t
              | inr (inr (inl z)) => Int z
              | inr (inr (inr (inl q))) => Float q
              | inr (inr (inr (inr (inl ns)))) => Timedelta ns
              | inr (inr (inr (inr (inr _)))) => Null
              end) _).
  by intros [].
Defined.

Definition isna (c : Cell) : bool :=
  match c with Null => true | _ => false end.

(** ** Exceptions *)

(** The exceptions of Python the functions raise.  [NotModelled] is none of
    them: it marks an input on which this embedding does not follow the
    code, such as a date in a spelling it does not read. *)
Inductive exn :=
| AttributeError | KeyError | TypeError | ValueError | IOError
| OverflowError | OutOfBoundsDatetime | NotModelled.

Inductive result (A : Type) :=
| Ok (a : A)
| Raise (e : exn).
Arguments Ok {A} a.
Arguments Raise {A} e.

#[global] Instance result_ret : MRet result := fun A a => Ok a.
#[global] Instance result_bind : MBind result := fun A B f m =>
  match m with Ok a => f a | Raise e => Raise e end.

(** [for x in l: s = body(s, x)], stopping at the first exception. *)
Fixpoint for_each {A S : Type} (body : S -> A -> result S) (l : list A) (s : S)
  : result S :=
  match l with
  | [] => Ok s
  | x :: l' => s' ← body s x; for_each body l' s'
  end.

(** ** Tables *)

Record DataFrame := mkDataFrame {
  columns : list string;
  rows : list (list Cell)
}.

Record Series := mkSeries {
  s_name : string;
  s_values : list Cell
}.

(** Every row has one cell per column. *)
Definition well_formed (df : DataFrame) : Prop :=
  Forall (fun row => length row = length (columns df)) (rows df).

Fixpoint index_of (name : string) (cols : list string) : option nat :=
  match cols with
  | [] => None
  | c :: cs => if decide (c = name) then Some 0%nat else S <$> index_of name cs
  end.

(** The cell of [row] under the column [name]. *)
Definition row_get (cols : list string) (name : string) (row : list Cell) : Cell :=
  default Null (i ← index_of name cols; row !! i).

Definition row_set (cols : list string) (name : string) (v : Cell)
    (row : list Cell) : list Cell :=
  match index_of name cols with
  | Some i => <[i := v]> row
  | None => row
  end.

(** [row.name] on a row yielded by [iterrows]. *)
Definition getattr (cols : list string) (row : list Cell) (name : string)
  : result Cell :=
  if decide (name ∈ cols) then Ok (row_get cols name row) else Raise AttributeError.

(** [df.iterrows()]: the rows with their labels. *)
Definition iterrows (df : DataFrame) : list (nat * list Cell) :=
  zip (seq 0 (length (rows df))) (rows df).

(** [df[name]]. *)
Definition get_column (df : DataFrame) (name : string) : result Series :=
  if decide (name ∈ columns df)
  then Ok (mkSeries name (row_get (columns df) name <$> rows df))
  else Raise KeyError.

(** [df[name] = v] for a scalar [v]: overwrite the column where it is, or
    append it as the last column. *)
Definition set_column (df : DataFrame) (name : string) (v : Cell) : DataFrame :=
  if decide (name ∈ columns df)
  then mkDataFrame (columns df) (row_set (columns df) name v <$> rows df)
  else mkDataFrame (columns df ++ [name]) ((fun row => row ++ [v]) <$> rows df).

(** [df[name] = vs] for a column of values [vs], aligned by position. *)
Definition set_column_values (df : DataFrame) (name : string) (vs : list Cell)
  : DataFrame :=
  if decide (name ∈ columns df)
  then mkDataFrame (columns df)
         (zip_with (fun row v => row_set (columns df) name v row) (rows df) vs)
  else mkDataFrame (columns df ++ [name])
         (zip_with (fun row v => row ++ [v]) (rows df) vs).

(** [df.at[index, name] = v]. *)
Definition at_set (df : DataFrame) (index : nat) (name : string) (v : Cell)
  : DataFrame :=
  mkDataFrame (columns df) (alter (row_set (columns df) name v) index (rows df)).

(** ** [pd.merge(left, right, how="left", left_on=.., right_on=.., suffixes=..)] *)

(** The key columns named alike on both sides: such a column is kept once.
    pandas drops it from the right table, or from the left table when the
    left table has no rows. *)
Definition shared_keys (left_on right_on : list string) : list string :=
  fst <$> filter (fun p => p.1 = p.2) (zip left_on right_on).

Definition drop_columns (drop cols : list string) : list string :=
  filter (fun c => c ∉ drop) cols.

Definition drop_cells (drop cols : list string) (row : list Cell) : list Cell :=
  snd <$> filter (fun p => p.1 ∉ drop) (zip cols row).

Definition merge_key (cols on : list string) (row : list Cell) : list Cell :=
  (fun k => row_get cols k row) <$> on.

(** A column name present on both sides takes its side's suffix. *)
Definition with_suffix (overlap : list string) (suffix c : string) : string :=
  if decide (c ∈ overlap) then c +:+ suffix else c.

(** The columns of the result: those of the left table, then those of the
    right table.  The result may hold one name twice, as the docstring
    example of [merge_intake_n_outcome] shows. *)
Definition merge_columns (left right : DataFrame) (left_on right_on : list string)
    (suffixes : string * string) : list string :=
  let shared := shared_keys left_on right_on in
  let lcols := match rows left with
               | [] => drop_columns shared (columns left)
               | _ => columns left
               end in
  let rcols := match rows left with
               | [] => columns right
               | _ => drop_columns shared (columns right)
               end in
  let overlap := filter (fun c => c ∈ rcols) lcols in
  (with_suffix overlap suffixes.1 <$> lcols)
  ++ (with_suffix overlap suffixes.2 <$> rcols).

(** The output rows of one left row: one per right row with an equal key, in
    the right table's order, or the left row padded with missing values.
    pandas matches a missing key against a missing key. *)
Definition join_row (left right : DataFrame) (left_on right_on : list string)
    (l : list Cell) : list (list Cell) :=
  let drop := shared_keys left_on right_on in
  match filter (fun r => merge_key (columns right) right_on r
                         = merge_key (columns left) left_on l) (rows right) with
  | [] => [l ++ replicate (length (drop_columns drop (columns right))) Null]
  | matches => (fun r => l ++ drop_cells drop (columns right) r) <$> matches
  end.

Definition merge_rows (left right : DataFrame) (left_on right_on : list string)
  : list (list Cell) :=
  concat (join_row left right left_on right_on <$> rows left).

Definition pd_merge_left (left right : DataFrame) (left_on right_on : list string)
    (suffixes : string * string) : result DataFrame :=
  if decide (Forall (fun k => k ∈ columns left) left_on
             ∧ Forall (fun k => k ∈ columns right) right_on)
  then Ok (mkDataFrame (merge_columns left right left_on right_on suffixes)
                       (merge_rows left right left_on right_on))
  else Raise KeyError.

(** [df.reset_index(drop=True)]: the labels become the positions, which is
    what they are in this model. *)
Definition reset_index (df : DataFrame) : DataFrame := df.

(** ** [merge_intake_n_outcome] *)

(** Body of the loop over [outcome_data.iterrows()]. *)
Definition outcome_loop_body (cols : list string)
    (outcome_dict : gmap Cell (list Cell)) (ir : nat * list Cell)
  : result (gmap Cell (list Cell)) :=
  let row := ir.2 in
  animal_id ← getattr cols row "animal_id";
  match outcome_dict !! animal_id with
  | None =>
      datetime ← getattr cols row "datetime";
      Ok (<[animal_id := [] ++ [datetime]]> outcome_dict)
  | Some queue =>
      datetime ← getattr cols row "datetime";
      Ok (<[animal_id := queue ++ [datetime]]> outcome_dict)
  end.

(** Body of the loop over [intake_data.iterrows()]: the state is the
    dictionary of queues and the intake table being written. *)
Definition intake_loop_body (cols : list string)
    (st : gmap Cell (list Cell) * DataFrame) (ir : nat * list Cell)
  : result (gmap Cell (list Cell) * DataFrame) :=
  let '(outcome_dict, intake_data) := st in
  let '(index, row) := ir in
  animal_id ← getattr cols row "animal_id";
  match outcome_dict !! animal_id with
  | Some (front :: rest) =>
      Ok (<[animal_id := rest]> outcome_dict,
          at_set intake_data index "datetime_outcome" front)
  | _ => Ok (outcome_dict, intake_data)
  end.

(** The two tables a call is given, and what they hold when it returns. *)
Record Tables := mkTables {
  intake_data : DataFrame;
  outcome_data : DataFrame
}.

Definition merge_intake_n_outcome (args : Tables) : result (DataFrame * Tables) :=
  let outcome := outcome_data args in
  outcome_dict ← for_each (outcome_loop_body (columns outcome)) (iterrows outcome) ∅;
  let intake := set_column (intake_data args) "datetime_outcome" NaT in
  '(_, intake) ← for_each (intake_loop_body (columns intake)) (iterrows intake)
                          (outcome_dict, intake);
  merged_data ← pd_merge_left intake outcome
                  ["animal_id"; "datetime_outcome"] ["animal_id"; "datetime"]
                  ("_intake", "_outcome");
  Ok (reset_index merged_data, mkTables intake outcome).

(** The table the call returns, when it returns. *)
Definition merged (args : Tables) : option DataFrame :=
  match merge_intake_n_outcome args with
  | Ok (m, _) => Some m
  | Raise _ => None
  end.

(** The tables of the docstring example of [merge_intake_n_outcome]: the
    intake rows are those printed, with an outcome table that gives the
    printed result. *)
Module Doctest.
Definition ts (y mo d h mi : Z) : Cell := Time (mkTimestamp y mo d h mi 0 0).

Definition test_intake : DataFrame :=
  mkDataFrame ["animal_id"; "datetime"]
    [ [Str "a"; ts 2019 5 8 18 20];
      [Str "a"; ts 2020 8 12 9 35];
      [Str "b"; ts 2013 4 21 7 24];
      [Str "c"; ts 2021 11 25 15 50];
      [Str "d"; ts 2022 3 7 21 5];
      [Str "e"; ts 2023 7 18 12 15] ].

Definition test_outcome : DataFrame :=
  mkDataFrame ["animal_id"; "datetime"]
    [ [Str "a"; ts 2019 5 13 18 20];
      [Str "b"; ts 2013 4 21 7 24];
      [Str "c"; ts 2021 11 25 15 50];
      [Str "d"; ts 2022 9 18 8 30] ].

Definition expected : DataFrame :=
  mkDataFrame ["animal_id"; "datetime_intake"; "datetime_outcome"; "datetime_outcome"]
    [ [Str "a"; ts 2019 5 8 18 20; ts 2019 5 13 18 20; ts 2019 5 13 18 20];
      [Str "a"; ts 2020 8 12 9 35; NaT; NaT];
      [Str "b"; ts 2013 4 21 7 24; ts 2013 4 21 7 24; ts 2013 4 21 7 24];
      [Str "c"; ts 2021 11 25 15 50; ts 2021 11 25 15 50; ts 2021 11 25 15 50];
      [Str "d"; ts 2022 3 7 21 5; ts 2022 9 18 8 30; ts 2022 9 18 8 30];
      [Str "e"; ts 2023 7 18 12 15; NaT; NaT] ].
Definition args : Tables := mkTables test_intake test_outcome.
End Doctest.

(** ** Vocabulary of the correlation properties *)

(** The entity key of a row. *)
Definition entity (cols : list string) (row : list Cell) : Cell :=
  row_get cols "animal_id" row.

(** The rows of entity [E], in table order. *)
Definition rows_of (df : DataFrame) (E : Cell) : list (list Cell) :=
  filter (fun row => entity (columns df) row = E) (rows df).

(** The outcome timestamps of entity [E], in outcome-table order. *)
Definition outcome_timestamps (outcome : DataFrame) (E : Cell) : list Cell :=
  row_get (columns outcome) "datetime" <$> rows_of outcome E.

(** The value of the column the correlator adds. *)
Definition matched_timestamp (cols : list string) (row : list Cell) : Cell :=
  row_get cols "datetime_outcome" row.

(** The queue of an entity in the dictionary; an absent key and an empty
    queue are treated alike by the intake loop. *)
Definition queue (outcome_dict : gmap Cell (list Cell)) (E : Cell) : list Cell :=
  default [] (outcome_dict !! E).

(** The intake loop as a pass over the rows that threads the dictionary. *)
Fixpoint pair_rows (cols : list string) (outcome_dict : gmap Cell (list Cell))
    (rs : list (list Cell)) : list (list Cell) :=
  match rs with
  | [] => []
  | row :: rest =>
      match outcome_dict !! entity cols row with
      | Some (front :: q) =>
          row_set cols "datetime_outcome" front row
          :: pair_rows cols (<[entity cols row := q]> outcome_dict) rest
      | _ => row :: pair_rows cols outcome_dict rest
      end
  end.

(** Writing a popped timestamp, if there was one. *)
Definition assign (cols : list string) (o : option Cell) (row : list Cell)
  : list Cell :=
  match o with
  | Some t => row_set cols "datetime_outcome" t row
  | None => row
  end.

(** The columns the call needs. *)
Definition has_keys (args : Tables) : Prop :=
  "animal_id" ∈ columns (intake_data args)
  ∧ "animal_id" ∈ columns (outcome_data args)
  ∧ "datetime" ∈ columns (outcome_data args).

Definition is_str (c : Cell) : bool :=
  match c with Str _ => true | _ => false end.

Definition is_datetime (c : Cell) : bool :=
  match c with Time _ | Null => true | _ => false end.

(** The tables the correlator is written for: both rectangular and with
    their key columns, the entity keys strings, and the outcome table's
    datetime column of the timestamp type (a timestamp or [NaT] in every
    row). *)
Definition contract (args : Tables) : Prop :=
  has_keys args
  ∧ well_formed (intake_data args)
  ∧ well_formed (outcome_data args)
  ∧ Forall (fun row => is_str (entity (columns (intake_data args)) row) = true)
           (rows (intake_data args))
  ∧ Forall (fun row => is_str (entity (columns (outcome_data args)) row) = true)
           (rows (outcome_data args))
  ∧ Forall (fun row =>
              is_datetime (row_get (columns (outcome_data args)) "datetime" row)
              = true)
           (rows (outcome_data args)).

(** The outcome table is timestamp-typed: no timestamp is missing. *)
Definition timestamp_typed (outcome : DataFrame) : Prop :=
  Forall (fun row => isna (row_get (columns outcome) "datetime" row) = false)
         (rows outcome).

(** What [intake_data['datetime_outcome'] = pd.NaT] does to one row. *)
Definition reset_row (cols : list string) (row : list Cell) : list Cell :=
  if decide ("datetime_outcome" ∈ cols)
  then row_set cols "datetime_outcome" NaT row
  else row ++ [NaT].

(** The intake table with the added column still empty. *)
Definition intake_reset (args : Tables) : DataFrame :=
  set_column (intake_data args) "datetime_outcome" NaT.

(** The left join the call ends with, once its keys are known to exist. *)
Definition joined (intake outcome : DataFrame) : DataFrame :=
  let left_on := ["animal_id"; "datetime_outcome"] in
  let right_on := ["animal_id"; "datetime"] in
  mkDataFrame (merge_columns intake outcome left_on right_on ("_intake", "_outcome"))
              (merge_rows intake outcome left_on right_on).

(** Two outcome rows of one entity with the same timestamp. *)
Module Duplicates.
Definition intake_one : DataFrame :=
  mkDataFrame ["animal_id"; "datetime"]
    [ [Str "a"; Doctest.ts 2019 5 8 18 20] ].

Definition intake_two : DataFrame :=
  mkDataFrame ["animal_id"; "datetime"]
    [ [Str "a"; Doctest.ts 2019 5 8 18 20];
      [Str "a"; Doctest.ts 2020 8 12 9 35] ].

Definition twin_outcome : DataFrame :=
  mkDataFrame ["animal_id"; "datetime"; "outcome_type"]
    [ [Str "a"; Doctest.ts 2019 5 13 18 20; Str "Adoption"];
      [Str "a"; Doctest.ts 2019 5 13 18 20; Str "Transfer"] ].
End Duplicates.

(** A second outcome table, with a column of its own named like the one
    the correlator adds. *)
Module Clash.
Definition named_outcome : DataFrame :=
  mkDataFrame ["animal_id"; "datetime"; "datetime_outcome"]
    [ [Str "a"; Doctest.ts 2019 5 13 18 20; Doctest.ts 2019 5 13 0 0] ].
End Clash.

(** ** [get_data] *)

(** What the function sees of the network: the status code of
    [requests.get(url)] and the table [pd.read_csv(url)] reads, either of
    which may raise instead. *)
Record Web := mkWeb {
  requests_get : string -> result Z;
  read_csv : string -> result DataFrame
}.

(** [str.upper()] for names written in ASCII: the letters a to z are put in
    upper case and every other character is kept.  What [str.upper()] does
    to letters beyond ASCII is not modelled. *)
Definition is_ascii (s : string) : bool :=
  forallb (fun c => (nat_of_ascii c <? 128)%nat) (list_ascii_of_string s).

Definition upper_ascii (c : ascii) : ascii :=
  let n := nat_of_ascii c in
  if ((97 <=? n) && (n <=? 122))%nat then ascii_of_nat (n - 32) else c.

Fixpoint upper (s : string) : string :=
  match s with
  | EmptyString => EmptyString
  | String c s' => String (upper_ascii c) (upper s')
  end.

Definition success_message (file_name : string) (n : nat) : string :=
  "Successfully get " +:+ upper file_name +:+ " data(" +:+ pretty n +:+ " rows)...".

Definition failure_message (file_name : string) (status : Z) : string :=
  "Failed to retrieve " +:+ upper file_name +:+ " data. Status code: "
  +:+ pretty status.

(** Body of the loop over [urls.items()]: the state is [data_dict] and what
    has been printed. *)
Definition get_data_body (web : Web)
    (st : gmap string DataFrame * list string) (item : string * string)
  : result (gmap string DataFrame * list string) :=
  let '(data_dict, stdout) := st in
  let '(file_name, url) := item in
  status ← requests_get web url;
  if decide (status = 200)
  then
    data ← read_csv web url;
    let data_dict := <[file_name := data]> data_dict in
    Ok (data_dict, stdout ++ [success_message file_name (length (rows data))])
  else Ok (data_dict, stdout ++ [failure_message file_name status]).

(** [d[key]]. *)
Definition getitem {V} (d : gmap string V) (key : string) : result V :=
  match d !! key with
  | Some v => Ok v
  | None => Raise KeyError
  end.

(** [urls] is a dictionary iterated in insertion order: the list of its
    items.  The result is the pair of tables and what was printed. *)
Definition get_data (web : Web) (urls : list (string * string))
  : result ((DataFrame * DataFrame) * list string) :=
  '(data_dict, stdout) ← for_each (get_data_body web) urls (∅, []);
  intake ← getitem data_dict "intake";
  outcome ← getitem data_dict "outcome";
  Ok ((intake, outcome), stdout).

(** A network on which the intake dataset is served and the outcome
    dataset is not found. *)
Module Offline.
Definition web : Web :=
  mkWeb (fun url => if decide (url = "https://data.example/intake.csv")
                    then Ok 200 else Ok 404)
        (fun _ => Ok Doctest.test_intake).

Definition urls : list (string * string) :=
  [ ("intake", "https://data.example/intake.csv");
    ("outcome", "https://data.example/outcome.csv") ].
End Offline.


(** ** Timestamps *)

Definition is_leap (y : Z) : bool :=
  ((y mod 4 =? 0) && negb (y mod 100 =? 0)) || (y mod 400 =? 0).

Definition days_in_month (y m : Z) : Z :=
  if m =? 2 then (if is_leap y then 29 else 28)
  else if (m =? 4) || (m =? 6) || (m =? 9) || (m =? 11) then 30
  else 31.

(** The values a [pd.Timestamp] takes; the years are those whose every
    instant fits the 64-bit count of nanoseconds. *)
Definition valid_timestamp (t : Timestamp) : Prop :=
  1678 <= year t <= 2261
  /\ 1 <= month t <= 12
  /\ 1 <= day t <= days_in_month (year t) (month t)
  /\ 0 <= hour t < 24
  /\ 0 <= minute t < 60
  /\ 0 <= second t < 60
  /\ 0 <= nanosecond t < 1000000000.

(** Days from 1970-01-01 to a civil date. *)
Definition days_from_civil (y m d : Z) : Z :=
  let y' := if m <=? 2 then y - 1 else y in
  let era := y' / 400 in
  let yoe := y' - era * 400 in
  let mp := if m >? 2 then m - 3 else m + 9 in
  let doy := (153 * mp + 2) / 5 + d - 1 in
  let doe := yoe * 365 + yoe / 4 - yoe / 100 + doy in
  era * 146097 + doe - 719468.

Definition ns_per_day : Z := 86400000000000.

(** The count of nanoseconds a timestamp is stored as. *)
Definition to_ns (t : Timestamp) : Z :=
  days_from_civil (year t) (month t) (day t) * ns_per_day
  + hour t * 3600000000000 + minute t * 60000000000
  + second t * 1000000000 + nanosecond t.

(** pandas stores a timestamp and a time difference as a count of
    nanoseconds in 64 bits; the lowest 64-bit value stands for [NaT]. *)
Definition fits_int64 (n : Z) : bool := (- 2 ^ 63 <? n) && (n <? 2 ^ 63).

(** ** Timestamps as text *)

Definition digit_char (d : Z) : ascii := ascii_of_nat (48 + Z.to_nat d).

Definition digit_value (c : ascii) : option Z :=
  let n := nat_of_ascii c in
  if ((48 <=? n) && (n <=? 57))%nat then Some (Z.of_nat (n - 48)) else None.

(** [n] in decimal, zero-padded to two and to four digits. *)
Definition pad2 (n : Z) : string :=
  String (digit_char (n / 10 mod 10)) (String (digit_char (n mod 10)) "").

Definition pad4 (n : Z) : string :=
  String (digit_char (n / 1000 mod 10))
    (String (digit_char (n / 100 mod 10)) (pad2 n)).

(** The text a directive of [strftime] stands for; the directives of dates
    and times of day are modelled. *)
Definition directive (d : ascii) (t : Timestamp) : option string :=
  if decide (d = "Y"%char) then Some (pad4 (year t))
  else if decide (d = "m"%char) then Some (pad2 (month t))
  else if decide (d = "d"%char) then Some (pad2 (day t))
  else if decide (d = "H"%char) then Some (pad2 (hour t))
  else if decide (d = "M"%char) then Some (pad2 (minute t))
  else if decide (d = "S"%char) then Some (pad2 (second t))
  else if decide (d = "%"%char) then Some "%"
  else None.

Fixpoint strftime (datetime_format : string) (t : Timestamp) : option string :=
  match datetime_format with
  | EmptyString => Some EmptyString
  | String c rest =>
      if decide (c = "%"%char)
      then match rest with
           | String d rest' =>
               text ← directive d t;
               tail ← strftime rest' t;
               Some (text +:+ tail)
           | EmptyString => None
           end
      else String c <$> strftime rest t
  end.

(** Reading [n] decimal digits. *)
Fixpoint parse_digits (n : nat) (acc : Z) (s : string) : option (Z * string) :=
  match n with
  | O => Some (acc, s)
  | S n' =>
      match s with
      | String c s' => d ← digit_value c; parse_digits n' (10 * acc + d) s'
      | EmptyString => None
      end
  end.

Definition expect (c : ascii) (s : string) : option string :=
  match s with
  | String c' s' => if decide (c' = c) then Some s' else None
  | EmptyString => None
  end.

(** A fraction of a second of one to nine digits, in nanoseconds. *)
Fixpoint parse_fraction (scale : nat) (acc : Z) (s : string) : option Z :=
  match s with
  | EmptyString => Some (acc * 10 ^ Z.of_nat scale)
  | String c s' =>
      match scale with
      | O => None
      | S scale' => d ← digit_value c; parse_fraction scale' (10 * acc + d) s'
      end
  end.

(** The timestamp [t] with the field of the directive [d] set to [n]. *)
Definition set_field (d : ascii) (n : Z) (t : Timestamp) : option Timestamp :=
  if decide (d = "Y"%char)
  then Some (mkTimestamp n (month t) (day t) (hour t) (minute t) (second t)
                         (nanosecond t))
  else if decide (d = "m"%char)
  then Some (mkTimestamp (year t) n (day t) (hour t) (minute t) (second t)
                         (nanosecond t))
  else if decide (d = "d"%char)
  then Some (mkTimestamp (year t) (month t) n (hour t) (minute t) (second t)
                         (nanosecond t))
  else if decide (d = "H"%char)
  then Some (mkTimestamp (year t) (month t) (day t) n (minute t) (second t)
                         (nanosecond t))
  else if decide (d = "M"%char)
  then Some (mkTimestamp (year t) (month t) (day t) (hour t) n (second t)
                         (nanosecond t))
  else if decide (d = "S"%char)
  then Some (mkTimestamp (year t) (month t) (day t) (hour t) (minute t) n
                         (nanosecond t))
  else None.

(** The digits a directive takes: four for the year, two for the others. *)
Definition width (d : ascii) : nat :=
  if decide (d = "Y"%char) then 4%nat else 2%nat.

(** [strptime]: the text [s] read under a format, field by field into [t].
    The whole text has to be spelled as the format says, with zero-padded
    fields; [%f], a fraction of a second of one to nine digits, ends the
    format. *)
Fixpoint strptime (datetime_format s : string) (t : Timestamp)
  : option Timestamp :=
  match datetime_format with
  | EmptyString =>
      match s with
      | EmptyString => Some t
      | _ => None
      end
  | String c rest =>
      if decide (c = "%"%char)
      then match rest with
           | String d rest' =>
               if decide (d = "%"%char)
               then s' ← expect "%" s; strptime rest' s' t
               else if decide (d = "f"%char)
               then match rest', s with
                    | EmptyString, String _ _ =>
                        ns ← parse_fraction 9 0 s;
                        Some (mkTimestamp (year t) (month t) (day t) (hour t)
                                          (minute t) (second t) ns)
                    | _, _ => None
                    end
               else
                 '(n, s') ← parse_digits (width d) 0 s;
                 t' ← set_field d n t;
                 strptime rest' s' t'
           | EmptyString => None
           end
      else s' ← expect c s; strptime rest s' t
  end.

(** The fields name a day of the calendar and a time of day. *)
Definition is_date (t : Timestamp) : bool :=
  bool_decide (1000 <= year t
               /\ 1 <= month t <= 12
               /\ 1 <= day t <= days_in_month (year t) (month t)
               /\ hour t < 24 /\ minute t < 60 /\ second t < 60).

(** The text [s] read under the format [fmt]; a field the format does not
    name is the first month, the first day, or zero. *)
Definition read_as (fmt s : string) : option Timestamp :=
  t ← strptime fmt s (mkTimestamp 1900 1 1 0 0 0 0);
  if is_date t then Some t else None.

(** The format of an ISO 8601 text, by its length and, before a time of day,
    its separator. *)
Definition iso_format (s : string) : option string :=
  let sep := match String.get 10 s with
             | Some c => if decide (c = "T"%char) then "T" else " "
             | None => " "
             end in
  match String.length s with
  | 4%nat => Some "%Y"
  | 7%nat => Some "%Y-%m"
  | 10%nat => Some "%Y-%m-%d"
  | 13%nat => Some "%Y-%m-%d %H"
  | 16%nat => Some ("%Y-%m-%d" +:+ sep +:+ "%H:%M")
  | 19%nat => Some ("%Y-%m-%d" +:+ sep +:+ "%H:%M:%S")
  | n => if (21 <=? n)%nat
         then Some ("%Y-%m-%d" +:+ sep +:+ "%H:%M:%S.%f")
         else None
  end.

(** The format [pd.to_datetime] infers from a text.  The ISO 8601 spellings
    with zero-padded fields are modelled: the year, the year and the month,
    the date, and the date followed by the time of day to the hour, to the
    minute, to the second or to a fraction of a second, after a blank or
    (but for the hour alone) a T.  Of any other text the model says
    nothing: [None]. *)
Definition guess_datetime_format (s : string) : option string :=
  fmt ← iso_format s;
  _ ← read_as fmt s;
  Some fmt.

(** ** [date_format] *)

(** A timestamp outside the 64-bit count of nanoseconds is refused. *)
Definition timestamp_cell (t : Timestamp) : result Cell :=
  if fits_int64 (to_ns t) then Ok (Time t) else Raise OutOfBoundsDatetime.

(** [pd.to_datetime] on one value of a column whose format [fmt] has been
    inferred: a text is read under that format, and a text in another of
    the modelled spellings fails the call.  Numbers, which pandas reads as
    offsets from the epoch, and texts in no modelled spelling are not
    modelled. *)
Definition strptime_cell (fmt : string) (c : Cell) : result Cell :=
  match c with
  | Str s =>
      match read_as fmt s with
      | Some t => timestamp_cell t
      | None =>
          match guess_datetime_format s with
          | Some _ => Raise ValueError
          | None => Raise NotModelled
          end
      end
  | Time t => Ok (Time t)
  | Null => Ok NaT
  | _ => Raise NotModelled
  end.

(** [pd.to_datetime] on one value where no format has been inferred: a text
    is read in its own spelling. *)
Definition to_datetime_cell (c : Cell) : result Cell :=
  match c with
  | Str s =>
      match guess_datetime_format s with
      | Some fmt => strptime_cell fmt c
      | None => Raise NotModelled
      end
  | Time t => Ok (Time t)
  | Null => Ok NaT
  | _ => Raise NotModelled
  end.

Fixpoint traverse {A B} (f : A -> result B) (l : list A) : result (list B) :=
  match l with
  | [] => Ok []
  | x :: l' => y ← f x; ys ← traverse f l'; Ok (y :: ys)
  end.

(** The first value of a column that is not missing. *)
Definition first_non_null (values : list Cell) : option Cell :=
  head (filter (fun c => isna c = false) values).

(** [pd.to_datetime(series)].  pandas infers one format from the first value
    that is not missing, when that value is a text, and reads every text of
    the column under it: a column of texts in two spellings fails.  One
    value that cannot be read fails the call. *)
Definition to_datetime (values : list Cell) : result (list Cell) :=
  match first_non_null values with
  | Some (Str s) =>
      match guess_datetime_format s with
      | Some fmt => traverse (strptime_cell fmt) values
      | None => Raise NotModelled
      end
  | _ => traverse to_datetime_cell values
  end.

(** [series.dt.strftime(datetime_format)] on one value; a directive other
    than those of [directive] is not modelled. *)
Definition strftime_cell (datetime_format : string) (c : Cell) : result Cell :=
  match c with
  | Time t =>
      match strftime datetime_format t with
      | Some s => Ok (Str s)
      | None => Raise NotModelled
      end
  | Null => Ok NaN
  | _ => Raise AttributeError
  end.

Definition dt_strftime (values : list Cell) (datetime_format : string)
  : result (list Cell) :=
  traverse (strftime_cell datetime_format) values.

(** The table is written in place and returned. *)
Definition date_format (df : DataFrame) (col datetime_format : string)
  : result DataFrame :=
  column ← get_column df col;
  parsed ← to_datetime (s_values column);
  let df := set_column_values df col parsed in
  column ← get_column df col;
  rendered ← dt_strftime (s_values column) datetime_format;
  parsed ← to_datetime rendered;
  Ok (set_column_values df col parsed).

(** The same day at midnight. *)
Definition midnight (t : Timestamp) : Timestamp :=
  mkTimestamp (year t) (month t) (day t) 0 0 0 0.

(** The precisions a format of [date_format] may ask for, their formats, and
    what is left of a timestamp at each. *)
Inductive Precision := Year | Month | Day | Hour | Minute | Second.

Definition format_of (p : Precision) : string :=
  match p with
  | Year => "%Y"
  | Month => "%Y-%m"
  | Day => "%Y-%m-%d"
  | Hour => "%Y-%m-%d %H"
  | Minute => "%Y-%m-%d %H:%M"
  | Second => "%Y-%m-%d %H:%M:%S"
  end.

Definition truncate (p : Precision) (t : Timestamp) : Timestamp :=
  match p with
  | Year => mkTimestamp (year t) 1 1 0 0 0 0
  | Month => mkTimestamp (year t) (month t) 1 0 0 0 0
  | Day => mkTimestamp (year t) (month t) (day t) 0 0 0 0
  | Hour => mkTimestamp (year t) (month t) (day t) (hour t) 0 0 0
  | Minute => mkTimestamp (year t) (month t) (day t) (hour t) (minute t) 0 0
  | Second =>
      mkTimestamp (year t) (month t) (day t) (hour t) (minute t) (second t) 0
  end.

(** [truncate] on a value of a column: a missing value stays missing. *)
Definition truncate_cell (p : Precision) (c : Cell) : Cell :=
  match c with
  | Time t => Time (truncate p t)
  | _ => NaT
  end.

(** The text [strftime] gives at a precision. *)
Definition render (p : Precision) (t : Timestamp) : string :=
  match p with
  | Year => pad4 (year t)
  | Month => pad4 (year t) +:+ "-" +:+ pad2 (month t)
  | Day => pad4 (year t) +:+ "-" +:+ pad2 (month t) +:+ "-" +:+ pad2 (day t)
  | Hour => pad4 (year t) +:+ "-" +:+ pad2 (month t) +:+ "-" +:+ pad2 (day t)
            +:+ " " +:+ pad2 (hour t)
  | Minute => pad4 (year t) +:+ "-" +:+ pad2 (month t) +:+ "-" +:+ pad2 (day t)
              +:+ " " +:+ pad2 (hour t) +:+ ":" +:+ pad2 (minute t)
  | Second => pad4 (year t) +:+ "-" +:+ pad2 (month t) +:+ "-" +:+ pad2 (day t)
              +:+ " " +:+ pad2 (hour t) +:+ ":" +:+ pad2 (minute t)
              +:+ ":" +:+ pad2 (second t)
  end.

(** What [strftime] leaves of a value of a column at a precision. *)
Definition render_cell (p : Precision) (c : Cell) : Cell :=
  match c with
  | Time t => Str (render p t)
  | _ => NaN
  end.

(** A value of a column of the timestamp type: a valid timestamp, or
    missing. *)
Definition valid_cell (c : Cell) : Prop :=
  match c with
  | Time t => valid_timestamp t
  | Null => True
  | _ => False
  end.

(** The coarser of two precisions. *)
Definition rank (p : Precision) : nat :=
  match p with
  | Year => 0 | Month => 1 | Day => 2 | Hour => 3 | Minute => 4 | Second => 5
  end.

Definition coarser (p q : Precision) : Precision :=
  if (rank p <=? rank q)%nat then p else q.

(** The fields of [t] that the format names, written over [acc]. *)
Fixpoint overlay (datetime_format : string) (t acc : Timestamp) : Timestamp :=
  match datetime_format with
  | EmptyString => acc
  | String c rest =>
      if decide (c = "%"%char)
      then match rest with
           | String d rest' =>
               let field :=
                 if decide (d = "Y"%char) then year t
                 else if decide (d = "m"%char) then month t
                 else if decide (d = "d"%char) then day t
                 else if decide (d = "H"%char) then hour t
                 else if decide (d = "M"%char) then minute t
                 else second t in
               overlay rest' t (default acc (set_field d field acc))
           | EmptyString => acc
           end
      else overlay rest t acc
  end.

(** ** [calculate_time_delta] *)

(** [a - b] on two values of timestamp columns, in 64-bit arithmetic. *)
Definition sub_cell (a b : Cell) : result Cell :=
  match a, b with
  | Time ta, Time tb =>
      if fits_int64 (to_ns ta - to_ns tb)
      then Ok (Timedelta (to_ns ta - to_ns tb))
      else Raise OverflowError
  | Time _, Null | Null, Time _ | Null, Null => Ok NaT
  | _, _ => if is_str a || is_str b then Raise TypeError else Raise NotModelled
  end.

(** What a subtraction of two columns raises when one of them is not of the
    timestamp type: [TypeError] when a text is among the values, as in a
    column of dates not yet converted.  Columns of numbers and of time
    differences, which pandas subtracts, are not modelled. *)
Definition sub_error (a b : list Cell) : exn :=
  if existsb is_str a || existsb is_str b then TypeError else NotModelled.

(** [a - b] on two columns of one table.  Two columns of the timestamp type
    are subtracted value by value; a column that holds anything else is of
    another type, and the subtraction fails as a whole. *)
Definition series_sub (a b : list Cell) : result (list Cell) :=
  if forallb is_datetime a && forallb is_datetime b
  then traverse (fun p => sub_cell p.1 p.2) (zip a b)
  else Raise (sub_error a b).

(** [.dt.days]: the whole days of a time difference, rounded down. *)
Definition days_cell (c : Cell) : result Cell :=
  match c with
  | Timedelta ns => Ok (Int (ns / ns_per_day))
  | Null => Ok NaN
  | _ => Raise AttributeError
  end.

Definition dt_days (values : list Cell) : result (list Cell) :=
  traverse days_cell values.

(** 365.25, which a float holds exactly. *)
Definition days_per_year : Q := 1461 # 4.

(** [x / 365.25]. *)
Definition div_years_cell (c : Cell) : result Cell :=
  match c with
  | Int d => Ok (Float (inject_Z d / days_per_year))
  | Float q => Ok (Float (q / days_per_year))
  | Null => Ok NaN
  | _ => Raise TypeError
  end.

(** The integer nearest to a rational, the even one of two equally near. *)
Definition round_half_even (q : Q) : Z :=
  let n := Qnum q in
  let d := Z.pos (Qden q) in
  let f := n / d in
  let r := n mod d in
  if 2 * r <? d then f
  else if d <? 2 * r then f + 1
  else if Z.even f then f else f + 1.

(** [round(x, 1)]. *)
Definition round1 (q : Q) : Q := round_half_even (q * (10 # 1)) # 10.

Definition round1_cell (c : Cell) : result Cell :=
  match c with
  | Float q => Ok (Float (round1 q))
  | Int d => Ok (Int d)
  | Null => Ok NaN
  | _ => Raise TypeError
  end.

(** The table is written in place; the call returns the new column and
    leaves the table with it. *)
Definition calculate_time_delta (df : DataFrame) (start end_ unit col_suffix : string)
  : result (Series * DataFrame) :=
  ends ← get_column df end_;
  starts ← get_column df start;
  time_delta ← series_sub (s_values ends) (s_values starts);
  time_in_days ← dt_days time_delta;
  if decide (start = "date_of_birth") then
    let column_name := "age_upon_" +:+ col_suffix +:+ "(" +:+ unit +:+ ")" in
    if decide (unit = "years") then
      quotient ← traverse div_years_cell time_in_days;
      time_in_years ← traverse round1_cell quotient;
      let df := set_column_values df column_name time_in_years in
      column ← get_column df column_name;
      Ok (column, df)
    else
      let df := set_column_values df column_name time_in_days in
      column ← get_column df column_name;
      Ok (column, df)
  else
    let column_name := "duration(" +:+ unit +:+ ")" in
    let df := set_column_values df column_name time_in_days in
    column ← get_column df column_name;
    Ok (column, df).

(** The whole days from [s] to [e]. *)
Definition whole_days (e s : Timestamp) : Z := (to_ns e - to_ns s) / ns_per_day.

(** The tables of the docstring examples of [calculate_time_delta]. *)
Module DeltaDoctest.
Definition test_df : DataFrame :=
  mkDataFrame ["date_of_birth"; "date_leave"]
    [ [Time (mkTimestamp 2014 4 2 15 55 0 0); Time (mkTimestamp 2015 4 27 14 45 0 0)] ].

Definition test_df2 : DataFrame :=
  mkDataFrame ["date_start"; "date_end"]
    [ [Time (mkTimestamp 2014 4 2 15 55 0 0); Time (mkTimestamp 2015 4 27 14 45 0 0)] ].
End DeltaDoctest.

(** The join key of an outcome row: its entity and its timestamp. *)
Definition outcome_key (outcome : DataFrame) : list Cell -> list Cell :=
  merge_key (columns outcome) ["animal_id"; "datetime"].


(** ** Further tables and vocabulary *)

(** The intake table of the docstring example, taken in later. *)
Definition test_intake_later : DataFrame :=
  mkDataFrame ["animal_id"; "datetime"; "intake_type"]
    [ [Str "a"; Doctest.ts 2021 1 8 18 20; Str "Stray"];
      [Str "a"; Doctest.ts 2021 2 12 9 35; Str "Stray"];
      [Str "b"; Doctest.ts 2021 3 21 7 24; Str "Owner Surrender"];
      [Str "c"; Doctest.ts 2021 4 25 15 50; Str "Stray"];
      [Str "d"; Doctest.ts 2021 5 7 21 5; Str "Stray"];
      [Str "e"; Doctest.ts 2021 6 18 12 15; Str "Wildlife"] ].

(** An outcome table whose timestamps were loaded under another name. *)
Definition outcome_renamed : DataFrame :=
  mkDataFrame ["animal_id"; "date_time"]
    [ [Str "a"; Doctest.ts 2019 5 13 18 20] ].

(** A network on which both datasets and a third one are served, and one on
    which the outcome address cannot be reached. *)
Module Online.
Definition web : Web :=
  mkWeb (fun _ => Ok 200)
        (fun url => if decide (url = "https://data.example/intake.csv")
                    then Ok Doctest.test_intake
                    else Ok Doctest.test_outcome).

Definition urls : list (string * string) :=
  [ ("intake", "https://data.example/intake.csv");
    ("locations", "https://data.example/locations.csv");
    ("outcome", "https://data.example/outcome.csv") ].

Definition unreachable : Web :=
  mkWeb (fun url => if decide (url = "https://data.example/intake.csv")
                    then Ok 200 else Raise IOError)
        (fun _ => Ok Doctest.test_intake).
End Online.

(** A table of dates as they are loaded, before any conversion. *)
Definition loaded_dates : DataFrame :=
  mkDataFrame ["animal_id"; "date"]
    [ [Str "a"; Str "2013-10-11 11:29:35"];
      [Str "b"; Str "2014-04-02 15:55:00"] ].


(** The name [calculate_time_delta] gives the column it writes. *)
Definition column_name (start unit col_suffix : string) : string :=
  if decide (start = "date_of_birth")
  then "age_upon_" +:+ col_suffix +:+ "(" +:+ unit +:+ ")"
  else "duration(" +:+ unit +:+ ")".

(** The number a cell holds, whether it is stored as an integer or as a
    float. *)
Definition number (c : Cell) : option Q :=
  match c with
  | Int d => Some (inject_Z d)
  | Float q => Some q
  | _ => None
  end.

(** What [calculate_time_delta] computes for one row. *)
Definition row_delta (start unit : string) (e s : Cell) : result Cell :=
  delta ← sub_cell e s;
  days ← days_cell delta;
  if decide (start = "date_of_birth") then
    if decide (unit = "years") then
      quotient ← div_years_cell days;
      round1_cell quotient
    else Ok days
  else Ok days.

(** What it computes for two columns: row by row when both are of the
    timestamp type. *)
Definition time_delta_rows (start unit : string) (ends starts : list Cell)
  : result (list Cell) :=
  if forallb is_datetime ends && forallb is_datetime starts
  then traverse (fun p => row_delta start unit p.1 p.2) (zip ends starts)
  else Raise (sub_error ends starts).

(** The number [calculate_time_delta] stores for a row that is [days] whole
    days long. *)
Definition row_number (start unit : string) (days : Z) : Q :=
  if decide (start = "date_of_birth") then
    if decide (unit = "years") then round1 (inject_Z days / days_per_year)
    else inject_Z days
  else inject_Z days.

(** The cell [calculate_time_delta] stores for a row with both dates. *)
Definition row_cell (start unit : string) (days : Z) : Cell :=
  if decide (start = "date_of_birth") then
    if decide (unit = "years") then
      Float (round1 (inject_Z days / days_per_year))
    else Int days
  else Int days.

(** The days from 1970-01-01 to the day of a timestamp. *)
Definition civil_days (t : Timestamp) : Z :=
  days_from_civil (year t) (month t) (day t).

(** The same time of day on the next day of the calendar. *)
Definition next_day (t : Timestamp) : Timestamp :=
  if day t <? days_in_month (year t) (month t) then
    mkTimestamp (year t) (month t) (day t + 1)
                (hour t) (minute t) (second t) (nanosecond t)
  else if month t <? 12 then
    mkTimestamp (year t) (month t + 1) 1
                (hour t) (minute t) (second t) (nanosecond t)
  else
    mkTimestamp (year t + 1) 1 1
                (hour t) (minute t) (second t) (nanosecond t).

(** A table of stays, one of them not ended. *)
Definition stays : DataFrame :=
  mkDataFrame ["animal_id"; "date_of_birth"; "came"; "left"]
    [ [Str "a"; Time (mkTimestamp 2014 4 2 0 0 0 0);
       Time (mkTimestamp 2015 4 27 14 45 0 0); Time (mkTimestamp 2015 4 27 13 45 0 0)];
      [Str "b"; Time (mkTimestamp 2012 2 28 0 0 0 0);
       Time (mkTimestamp 2016 2 28 9 0 0 0); NaT] ].

(** Stays that have all ended, the first of them before it began. *)
Definition stays_ended : DataFrame :=
  mkDataFrame ["animal_id"; "came"; "left"]
    [ [Str "a"; Time (mkTimestamp 2015 4 27 14 45 0 0);
       Time (mkTimestamp 2015 4 27 13 45 0 0)];
      [Str "b"; Time (mkTimestamp 2016 2 28 9 0 0 0);
       Time (mkTimestamp 2016 3 3 9 0 0 0)] ].

(** Stays that end on the last day of a year and of a February, with the
    day after. *)
Definition year_ends : DataFrame :=
  mkDataFrame ["came"; "left"; "day_after"]
    [ [Time (mkTimestamp 2015 12 30 9 0 0 0);
       Time (mkTimestamp 2015 12 31 9 0 0 0);
       Time (mkTimestamp 2016 1 1 9 0 0 0)];
      [Time (mkTimestamp 2016 2 23 9 0 0 0);
       Time (mkTimestamp 2016 2 28 9 0 0 0);
       Time (mkTimestamp 2016 2 29 9 0 0 0)];
      [Time (mkTimestamp 2015 2 18 9 0 0 0);
       Time (mkTimestamp 2015 2 28 9 0 0 0);
       Time (mkTimestamp 2015 3 1 9 0 0 0)] ].

(** Stays as they are loaded: the dates are texts. *)
Definition loaded_stays : DataFrame :=
  mkDataFrame ["animal_id"; "came"; "left"]
    [ [Str "a"; Str "2019-05-08 18:20:00"; Str "2019-05-13T09:05:00.000"];
      [Str "b"; Str "2020-02-28 23:59:00"; Str "2020-03-01T00:01:00.000"] ].

(** A table of dates with one of them missing. *)
Definition dates_with_missing : DataFrame :=
  mkDataFrame ["animal_id"; "date"]
    [ [Str "a"; Str "2013-10-11T11:29:35.000"];
      [Str "b"; NaT];
      [Str "c"; Str "2014-04-02T15:55:00.000"] ].

(** * Properties *)

(** The docstring example of [merge_intake_n_outcome]. *)
Example merge_doctest :
  merged Doctest.args = Some Doctest.expected.
Proof. vm_compute. reflexivity. Qed.

(** ** Rows and columns *)

Lemma index_of_Some name cols i :
  index_of name cols = Some i -> cols !! i = Some name.
Proof.
  revert i. induction cols as [|c cs IH]; intros i; simpl; [done|].
  case_decide as Hc.
  - intros [= <-]. by subst.
  - destruct (index_of name cs) as [k|] eqn:Hk; simpl; [|done].
    intros [= <-]. by apply IH.
Qed.

Lemma index_of_lt name cols i :
  index_of name cols = Some i -> (i < length cols)%nat.
Proof. intros H. eapply lookup_lt_Some, index_of_Some, H. Qed.

Lemma index_of_None name cols : index_of name cols = None <-> name ∉ cols.
Proof.
  induction cols as [|c cs IH]; simpl.
  - split; [intros _; apply not_elem_of_nil | done].
  - rewrite not_elem_of_cons. case_decide as Hc.
    + split; [done | intros [? _]; congruence].
    + destruct (index_of name cs); simpl.
      * split; [done|]. intros [_ H]. by apply IH in H.
      * split; [|done]. intros _. split; [congruence | by apply IH].
Qed.

Lemma index_of_elem name cols : name ∈ cols -> is_Some (index_of name cols).
Proof.
  intros Hin. destruct (index_of name cols) eqn:Hi; [eauto|].
  by apply index_of_None in Hi.
Qed.

Lemma index_of_app_l name cols more :
  name ∈ cols -> index_of name (cols ++ more) = index_of name cols.
Proof.
  induction cols as [|c cs IH]; simpl.
  - by intros ?%elem_of_nil.
  - intros Hin. case_decide; [done|].
    apply elem_of_cons in Hin as [|Hin]; [congruence|]. by rewrite IH.
Qed.

Lemma index_of_app_new name cols :
  name ∉ cols -> index_of name (cols ++ [name]) = Some (length cols).
Proof.
  induction cols as [|c cs IH]; simpl.
  - intros _. by rewrite decide_True.
  - intros [Hne Hnin]%not_elem_of_cons. rewrite decide_False by congruence.
    by rewrite IH.
Qed.

Lemma index_of_ne a b cols i j :
  a ≠ b -> index_of a cols = Some i -> index_of b cols = Some j -> i ≠ j.
Proof.
  intros Hab Ha%index_of_Some Hb%index_of_Some ->. congruence.
Qed.

Lemma length_row_set cols name v row :
  length (row_set cols name v row) = length row.
Proof. unfold row_set. destruct (index_of name cols); [apply length_insert | done]. Qed.

Lemma row_get_row_set_ne cols a b v row :
  a ≠ b -> row_get cols a (row_set cols b v row) = row_get cols a row.
Proof.
  intros Hab. unfold row_get, row_set.
  destruct (index_of a cols) as [i|] eqn:Hi; [|done].
  destruct (index_of b cols) as [j|] eqn:Hj; [|done]. simpl.
  rewrite list_lookup_insert_ne; [done|].
  intros ->. by eapply (index_of_ne a b).
Qed.

Lemma row_get_row_set_eq cols name v row :
  name ∈ cols -> length row = length cols ->
  row_get cols name (row_set cols name v row) = v.
Proof.
  intros [i Hi]%index_of_elem Hlen. unfold row_get, row_set. rewrite Hi. simpl.
  rewrite list_lookup_insert_eq; [done|].
  rewrite Hlen. by eapply index_of_lt.
Qed.

Lemma row_set_row_set cols name v w row :
  row_set cols name w (row_set cols name v row) = row_set cols name w row.
Proof.
  unfold row_set. destruct (index_of name cols); [|done].
  apply list_insert_insert_eq.
Qed.

Lemma entity_row_set cols v row :
  entity cols (row_set cols "datetime_outcome" v row) = entity cols row.
Proof. by apply row_get_row_set_ne. Qed.

Lemma entity_assign cols o row : entity cols (assign cols o row) = entity cols row.
Proof. destruct o; [apply entity_row_set | done]. Qed.

(** ** The two loops of [merge_intake_n_outcome] *)

Lemma queue_insert d id l E :
  queue (<[id := l]> d) E = if decide (E = id) then l else queue d E.
Proof.
  unfold queue. case_decide as HE.
  - subst. by rewrite lookup_insert_eq.
  - by rewrite lookup_insert_ne.
Qed.

Lemma outcome_loop_body_ok cols d ir :
  "animal_id" ∈ cols -> "datetime" ∈ cols ->
  outcome_loop_body cols d ir
  = Ok (<[entity cols ir.2 := queue d (entity cols ir.2)
                               ++ [row_get cols "datetime" ir.2]]> d).
Proof.
  intros Hid Hdt. unfold outcome_loop_body, getattr, queue.
  rewrite !decide_True by done. simpl. fold (entity cols ir.2).
  by destruct (d !! entity cols ir.2).
Qed.

(** The first loop appends each outcome timestamp to its entity's queue, in
    the order the rows are met. *)
Lemma outcome_loop_ok cols irs d :
  "animal_id" ∈ cols -> "datetime" ∈ cols ->
  exists d', for_each (outcome_loop_body cols) irs d = Ok d'
    /\ forall E, queue d' E
         = queue d E ++ (row_get cols "datetime"
                           <$> filter (fun row => entity cols row = E) irs.*2).
Proof.
  intros Hid Hdt. revert d.
  induction irs as [|ir irs IH]; intros d; simpl.
  - exists d. split; [done|]. intros E. by rewrite app_nil_r.
  - rewrite outcome_loop_body_ok by done. simpl.
    destruct (IH (<[entity cols ir.2 := queue d (entity cols ir.2)
                      ++ [row_get cols "datetime" ir.2]]> d)) as (d' & Hd' & Hq).
    exists d'. split; [done|]. intros E. rewrite Hq, queue_insert.
    rewrite filter_cons. case_decide as HE; case_decide as HE'; try congruence.
    + subst E. by rewrite <- app_assoc.
    + done.
Qed.

Lemma iterrows_snd df : (iterrows df).*2 = rows df.
Proof. unfold iterrows. apply snd_zip. by rewrite length_seq. Qed.

(** The dictionary built from the outcome table. *)
Lemma outcome_dict_ok outcome :
  "animal_id" ∈ columns outcome -> "datetime" ∈ columns outcome ->
  exists d, for_each (outcome_loop_body (columns outcome)) (iterrows outcome) ∅ = Ok d
    /\ forall E, queue d E = outcome_timestamps outcome E.
Proof.
  intros Hid Hdt.
  destruct (outcome_loop_ok (columns outcome) (iterrows outcome) ∅ Hid Hdt)
    as (d & Hd & Hq).
  exists d. split; [done|]. intros E. rewrite Hq, iterrows_snd.
  unfold queue. by rewrite lookup_empty.
Qed.

(** The second loop writes [pair_rows] into the intake table. *)
Lemma intake_loop_ok cols done rest d :
  "animal_id" ∈ cols ->
  exists d',
    for_each (intake_loop_body cols)
             (zip (seq (length done) (length rest)) rest)
             (d, mkDataFrame cols (done ++ rest))
    = Ok (d', mkDataFrame cols (done ++ pair_rows cols d rest)).
Proof.
  intros Hid. revert done d.
  induction rest as [|row rest IH]; intros done d; simpl.
  - by exists d.
  - unfold getattr. rewrite decide_True by done. simpl.
    fold (entity cols row).
    assert (Hstep : forall f : list Cell -> list Cell,
      alter f (length done) (done ++ row :: rest) = (done ++ [f row]) ++ rest).
    { intros f. rewrite <- (Nat.add_0_r (length done)), alter_app_r.
      simpl. by rewrite <- app_assoc. }
    assert (Hlen : forall x : list Cell, S (length done) = length (done ++ [x])).
    { intros x. rewrite length_app. simpl. lia. }
    destruct (d !! entity cols row) as [[|front q]|] eqn:Hq; simpl.
    + replace (done ++ row :: rest) with ((done ++ [row]) ++ rest)
        by (by rewrite <- app_assoc).
      rewrite (Hlen row).
      destruct (IH (done ++ [row]) d) as (d' & ->). exists d'.
      by rewrite <- app_assoc.
    + unfold at_set. simpl. rewrite Hstep.
      rewrite (Hlen (row_set cols "datetime_outcome" front row)).
      destruct (IH (done ++ [row_set cols "datetime_outcome" front row])
                   (<[entity cols row := q]> d)) as (d' & ->).
      exists d'. by rewrite <- app_assoc.
    + replace (done ++ row :: rest) with ((done ++ [row]) ++ rest)
        by (by rewrite <- app_assoc).
      rewrite (Hlen row).
      destruct (IH (done ++ [row]) d) as (d' & ->). exists d'.
      by rewrite <- app_assoc.
Qed.

Lemma pair_rows_filter cols d rs E :
  filter (fun row => entity cols row = E) (pair_rows cols d rs)
  = imap (fun k row => assign cols (queue d E !! k) row)
         (filter (fun row => entity cols row = E) rs).
Proof.
  revert d. induction rs as [|row rest IH]; intros d; [done|]. simpl.
  destruct (d !! entity cols row) as [[|front q]|] eqn:Hd.
  - assert (Hq : queue d (entity cols row) = []) by (unfold queue; by rewrite Hd).
    rewrite !filter_cons, IH. case_decide as HE; [|done].
    rewrite imap_cons. subst E. rewrite Hq. simpl. by f_equal.
  - assert (Hq : queue d (entity cols row) = front :: q)
      by (unfold queue; by rewrite Hd).
    rewrite !filter_cons, entity_row_set, IH.
    case_decide as HE.
    + rewrite imap_cons. subst E. rewrite Hq. simpl.
      f_equal. apply imap_ext. intros k x _. simpl.
      by rewrite queue_insert, decide_True.
    + apply imap_ext. intros k x _. simpl.
      by rewrite queue_insert, decide_False by congruence.
  - assert (Hq : queue d (entity cols row) = []) by (unfold queue; by rewrite Hd).
    rewrite !filter_cons, IH. case_decide as HE; [|done].
    rewrite imap_cons. subst E. rewrite Hq. simpl. by f_equal.
Qed.

(** Every row leaves the second loop as it was, or with a timestamp of its
    entity's queue written into the added column. *)
Lemma pair_rows_Forall2 cols d rs :
  Forall2 (fun row row' => row' = row
             \/ exists t, t ∈ queue d (entity cols row)
                  /\ row' = row_set cols "datetime_outcome" t row)
          rs (pair_rows cols d rs).
Proof.
  revert d. induction rs as [|row rest IH]; intros d; simpl; [constructor|].
  destruct (d !! entity cols row) as [[|front q]|] eqn:Hd; constructor; eauto.
  - right. exists front. split; [|done]. unfold queue. rewrite Hd. simpl. left.
  - eapply Forall2_impl; [apply IH|]. intros r r' [->|(t & Ht & ->)]; [by left|].
    right. exists t. split; [|done].
    rewrite queue_insert in Ht. case_decide as HE; [|done].
    rewrite HE. unfold queue. rewrite Hd. simpl. by right.
Qed.

Lemma length_pair_rows cols d rs : length (pair_rows cols d rs) = length rs.
Proof. symmetry. eapply Forall2_length, pair_rows_Forall2. Qed.

(** ** What a call of [merge_intake_n_outcome] computes *)

Lemma set_column_has df name v : name ∈ columns (set_column df name v).
Proof.
  unfold set_column. case_decide; simpl; [done|].
  apply elem_of_app. right. apply list_elem_of_singleton. done.
Qed.

Lemma set_column_keeps df name v c :
  c ∈ columns df -> c ∈ columns (set_column df name v).
Proof.
  intros Hc. unfold set_column. case_decide; simpl; [done|].
  apply elem_of_app. by left.
Qed.

Lemma merge_intake_n_outcome_ok args :
  has_keys args ->
  exists d,
    (forall E, queue d E = outcome_timestamps (outcome_data args) E)
    /\ let intake :=
         mkDataFrame (columns (intake_reset args))
           (pair_rows (columns (intake_reset args)) d (rows (intake_reset args))) in
       merge_intake_n_outcome args
       = Ok (joined intake (outcome_data args), mkTables intake (outcome_data args)).
Proof.
  intros (Hid & Hoid & Hodt).
  destruct (outcome_dict_ok (outcome_data args) Hoid Hodt) as (d & Hd & Hq).
  exists d. split; [done|]. simpl.
  unfold merge_intake_n_outcome. rewrite Hd. simpl.
  fold (intake_reset args).
  assert (Hid1 : "animal_id" ∈ columns (intake_reset args))
    by by apply set_column_keeps.
  destruct (intake_loop_ok (columns (intake_reset args)) []
              (rows (intake_reset args)) d Hid1) as (d' & Hloop).
  simpl in Hloop. unfold iterrows.
  replace (intake_reset args)
    with (mkDataFrame (columns (intake_reset args)) (rows (intake_reset args)))
    at 4 by by destruct (intake_reset args).
  rewrite Hloop. simpl.
  unfold pd_merge_left. simpl. rewrite decide_True; [done|].
  split; repeat constructor; try done. apply set_column_has.
Qed.

(** ** The intake table before the second loop *)

Lemma intake_reset_rows args :
  rows (intake_reset args)
  = reset_row (columns (intake_data args)) <$> rows (intake_data args).
Proof. unfold intake_reset, set_column, reset_row. by case_decide. Qed.

Lemma intake_reset_columns args :
  columns (intake_reset args)
  = if decide ("datetime_outcome" ∈ columns (intake_data args))
    then columns (intake_data args)
    else columns (intake_data args) ++ ["datetime_outcome"].
Proof. unfold intake_reset, set_column. by case_decide. Qed.

Lemma row_get_snoc cols more c row v :
  c ∈ cols -> length row = length cols ->
  row_get (cols ++ more) c (row ++ [v]) = row_get cols c row.
Proof.
  intros Hc Hlen. unfold row_get. rewrite index_of_app_l by done.
  destruct (index_of c cols) as [i|] eqn:Hi; [|done]. simpl.
  rewrite lookup_app_l; [done|]. rewrite Hlen. by eapply index_of_lt.
Qed.

Lemma row_get_reset_row args c row :
  c ∈ columns (intake_data args) -> c ≠ "datetime_outcome" ->
  length row = length (columns (intake_data args)) ->
  row_get (columns (intake_reset args)) c (reset_row (columns (intake_data args)) row)
  = row_get (columns (intake_data args)) c row.
Proof.
  intros Hc Hne Hlen. rewrite intake_reset_columns. unfold reset_row.
  case_decide.
  - by apply row_get_row_set_ne.
  - by apply row_get_snoc.
Qed.

Lemma length_reset_row args row :
  length row = length (columns (intake_data args)) ->
  length (reset_row (columns (intake_data args)) row)
  = length (columns (intake_reset args)).
Proof.
  intros Hlen. rewrite intake_reset_columns. unfold reset_row. case_decide.
  - by rewrite length_row_set.
  - rewrite !length_app. simpl. lia.
Qed.

Lemma matched_timestamp_reset_row args row :
  length row = length (columns (intake_data args)) ->
  matched_timestamp (columns (intake_reset args))
                    (reset_row (columns (intake_data args)) row) = NaT.
Proof.
  intros Hlen. unfold matched_timestamp.
  rewrite intake_reset_columns. unfold reset_row. case_decide as Hin.
  - by apply row_get_row_set_eq.
  - unfold row_get. rewrite index_of_app_new by done. simpl.
    rewrite lookup_app_r by lia. rewrite Hlen, Nat.sub_diag. done.
Qed.

Lemma well_formed_intake_reset args :
  well_formed (intake_data args) -> well_formed (intake_reset args).
Proof.
  unfold well_formed. rewrite intake_reset_rows, Forall_fmap.
  intros Hwf. eapply Forall_impl; [exact Hwf|].
  intros row Hlen. simpl. by apply length_reset_row.
Qed.

Lemma filter_entity_fmap cols cols' (f : list Cell -> list Cell) rs E :
  Forall (fun row => entity cols' (f row) = entity cols row) rs ->
  filter (fun row => entity cols' row = E) (f <$> rs)
  = f <$> filter (fun row => entity cols row = E) rs.
Proof.
  induction 1 as [|row rest Hrow _ IH]; [done|].
  rewrite fmap_cons, !filter_cons, IH, Hrow. by case_decide.
Qed.

Lemma rows_of_intake_reset args E :
  "animal_id" ∈ columns (intake_data args) ->
  well_formed (intake_data args) ->
  rows_of (intake_reset args) E
  = reset_row (columns (intake_data args)) <$> rows_of (intake_data args) E.
Proof.
  intros Hid Hwf. unfold rows_of. rewrite intake_reset_rows.
  apply filter_entity_fmap. eapply Forall_impl; [exact Hwf|].
  intros row Hlen. simpl in Hlen. by apply row_get_reset_row.
Qed.

(** The entity's rows of the intake table after the call: its rows before
    the call, the [k]-th of them given the [k]-th timestamp of the entity's
    queue when there is one. *)
Lemma rows_of_paired args d E :
  "animal_id" ∈ columns (intake_data args) ->
  well_formed (intake_data args) ->
  (forall E, queue d E = outcome_timestamps (outcome_data args) E) ->
  rows_of (mkDataFrame (columns (intake_reset args))
             (pair_rows (columns (intake_reset args)) d (rows (intake_reset args)))) E
  = imap (fun k row =>
            assign (columns (intake_reset args))
                   (outcome_timestamps (outcome_data args) E !! k)
                   (reset_row (columns (intake_data args)) row))
         (rows_of (intake_data args) E).
Proof.
  intros Hid Hwf Hq. unfold rows_of at 1. simpl.
  rewrite pair_rows_filter, Hq.
  fold (rows_of (intake_reset args) E).
  rewrite rows_of_intake_reset by done.
  by rewrite imap_fmap.
Qed.

(** ** FIFO pairing *)

(** The tables of the docstring example are as the correlator expects. *)
Lemma Doctest_contract : contract Doctest.args.
Proof. repeat split; repeat constructor. Defined.

Lemma rows_of_well_formed df E row :
  well_formed df -> row ∈ rows_of df E -> length row = length (columns df).
Proof.
  intros Hwf [_ Hin]%list_elem_of_filter.
  by apply (proj1 (Forall_forall _ _) Hwf).
Qed.

Lemma outcome_timestamps_typed outcome E t :
  timestamp_typed outcome -> t ∈ outcome_timestamps outcome E -> isna t = false.
Proof.
  intros Htyped (row & -> & [_ Hin]%list_elem_of_filter)%list_elem_of_fmap.
  by apply (proj1 (Forall_forall _ _) Htyped).
Qed.

(** C2.  For every entity [E] with [i] intake rows and [o] outcome rows, the
    [k]-th intake row of [E] leaves the call as the same row (equal on every
    column it had, the added one apart); if [i <= o] its matched timestamp is
    the [k]-th outcome timestamp of [E] in outcome-table order and is not
    null; if [i > o] the rows at positions [o .. i-1] have a null matched
    timestamp. *)
Theorem fifo_pairing (args : Tables) :
  contract args ->
  timestamp_typed (outcome_data args) ->
  exists merged_data args',
    merge_intake_n_outcome args = Ok (merged_data, args')
    /\ forall E k row0,
         rows_of (intake_data args) E !! k = Some row0 ->
         let i := length (rows_of (intake_data args) E) in
         let o := length (rows_of (outcome_data args) E) in
         exists row,
           rows_of (intake_data args') E !! k = Some row
           /\ (forall c, c ∈ columns (intake_data args) ->
                 c ≠ "datetime_outcome" ->
                 row_get (columns (intake_data args')) c row
                 = row_get (columns (intake_data args)) c row0)
           /\ ((i <= o)%nat ->
                 exists t, outcome_timestamps (outcome_data args) E !! k = Some t
                   /\ matched_timestamp (columns (intake_data args')) row = t
                   /\ isna t = false)
           /\ ((i > o)%nat -> (o <= k)%nat ->
                 matched_timestamp (columns (intake_data args')) row = NaT).
Proof.
  intros (Hkeys & Hwf & _) Htyped.
  destruct (merge_intake_n_outcome_ok args Hkeys) as (d & Hq & Hrun).
  destruct Hkeys as (Hid & _ & _).
  eexists _, _. split; [exact Hrun|]. cbn [intake_data columns].
  intros E k row0 Hk.
  set (i := length (rows_of (intake_data args) E)).
  set (o := length (rows_of (outcome_data args) E)).
  assert (Hlen0 : length row0 = length (columns (intake_data args))).
  { eapply rows_of_well_formed; [done|]. by eapply list_elem_of_lookup_2. }
  assert (Hlen_ts : length (outcome_timestamps (outcome_data args) E) = o).
  { unfold outcome_timestamps. by rewrite length_fmap. }
  rewrite rows_of_paired by done.
  rewrite list_lookup_imap, Hk. simpl. eexists. split; [done|].
  split; [|split].
  - intros c Hc Hne.
    rewrite <- (row_get_reset_row args c row0) by done.
    destruct (outcome_timestamps (outcome_data args) E !! k); simpl; [|done].
    by apply row_get_row_set_ne.
  - intros Hio.
    assert (Hki : (k < i)%nat) by by eapply lookup_lt_Some.
    destruct (lookup_lt_is_Some_2 (outcome_timestamps (outcome_data args) E) k)
      as [t Ht]; [lia|].
    exists t. rewrite Ht. simpl. split; [done|]. split.
    + apply row_get_row_set_eq; [apply set_column_has|].
      by apply length_reset_row.
    + eapply outcome_timestamps_typed; [done|].
      by eapply list_elem_of_lookup_2.
  - intros _ Hok.
    rewrite (lookup_ge_None_2 (outcome_timestamps (outcome_data args) E) k)
      by lia.
    simpl. by apply matched_timestamp_reset_row.
Qed.

Lemma fifo_pairing_witness :
  contract Doctest.args
  /\ exists merged_data args',
       merge_intake_n_outcome Doctest.args = Ok (merged_data, args').
Proof.
  split; [exact Doctest_contract|].
  destruct (fifo_pairing Doctest.args Doctest_contract) as (m & a & Hrun & _).
  - repeat constructor.
  - by exists m, a.
Defined.

(** ** Row count of the join *)

Lemma length_join_row_ge left right left_on right_on l :
  (1 <= length (join_row left right left_on right_on l))%nat.
Proof.
  unfold join_row. destruct (filter _ (rows right)); simpl; lia.
Qed.

Lemma length_concat_ge {A B} (f : A -> list B) (l : list A) :
  (forall x, 1 <= length (f x))%nat -> (length l <= length (concat (f <$> l)))%nat.
Proof.
  intros Hf. induction l as [|x l IH]; [simpl; lia|].
  rewrite fmap_cons, concat_cons, length_app. specialize (Hf x). simpl. lia.
Qed.

Lemma length_concat_eq {A B} (f : A -> list B) (l : list A) :
  (forall x, length (f x) = 1)%nat -> length (concat (f <$> l)) = length l.
Proof.
  intros Hf. induction l as [|x l IH]; [done|].
  rewrite fmap_cons, concat_cons, length_app, Hf, IH. done.
Qed.

Lemma length_filter_NoDup {A B} `{EqDecision B} (g : A -> B) (k : B) (l : list A) :
  NoDup (g <$> l) -> (length (filter (fun x => g x = k) l) <= 1)%nat.
Proof.
  induction l as [|x l IH]; [simpl; lia|].
  rewrite fmap_cons, NoDup_cons. intros [Hx Hl]. rewrite filter_cons.
  case_decide as Hk; [|by apply IH].
  destruct (filter (fun y => g y = k) l) as [|y ys] eqn:Hf; [simpl; lia|].
  exfalso. apply Hx.
  assert (Hy : y ∈ filter (fun y => g y = k) l) by (rewrite Hf; left).
  apply list_elem_of_filter in Hy as [Hgy Hy].
  rewrite Hk, <- Hgy. by apply list_elem_of_fmap_2.
Qed.

(** X1.  The join never loses an intake row. *)
Lemma merged_row_count_ge args :
  contract args ->
  exists merged_data args',
    merge_intake_n_outcome args = Ok (merged_data, args')
    /\ (length (rows (intake_data args)) <= length (rows merged_data))%nat.
Proof.
  intros (Hkeys & _).
  destruct (merge_intake_n_outcome_ok args Hkeys) as (d & _ & Hrun).
  eexists _, _. split; [exact Hrun|]. unfold joined, merge_rows. cbn [rows].
  etrans; [|apply length_concat_ge; intros; apply length_join_row_ge].
  by rewrite length_pair_rows, intake_reset_rows, length_fmap.
Qed.

(** When no two outcome rows share their entity and timestamp, the join
    yields one row per intake row. *)
Lemma merged_row_count_unique_keys args :
  contract args ->
  NoDup (merge_key (columns (outcome_data args)) ["animal_id"; "datetime"]
           <$> rows (outcome_data args)) ->
  exists merged_data args',
    merge_intake_n_outcome args = Ok (merged_data, args')
    /\ length (rows merged_data) = length (rows (intake_data args)).
Proof.
  intros (Hkeys & _) Hnodup.
  destruct (merge_intake_n_outcome_ok args Hkeys) as (d & _ & Hrun).
  eexists _, _. split; [exact Hrun|]. unfold joined, merge_rows. cbn [rows].
  rewrite length_concat_eq.
  - by rewrite length_pair_rows, intake_reset_rows, length_fmap.
  - intros l. unfold join_row.
    pose proof (length_filter_NoDup
      (merge_key (columns (outcome_data args)) ["animal_id"; "datetime"])
      (merge_key (columns (intake_reset args)) ["animal_id"; "datetime_outcome"] l)
      (rows (outcome_data args)) Hnodup) as Hle.
    simpl in Hle |- *.
    destruct (filter _ (rows (outcome_data args))) as [|r [|r' rs]]; simpl in *;
      [done | done | lia].
Qed.

(** C1.  The row count of the output is not the intake table's when two
    outcome rows of an entity carry the same timestamp: one intake row of
    entity a and two such outcome rows give two output rows. *)
Theorem row_count_with_duplicate_outcomes :
  contract (mkTables Duplicates.intake_one Duplicates.twin_outcome)
  /\ exists merged_data,
       merged (mkTables Duplicates.intake_one Duplicates.twin_outcome)
       = Some merged_data
       /\ length (rows Duplicates.intake_one) = 1%nat
       /\ length (rows merged_data) = 2%nat.
Proof.
  split; [repeat split; repeat constructor|].
  eexists. split; [vm_compute; reflexivity|]. split; reflexivity.
Qed.

(** C3.  With two outcome rows of entity a at one timestamp, each outcome
    row is joined to both intake rows of a; and with a single intake row of
    a, the outcome row in excess is in the output all the same. *)
Theorem outcome_rows_reused :
  contract (mkTables Duplicates.intake_two Duplicates.twin_outcome)
  /\ merged (mkTables Duplicates.intake_two Duplicates.twin_outcome)
  = Some (mkDataFrame
      ["animal_id"; "datetime_intake"; "datetime_outcome";
       "datetime_outcome"; "outcome_type"]
      [ [Str "a"; Doctest.ts 2019 5 8 18 20; Doctest.ts 2019 5 13 18 20;
         Doctest.ts 2019 5 13 18 20; Str "Adoption"];
        [Str "a"; Doctest.ts 2019 5 8 18 20; Doctest.ts 2019 5 13 18 20;
         Doctest.ts 2019 5 13 18 20; Str "Transfer"];
        [Str "a"; Doctest.ts 2020 8 12 9 35; Doctest.ts 2019 5 13 18 20;
         Doctest.ts 2019 5 13 18 20; Str "Adoption"];
        [Str "a"; Doctest.ts 2020 8 12 9 35; Doctest.ts 2019 5 13 18 20;
         Doctest.ts 2019 5 13 18 20; Str "Transfer"] ])
  /\ merged (mkTables Duplicates.intake_one Duplicates.twin_outcome)
    = Some (mkDataFrame
      ["animal_id"; "datetime_intake"; "datetime_outcome";
       "datetime_outcome"; "outcome_type"]
      [ [Str "a"; Doctest.ts 2019 5 8 18 20; Doctest.ts 2019 5 13 18 20;
         Doctest.ts 2019 5 13 18 20; Str "Adoption"];
        [Str "a"; Doctest.ts 2019 5 8 18 20; Doctest.ts 2019 5 13 18 20;
         Doctest.ts 2019 5 13 18 20; Str "Transfer"] ]).
Proof.
  split; [repeat split; repeat constructor|].
  split; vm_compute; reflexivity.
Qed.

(** ** The join under unique outcome keys *)

Lemma outcome_key_rows_of outcome E :
  outcome_key outcome <$> rows_of outcome E
  = (fun t => [E; t]) <$> outcome_timestamps outcome E.
Proof.
  unfold outcome_timestamps, rows_of. rewrite <- list_fmap_compose.
  apply list_fmap_ext. intros _ r [Hr _]%list_elem_of_lookup_2%list_elem_of_filter.
  unfold outcome_key, merge_key. simpl.
  fold (entity (columns outcome) r). by rewrite Hr.
Qed.

Lemma NoDup_outcome_timestamps outcome E :
  NoDup (outcome_key outcome <$> rows outcome) ->
  NoDup (outcome_timestamps outcome E).
Proof.
  intros Hnodup.
  apply (NoDup_fmap_1 (fun t => [E; t])).
  rewrite <- outcome_key_rows_of.
  eapply sublist_NoDup; [exact Hnodup|].
  apply fmap_sublist, sublist_filter.
Qed.

(** When no two outcome rows share their entity and timestamp and no
    timestamp is missing, the keys of the join pair the [k]-th intake row of
    an entity with its [k]-th outcome row and with no other. *)
Lemma join_pairs_kth_with_kth args d E k k' l r :
  "animal_id" ∈ columns (intake_data args) ->
  well_formed (intake_data args) ->
  timestamp_typed (outcome_data args) ->
  NoDup (outcome_key (outcome_data args) <$> rows (outcome_data args)) ->
  (forall E, queue d E = outcome_timestamps (outcome_data args) E) ->
  rows_of (mkDataFrame (columns (intake_reset args))
             (pair_rows (columns (intake_reset args)) d (rows (intake_reset args))))
          E !! k' = Some l ->
  rows_of (outcome_data args) E !! k = Some r ->
  merge_key (columns (intake_reset args)) ["animal_id"; "datetime_outcome"] l
  = outcome_key (outcome_data args) r
  <-> k' = k.
Proof.
  intros Hid Hwf Htyped Hnodup Hq Hl Hr.
  rewrite rows_of_paired in Hl by done.
  apply list_lookup_imap_Some in Hl as (row0 & Hrow0 & ->).
  assert (Hlen0 : length row0 = length (columns (intake_data args))).
  { eapply rows_of_well_formed; [done|]. by eapply list_elem_of_lookup_2. }
  assert (HE0 : entity (columns (intake_data args)) row0 = E).
  { apply list_elem_of_lookup_2, list_elem_of_filter in Hrow0. tauto. }
  assert (HEr : entity (columns (outcome_data args)) r = E).
  { apply list_elem_of_lookup_2, list_elem_of_filter in Hr. tauto. }
  assert (Ht : outcome_timestamps (outcome_data args) E !! k
               = Some (row_get (columns (outcome_data args)) "datetime" r)).
  { unfold outcome_timestamps. by rewrite list_lookup_fmap, Hr. }
  assert (Hnn : isna (row_get (columns (outcome_data args)) "datetime" r) = false).
  { eapply outcome_timestamps_typed; [done|]. by eapply list_elem_of_lookup_2. }
  unfold outcome_key, merge_key. cbn [fmap list_fmap].
  fold (entity (columns (outcome_data args)) r).
  fold (entity (columns (intake_reset args))
          (assign (columns (intake_reset args))
             (outcome_timestamps (outcome_data args) E !! k')
             (reset_row (columns (intake_data args)) row0))).
  fold (matched_timestamp (columns (intake_reset args))
          (assign (columns (intake_reset args))
             (outcome_timestamps (outcome_data args) E !! k')
             (reset_row (columns (intake_data args)) row0))).
  rewrite entity_assign, HEr.
  unfold entity. rewrite row_get_reset_row by done. fold (entity (columns (intake_data args)) row0).
  rewrite HE0.
  destruct (outcome_timestamps (outcome_data args) E !! k') as [t'|] eqn:Ht'; simpl.
  - unfold matched_timestamp.
    rewrite row_get_row_set_eq;
      [|apply set_column_has | by apply length_reset_row].
    split.
    + intros [= ->].
      eapply NoDup_lookup; [by apply NoDup_outcome_timestamps| exact Ht' | exact Ht].
    + intros ->. rewrite Ht in Ht'. by injection Ht' as ->.
  - rewrite matched_timestamp_reset_row by done. split.
    + intros [= Hnull]. rewrite <- Hnull in Hnn. done.
    + intros ->. congruence.
Qed.

(** X2.  When no outcome timestamp is missing and no two outcome rows share
    entity and timestamp, the join is the FIFO pairing itself: the output
    has one row per intake row, and an outcome row is joined to the intake
    row of its entity at its own position and to no other, so an outcome row
    beyond the entity's intake rows is joined to none. *)
Lemma join_is_fifo_pairing args :
  contract args ->
  timestamp_typed (outcome_data args) ->
  NoDup (outcome_key (outcome_data args) <$> rows (outcome_data args)) ->
  exists merged_data args',
    merge_intake_n_outcome args = Ok (merged_data, args')
    /\ length (rows merged_data) = length (rows (intake_data args))
    /\ forall E k k' l r,
         rows_of (intake_data args') E !! k' = Some l ->
         rows_of (outcome_data args) E !! k = Some r ->
         merge_key (columns (intake_data args'))
                   ["animal_id"; "datetime_outcome"] l
         = outcome_key (outcome_data args) r
         <-> k' = k.
Proof.
  intros Hcontract Htyped Hnodup.
  destruct (merged_row_count_unique_keys args Hcontract Hnodup)
    as (m & a & Hrun & Hcount).
  destruct Hcontract as (Hkeys & Hwf & _).
  destruct (merge_intake_n_outcome_ok args Hkeys) as (d & Hq & Hrun').
  rewrite Hrun in Hrun'. injection Hrun' as -> ->.
  eexists _, _. split; [exact Hrun|]. split; [exact Hcount|].
  intros E k k' l r Hl Hr. destruct Hkeys as (Hid & _ & _).
  by eapply join_pairs_kth_with_kth.
Qed.

(** ** The state a call leaves behind *)

Lemma reset_row_fixed args row :
  length row = length (columns (intake_data args)) ->
  row_set (columns (intake_reset args)) "datetime_outcome" NaT
          (reset_row (columns (intake_data args)) row)
  = reset_row (columns (intake_data args)) row.
Proof.
  intros Hlen. rewrite intake_reset_columns. unfold reset_row.
  case_decide as Hin.
  - apply row_set_row_set.
  - unfold row_set. rewrite index_of_app_new by done.
    apply list_insert_id. rewrite lookup_app_r by lia.
    by rewrite Hlen, Nat.sub_diag.
Qed.

Lemma fmap_Forall2_undo {A} (R : A -> A -> Prop) (f : A -> A) (l k : list A) :
  Forall2 R l k -> Forall (fun x => forall y, R x y -> f y = x) l -> f <$> k = l.
Proof.
  induction 1 as [|x y l k Hxy _ IH]; [done|].
  rewrite Forall_cons. intros [Hx Hl]. rewrite fmap_cons, IH by done.
  by rewrite (Hx y Hxy).
Qed.

(** Emptying the added column of the table a call leaves behind gives the
    table the call itself started its second loop with. *)
Lemma set_column_paired args d :
  well_formed (intake_data args) ->
  set_column
    (mkDataFrame (columns (intake_reset args))
       (pair_rows (columns (intake_reset args)) d (rows (intake_reset args))))
    "datetime_outcome" NaT
  = intake_reset args.
Proof.
  intros Hwf. unfold set_column at 1. simpl.
  rewrite decide_True by apply set_column_has.
  rewrite (fmap_Forall2_undo _ _ _ _ (pair_rows_Forall2 _ d _)).
  - by destruct (intake_reset args).
  - rewrite intake_reset_rows, Forall_fmap.
    eapply Forall_impl; [exact Hwf|]. intros row Hlen. simpl in *.
    intros y [->|(t & _ & ->)].
    + by apply reset_row_fixed.
    + rewrite row_set_row_set. by apply reset_row_fixed.
Qed.

(** C4.  Two calls in succession on the same two tables return the same
    table: the second call, run on the tables as the first call left them,
    returns what the first returned and leaves the tables as it found them. *)
Theorem merge_twice (args : Tables) :
  contract args ->
  exists merged_data args',
    merge_intake_n_outcome args = Ok (merged_data, args')
    /\ merge_intake_n_outcome args' = Ok (merged_data, args').
Proof.
  intros (Hkeys & Hwf & _).
  destruct (merge_intake_n_outcome_ok args Hkeys) as (d & _ & Hrun).
  eexists _, _. split; [exact Hrun|].
  rewrite <- Hrun. unfold merge_intake_n_outcome. cbn [intake_data outcome_data].
  by rewrite set_column_paired.
Qed.

Lemma merge_twice_witness :
  exists merged_data args',
    merge_intake_n_outcome Doctest.args = Ok (merged_data, args')
    /\ merge_intake_n_outcome args' = Ok (merged_data, args').
Proof. apply merge_twice, Doctest_contract. Defined.

(** C5, as the code has it.  The outcome table is left as it was.  The
    intake table is written: it leaves the call with the column
    datetime_outcome, overwritten where it stood or else added last, with the
    same number of rows, and with every cell of every other column as it
    was.  The dictionary of queues is not part of what the call leaves. *)
Theorem merge_frame (args : Tables) :
  contract args ->
  exists merged_data args',
    merge_intake_n_outcome args = Ok (merged_data, args')
    /\ outcome_data args' = outcome_data args
    /\ columns (intake_data args')
       = (if decide ("datetime_outcome" ∈ columns (intake_data args))
          then columns (intake_data args)
          else columns (intake_data args) ++ ["datetime_outcome"])
    /\ length (rows (intake_data args')) = length (rows (intake_data args))
    /\ forall j row0,
         rows (intake_data args) !! j = Some row0 ->
         exists row,
           rows (intake_data args') !! j = Some row
           /\ forall c, c ∈ columns (intake_data args) ->
                c ≠ "datetime_outcome" ->
                row_get (columns (intake_data args')) c row
                = row_get (columns (intake_data args)) c row0.
Proof.
  intros (Hkeys & Hwf & _).
  destruct (merge_intake_n_outcome_ok args Hkeys) as (d & _ & Hrun).
  eexists _, _. split; [exact Hrun|]. cbn [intake_data outcome_data columns rows].
  split; [done|]. split; [apply intake_reset_columns|]. split.
  { by rewrite length_pair_rows, intake_reset_rows, length_fmap. }
  intros j row0 Hj.
  assert (Hlen0 : length row0 = length (columns (intake_data args))).
  { apply (proj1 (Forall_forall _ _) Hwf). by eapply list_elem_of_lookup_2. }
  assert (Hj1 : rows (intake_reset args) !! j
                = Some (reset_row (columns (intake_data args)) row0)).
  { by rewrite intake_reset_rows, list_lookup_fmap, Hj. }
  destruct (Forall2_lookup_l _ _ _ _ _
              (pair_rows_Forall2 (columns (intake_reset args)) d
                 (rows (intake_reset args))) Hj1) as (row & Hrow & Hrel).
  exists row. split; [done|]. intros c Hc Hne.
  rewrite <- (row_get_reset_row args c row0) by done.
  destruct Hrel as [->|(t & _ & ->)]; [done|].
  by apply row_get_row_set_ne.
Qed.

Lemma merge_frame_witness :
  exists merged_data args',
    merge_intake_n_outcome Doctest.args = Ok (merged_data, args')
    /\ outcome_data args' = Doctest.test_outcome.
Proof.
  destruct (merge_frame Doctest.args Doctest_contract)
    as (m & a & Hrun & Hout & _).
  by exists m, a.
Defined.

(** C5 as stated fails: the intake table of the docstring example has two
    columns before the call and three after it. *)
Lemma intake_table_written :
  contract Doctest.args
  /\ exists merged_data args',
    merge_intake_n_outcome Doctest.args = Ok (merged_data, args')
    /\ columns (intake_data Doctest.args) = ["animal_id"; "datetime"]
    /\ columns (intake_data args') = ["animal_id"; "datetime"; "datetime_outcome"]
    /\ intake_data args' ≠ intake_data Doctest.args.
Proof.
  split; [exact Doctest_contract|].
  eexists _, _. split; [vm_compute; reflexivity|].
  split; [reflexivity|]. split; [reflexivity|]. discriminate.
Qed.

(** ** The columns of the joined table *)

Lemma row_get_cons c cs name v vs :
  row_get (c :: cs) name (v :: vs)
  = if decide (c = name) then v else row_get cs name vs.
Proof.
  unfold row_get. simpl. case_decide; [done|].
  by destruct (index_of name cs).
Qed.

Lemma row_get_lookup cols name row i :
  index_of name cols = Some i -> length row = length cols ->
  row !! i = Some (row_get cols name row).
Proof.
  intros Hi Hlen. unfold row_get. rewrite Hi. simpl.
  destruct (lookup_lt_is_Some_2 row i) as [v Hv]; [|by rewrite Hv].
  rewrite Hlen. by eapply index_of_lt.
Qed.

Lemma length_drop_cells drop cols row :
  length row = length cols ->
  length (drop_cells drop cols row) = length (drop_columns drop cols).
Proof.
  revert row. induction cols as [|c cs IH]; intros [|v vs]; simpl; try done.
  intros [= Hlen]. unfold drop_cells, drop_columns in *. simpl.
  rewrite !filter_cons. simpl. case_decide; simpl; by rewrite IH.
Qed.

Lemma drop_cells_lookup drop cols row name q :
  length row = length cols -> name ∉ drop ->
  index_of name (drop_columns drop cols) = Some q ->
  drop_cells drop cols row !! q = Some (row_get cols name row).
Proof.
  intros Hlen Hname. revert row q Hlen.
  induction cols as [|c cs IH]; intros [|v vs] q; simpl; try done.
  intros [= Hlen]. unfold drop_cells, drop_columns in *. simpl.
  rewrite !filter_cons, row_get_cons. simpl.
  destruct (decide (c ∉ drop)) as [Hc|Hc]; simpl.
  - case_decide as Hcn.
    + by intros [= <-].
    + destruct (index_of name (filter _ cs)) as [q'|] eqn:Hq; simpl; [|done].
      intros [= <-]. simpl. by apply IH.
  - rewrite decide_False by (intros ->; by apply Hc). by apply IH.
Qed.

Lemma well_formed_paired args d row :
  well_formed (intake_data args) ->
  row ∈ pair_rows (columns (intake_reset args)) d (rows (intake_reset args)) ->
  length row = length (columns (intake_reset args)).
Proof.
  intros Hwf [j Hj]%list_elem_of_lookup_1.
  destruct (Forall2_lookup_r _ _ _ _ _ (pair_rows_Forall2 _ d _) Hj)
    as (row1 & Hrow1 & Hrel).
  assert (length row1 = length (columns (intake_reset args))) as <-.
  { apply (proj1 (Forall_forall _ _) (well_formed_intake_reset args Hwf)).
    by eapply list_elem_of_lookup_2. }
  destruct Hrel as [->|(t & _ & ->)]; [done | apply length_row_set].
Qed.

(** A row of the intake table the call leaves either has no matched
    timestamp, or has the timestamp of an outcome row of its entity. *)
Lemma paired_row_cases args d row :
  "animal_id" ∈ columns (intake_data args) ->
  well_formed (intake_data args) ->
  (forall E, queue d E = outcome_timestamps (outcome_data args) E) ->
  row ∈ pair_rows (columns (intake_reset args)) d (rows (intake_reset args)) ->
  matched_timestamp (columns (intake_reset args)) row = NaT
  \/ exists r, r ∈ rows (outcome_data args)
       /\ merge_key (columns (outcome_data args)) ["animal_id"; "datetime"] r
          = merge_key (columns (intake_reset args))
                      ["animal_id"; "datetime_outcome"] row.
Proof.
  intros Hid Hwf Hq [j Hj]%list_elem_of_lookup_1.
  destruct (Forall2_lookup_r _ _ _ _ _ (pair_rows_Forall2 _ d _) Hj)
    as (row1 & Hrow1 & Hrel).
  rewrite intake_reset_rows, list_lookup_fmap in Hrow1.
  destruct (rows (intake_data args) !! j) as [row0|] eqn:Hrow0; [|done].
  injection Hrow1 as <-.
  assert (Hlen0 : length row0 = length (columns (intake_data args))).
  { apply (proj1 (Forall_forall _ _) Hwf). by eapply list_elem_of_lookup_2. }
  destruct Hrel as [->|(t & Ht & ->)].
  - left. by apply matched_timestamp_reset_row.
  - right. rewrite Hq in Ht.
    apply list_elem_of_fmap in Ht as (r & -> & [Hr Hin]%list_elem_of_filter).
    exists r. split; [done|]. unfold merge_key. simpl.
    fold (entity (columns (outcome_data args)) r).
    fold (entity (columns (intake_reset args))
            (row_set (columns (intake_reset args)) "datetime_outcome"
               (row_get (columns (outcome_data args)) "datetime" r)
               (reset_row (columns (intake_data args)) row0))).
    rewrite entity_row_set, Hr.
    rewrite row_get_row_set_eq; [done | apply set_column_has |].
    by apply length_reset_row.
Qed.

Lemma shared_keys_merge :
  shared_keys ["animal_id"; "datetime_outcome"] ["animal_id"; "datetime"]
  = ["animal_id"].
Proof. reflexivity. Qed.

(** Where a name stands when it is on one side only, and where when it is on
    both. *)
Lemma merge_columns_lookup_l lcols rcols s1 s2 name p :
  index_of name lcols = Some p -> name ∉ rcols ->
  ((with_suffix (filter (fun c => c ∈ rcols) lcols) s1 <$> lcols)
   ++ (with_suffix (filter (fun c => c ∈ rcols) lcols) s2 <$> rcols)) !! p
  = Some name.
Proof.
  intros Hp Hnin.
  rewrite lookup_app_l by (rewrite length_fmap; by eapply index_of_lt).
  rewrite list_lookup_fmap, (index_of_Some _ _ _ Hp). simpl.
  unfold with_suffix. rewrite decide_False; [done|].
  by intros [? _]%list_elem_of_filter.
Qed.

Lemma merge_columns_lookup_r lcols rcols s1 s2 name q :
  index_of name rcols = Some q -> name ∈ lcols ->
  ((with_suffix (filter (fun c => c ∈ rcols) lcols) s1 <$> lcols)
   ++ (with_suffix (filter (fun c => c ∈ rcols) lcols) s2 <$> rcols))
    !! (length lcols + q)%nat
  = Some (name +:+ s2).
Proof.
  intros Hq Hin.
  rewrite lookup_app_r by (rewrite length_fmap; lia).
  rewrite length_fmap, Nat.add_comm, Nat.add_sub.
  rewrite list_lookup_fmap, (index_of_Some _ _ _ Hq). simpl.
  unfold with_suffix. rewrite decide_True; [done|].
  apply list_elem_of_filter. split; [|done].
  eapply list_elem_of_lookup_2, index_of_Some, Hq.
Qed.

(** C10, as the code has it.  When both tables have a column datetime and
    the outcome table has no column of its own named datetime_outcome, the
    output has two different columns named datetime_outcome.  The one at [p1]
    is the column the correlator wrote on the intake side, which keeps its
    name: an output row holds there the matched timestamp of its intake row.
    The one at [p2] is the outcome table's datetime under the outcome suffix:
    an output row made from an outcome row holds there that row's datetime,
    which is its matched timestamp; an output row of an intake row without an
    outcome row holds null in both. *)
Theorem datetime_outcome_twice (args : Tables) :
  contract args ->
  "datetime" ∈ columns (intake_data args) ->
  "datetime_outcome" ∉ columns (outcome_data args) ->
  exists merged_data args' p1 p2,
    let cols' := columns (intake_data args') in
    let colso := columns (outcome_data args) in
    let key_l := merge_key cols' ["animal_id"; "datetime_outcome"] in
    let key_r := merge_key colso ["animal_id"; "datetime"] in
    merge_intake_n_outcome args = Ok (merged_data, args')
    /\ p1 ≠ p2
    /\ columns merged_data !! p1 = Some "datetime_outcome"
    /\ columns merged_data !! p2 = Some "datetime_outcome"
    /\ forall row, row ∈ rows merged_data ->
         exists l, l ∈ rows (intake_data args')
           /\ row !! p1 = Some (matched_timestamp cols' l)
           /\ ((exists r, r ∈ rows (outcome_data args)
                  /\ key_r r = key_l l
                  /\ row !! p2 = Some (row_get colso "datetime" r)
                  /\ matched_timestamp cols' l = row_get colso "datetime" r)
               \/ ((forall r, r ∈ rows (outcome_data args) -> key_r r ≠ key_l l)
                   /\ row !! p2 = Some NaT
                   /\ matched_timestamp cols' l = NaT)).
Proof.
  intros (Hkeys & Hwf & Hwfo & _) Hdt Hndto.
  destruct (merge_intake_n_outcome_ok args Hkeys) as (d & Hq & Hrun).
  destruct Hkeys as (Hid & Hoid & Hodt).
  set (cols1 := columns (intake_reset args)) in *.
  set (colso := columns (outcome_data args)) in *.
  set (paired := pair_rows cols1 d (rows (intake_reset args))) in *.
  assert (Hdto1 : "datetime_outcome" ∈ cols1) by apply set_column_has.
  assert (Hdt1 : "datetime" ∈ cols1) by by apply set_column_keeps.
  assert (Hne1 : forall c : string, c ≠ "animal_id" -> c ∉ ["animal_id"]).
  { intros c Hc ?%list_elem_of_singleton. done. }
  destruct paired as [|l0 ls] eqn:Hpaired.
  - (* no intake row: the shared key is dropped from the intake side *)
    set (lcols := drop_columns ["animal_id"] cols1).
    assert (Hdtol : "datetime_outcome" ∈ lcols).
    { apply list_elem_of_filter. split; [by apply Hne1 | done]. }
    assert (Hdtl : "datetime" ∈ lcols).
    { apply list_elem_of_filter. split; [by apply Hne1 | done]. }
    destruct (index_of_elem _ _ Hdtol) as [p1 Hp1].
    destruct (index_of_elem _ _ Hodt) as [q Hq2].
    pose proof (index_of_lt _ _ _ Hp1) as Hp1lt.
    eexists _, _, p1, (length lcols + q)%nat.
    split; [exact Hrun|]. split; [lia|].
    cbn [intake_data outcome_data columns rows joined].
    unfold merge_columns, merge_rows. cbn [columns rows fst snd].
    rewrite shared_keys_merge. fold colso lcols.
    split; [by apply merge_columns_lookup_l|].
    split; [by apply (merge_columns_lookup_r lcols colso _ _ "datetime")|].
    cbn [fmap list_fmap concat]. by intros row ?%elem_of_nil.
  - (* some intake row: the shared key is dropped from the outcome side *)
    set (rcols := drop_columns ["animal_id"] colso).
    assert (Hdtr : "datetime" ∈ rcols).
    { apply list_elem_of_filter. split; [by apply Hne1 | done]. }
    assert (Hdtor : "datetime_outcome" ∉ rcols).
    { by intros [_ ?]%list_elem_of_filter. }
    destruct (index_of_elem _ _ Hdto1) as [p1 Hp1].
    destruct (index_of_elem _ _ Hdtr) as [q Hq2].
    pose proof (index_of_lt _ _ _ Hp1) as Hp1lt.
    pose proof (index_of_lt _ _ _ Hq2) as Hqlt.
    eexists _, _, p1, (length cols1 + q)%nat.
    split; [exact Hrun|]. split; [lia|].
    cbn [intake_data outcome_data columns rows joined].
    unfold merge_columns, merge_rows. cbn [columns rows fst snd].
    rewrite shared_keys_merge. fold colso rcols.
    split; [by apply merge_columns_lookup_l|].
    split; [by apply (merge_columns_lookup_r cols1 rcols _ _ "datetime")|].
    rewrite <- Hpaired. intros row Hrow.
    apply list_elem_of_In, in_concat in Hrow as (out & Hout & Hrow).
    apply list_elem_of_In, list_elem_of_fmap in Hout as (l & -> & Hl).
    apply list_elem_of_In in Hrow.
    exists l. split; [done|].
    pose proof (well_formed_paired args d l Hwf Hl) as Hlen. fold cols1 in Hlen.
    unfold join_row in Hrow. cbn [columns rows] in Hrow.
    rewrite shared_keys_merge in Hrow. fold colso rcols in Hrow.
    destruct (filter _ (rows (outcome_data args))) as [|r0 rs] eqn:Hmatches.
    + apply list_elem_of_singleton in Hrow as ->.
      split.
      { rewrite lookup_app_l by lia. by apply row_get_lookup. }
      right.
      assert (Hnone : forall r, r ∈ rows (outcome_data args) ->
                merge_key colso ["animal_id"; "datetime"] r
                ≠ merge_key cols1 ["animal_id"; "datetime_outcome"] l).
      { intros r Hr Hkey.
        eapply filter_nil_not_elem_of; [exact Hmatches | exact Hkey | exact Hr]. }
      split; [done|]. split.
      * rewrite lookup_app_r by lia. rewrite Hlen, Nat.add_comm, Nat.add_sub.
        by apply lookup_replicate_2.
      * destruct (paired_row_cases args d l Hid Hwf Hq Hl) as [Hnat|(r & Hr & Hkey)];
          [done | by destruct (Hnone r Hr)].
    + rewrite <- Hmatches in Hrow.
      apply list_elem_of_fmap in Hrow as (r & -> & [Hkey Hr]%list_elem_of_filter).
      assert (Hlenr : length r = length colso).
      { by apply (proj1 (Forall_forall _ _) Hwfo). }
      split.
      { rewrite lookup_app_l by lia. by apply row_get_lookup. }
      left. exists r. split; [done|]. split; [done|]. split.
      * rewrite lookup_app_r by lia. rewrite Hlen, Nat.add_comm, Nat.add_sub.
        apply drop_cells_lookup; [done | by apply Hne1 | done].
      * unfold merge_key in Hkey. simpl in Hkey. by injection Hkey as _ ->.
Qed.

Lemma datetime_outcome_twice_witness :
  exists merged_data args' p1 p2,
    merge_intake_n_outcome Doctest.args = Ok (merged_data, args')
    /\ p1 ≠ p2
    /\ columns merged_data !! p1 = Some "datetime_outcome"
    /\ columns merged_data !! p2 = Some "datetime_outcome".
Proof.
  destruct (datetime_outcome_twice Doctest.args Doctest_contract)
    as (m & a & p1 & p2 & Hrun & Hne & H1 & H2 & _).
  - repeat constructor.
  - intros H. by repeat (apply elem_of_cons in H as [H|H]; [discriminate|]);
      apply elem_of_nil in H.
  - by exists m, a, p1, p2.
Defined.

(** C10 as stated fails: when the outcome table has a column of its own
    named datetime_outcome, the column the correlator wrote takes the intake
    suffix, and one column only is named datetime_outcome. *)
Lemma datetime_outcome_once :
  contract (mkTables Doctest.test_intake Clash.named_outcome)
  /\ "datetime" ∈ columns Doctest.test_intake
  /\ "datetime" ∈ columns Clash.named_outcome
  /\ exists merged_data,
       merged (mkTables Doctest.test_intake Clash.named_outcome) = Some merged_data
       /\ columns merged_data
          = ["animal_id"; "datetime_intake"; "datetime_outcome_intake";
             "datetime_outcome"; "datetime_outcome_outcome"]
       /\ ~ exists p1 p2 : nat,
            p1 ≠ p2
            /\ columns merged_data !! p1 = Some "datetime_outcome"
            /\ columns merged_data !! p2 = Some "datetime_outcome".
Proof.
  split; [repeat split; repeat constructor|].
  split; [repeat constructor|]. split; [repeat constructor|].
  eexists. split; [vm_compute; reflexivity|]. split; [reflexivity|].
  intros (p1 & p2 & Hne & H1 & H2). cbn [columns] in H1, H2.
  destruct p1 as [|[|[|[|[|p1]]]]]; try discriminate H1;
    destruct p2 as [|[|[|[|[|p2]]]]]; try discriminate H2.
  by apply Hne.
Qed.

(** ** [get_data] *)

Section get_data.

(** The network the function runs against. *)
Context (web : Web).

Lemma get_data_body_failure d out file_name url status :
  requests_get web url = Ok status -> status ≠ 200 ->
  get_data_body web (d, out) (file_name, url)
  = Ok (d, out ++ [failure_message file_name status]).
Proof.
  intros Hget Hne. unfold get_data_body. rewrite Hget. simpl.
  by rewrite decide_False.
Qed.

(** The names collected by the loop are those of the entries whose
    retrieval status was 200. *)
Lemma get_data_loop_collected urls d0 out0 d out :
  for_each (get_data_body web) urls (d0, out0) = Ok (d, out) ->
  forall name,
    is_Some (d !! name)
    <-> is_Some (d0 !! name)
        \/ exists url, (name, url) ∈ urls /\ requests_get web url = Ok 200.
Proof.
  revert d0 out0. induction urls as [|[file_name url] urls IH];
    intros d0 out0; simpl.
  - intros [= -> ->] name. split; [by left|].
    intros [?|(url & []%elem_of_nil & _)]; done.
  - unfold get_data_body at 1.
    destruct (requests_get web url) as [status|e] eqn:Hget; simpl; [|done].
    case_decide as Hstatus.
    + destruct (read_csv web url) as [data|e]; simpl; [|done].
      intros Hloop name. rewrite (IH _ _ Hloop name). subst status.
      rewrite lookup_insert. case_decide as Hname.
      * subst. split; [|intros _; left; eauto].
        intros _. right. exists url. split; [left | done].
      * split.
        -- intros [?|(u & Hin & Hu)]; [by left|].
           right. exists u. split; [by right | done].
        -- intros [?|(u & Hin & Hu)]; [by left|].
           apply elem_of_cons in Hin as [[= -> ->]|Hin]; [done|].
           right. by exists u.
    + intros Hloop name. rewrite (IH _ _ Hloop name). split.
      * intros [?|(u & Hin & Hu)]; [by left|].
        right. exists u. split; [by right | done].
      * intros [?|(u & Hin & Hu)]; [by left|].
        apply elem_of_cons in Hin as [[= -> ->]|Hin]; [congruence|].
        right. by exists u.
Qed.

(** The loop runs to its end when no request raises. *)
Lemma get_data_loop_completes urls st :
  (forall url, exists status, requests_get web url = Ok status) ->
  (forall url, exists data, read_csv web url = Ok data) ->
  exists st', for_each (get_data_body web) urls st = Ok st'.
Proof.
  intros Hget Hcsv. revert st.
  induction urls as [|[file_name url] urls IH]; intros [d out]; simpl; [eauto|].
  destruct (Hget url) as [status ->]. simpl. case_decide.
  - destruct (Hcsv url) as [data ->]. simpl. apply IH.
  - apply IH.
Qed.

(** C9.  An entry whose retrieval status is not 200 does not raise: it
    prints one line, the diagnostic, and leaves the collected datasets as
    they are.  For a name written in ASCII the line reads Failed to retrieve
    NAME data. Status code: STATUS, with the name in upper case; for the
    entry outcome and the status 404 it is the line written out below.
    When the loop has processed all entries, a dataset is collected exactly
    when an entry of its name had status 200, and the function raises a
    lookup error exactly when intake or outcome is not among the collected
    datasets; it returns the two tables otherwise.  The loop does process
    all entries when no request itself raises. *)
Theorem get_data_lookup_error (urls : list (string * string)) :
  (forall d out file_name url status,
     requests_get web url = Ok status -> status ≠ 200 ->
     exists line,
       get_data_body web (d, out) (file_name, url) = Ok (d, out ++ [line])
       /\ (is_ascii file_name = true ->
           line = "Failed to retrieve " +:+ upper file_name
                  +:+ " data. Status code: " +:+ pretty status))
  /\ (forall d out url,
        requests_get web url = Ok 404 ->
        get_data_body web (d, out) ("outcome", url)
        = Ok (d, out ++ ["Failed to retrieve OUTCOME data. Status code: 404"]))
  /\ (forall d out,
        for_each (get_data_body web) urls (∅, []) = Ok (d, out) ->
        (forall name,
           is_Some (d !! name)
           <-> exists url, (name, url) ∈ urls /\ requests_get web url = Ok 200)
        /\ (get_data web urls = Raise KeyError
            <-> d !! "intake" = None \/ d !! "outcome" = None)
        /\ (forall intake outcome,
              d !! "intake" = Some intake -> d !! "outcome" = Some outcome ->
              get_data web urls = Ok ((intake, outcome), out)))
  /\ ((forall url, exists status, requests_get web url = Ok status) ->
      (forall url, exists data, read_csv web url = Ok data) ->
      exists d out, for_each (get_data_body web) urls (∅, []) = Ok (d, out)).
Proof.
  split; [|split; [|split]].
  - intros d out file_name url status Hget Hne.
    exists (failure_message file_name status).
    split; [by apply get_data_body_failure|]. intros _. reflexivity.
  - intros d out url Hget.
    rewrite (get_data_body_failure d out "outcome" url 404 Hget) by done.
    reflexivity.
  - intros d out Hloop. split; [|split].
    + intros name. rewrite (get_data_loop_collected _ _ _ _ _ Hloop name).
      rewrite lookup_empty. split; [|by right].
      by intros [[? [=]]|?].
    + unfold get_data. rewrite Hloop. simpl. unfold getitem.
      destruct (d !! "intake"), (d !! "outcome"); simpl;
        split; try done; try (by left); try (by right).
      by intros [|].
    + intros intake outcome Hi Ho. unfold get_data. rewrite Hloop. simpl.
      unfold getitem. by rewrite Hi, Ho.
  - intros Hget Hcsv.
    destruct (get_data_loop_completes urls (∅, []) Hget Hcsv) as [[d out] H].
    by exists d, out.
Qed.

End get_data.

Lemma get_data_lookup_error_witness :
  get_data Offline.web Offline.urls = Raise KeyError.
Proof.
  destruct (get_data_lookup_error Offline.web Offline.urls)
    as (_ & _ & Hloop & _).
  destruct (Hloop (<["intake" := Doctest.test_intake]> ∅)
                  [success_message "intake" 6; failure_message "outcome" 404])
    as (_ & [_ Hraise] & _); [reflexivity|].
  apply Hraise. right. rewrite lookup_insert_ne by discriminate.
  apply lookup_empty.
Defined.

(** ** [date_format] *)

(** The first docstring example of [date_format]. *)
Example date_format_doctest_1 :
  date_format (mkDataFrame ["date"] [[Str "2014-04-02 15:55:00"]]) "date" "%Y-%m-%d"
  = Ok (mkDataFrame ["date"] [[Time (mkTimestamp 2014 4 2 0 0 0 0)]]).
Proof. vm_compute. reflexivity. Qed.

(** The second docstring example of [date_format]. *)
Example date_format_doctest_2 :
  date_format (mkDataFrame ["date"] [[Str "2013-10-11T11:29:35.000"]])
              "date" "%Y-%m-%d %H:%M"
  = Ok (mkDataFrame ["date"] [[Time (mkTimestamp 2013 10 11 11 29 0 0)]]).
Proof. vm_compute. reflexivity. Qed.

(** *** Writing and reading a column *)

Lemma fmap_zip_with_get {A B C} (f : A -> B -> C) (g : C -> B)
    (P : A -> Prop) (l : list A) (vs : list B) :
  Forall P l -> (forall x v, P x -> g (f x v) = v) ->
  length vs = length l -> g <$> zip_with f l vs = vs.
Proof.
  intros Hl Hgf. revert vs.
  induction Hl as [|x l Hx _ IH]; intros [|v vs]; simpl; try done.
  intros [= Hlen]. by rewrite Hgf, IH.
Qed.

Lemma row_get_snoc_new cols name row v :
  name ∉ cols -> length row = length cols ->
  row_get (cols ++ [name]) name (row ++ [v]) = v.
Proof.
  intros Hnin Hlen. unfold row_get. rewrite index_of_app_new by done. simpl.
  rewrite lookup_app_r by lia. by rewrite Hlen, Nat.sub_diag.
Qed.

(** [df[name] = vs] followed by [df[name]] reads [vs] back. *)
Lemma get_set_column_values df name vs :
  well_formed df -> length vs = length (rows df) ->
  get_column (set_column_values df name vs) name = Ok (mkSeries name vs).
Proof.
  intros Hwf Hlen. unfold get_column, set_column_values.
  destruct (decide (name ∈ columns df)) as [Hin|Hnin]; simpl.
  - rewrite decide_True by done. do 2 f_equal.
    eapply fmap_zip_with_get; [exact Hwf| |done].
    intros row v Hrow. simpl in Hrow. by apply row_get_row_set_eq.
  - rewrite decide_True
      by (apply elem_of_app; right; by apply list_elem_of_singleton).
    do 2 f_equal.
    eapply fmap_zip_with_get; [exact Hwf| |done].
    intros row v Hrow. simpl in Hrow. by apply row_get_snoc_new.
Qed.

Lemma zip_with_zip_with_l {A B} (f : A -> B -> A) (l : list A) (vs ws : list B) :
  (forall x v w, f (f x v) w = f x w) ->
  length vs = length l ->
  zip_with f (zip_with f l vs) ws = zip_with f l ws.
Proof.
  intros Hf. revert vs ws.
  induction l as [|x l IH]; intros [|v vs] [|w ws]; simpl; try done.
  intros [= Hlen]. by rewrite Hf, IH.
Qed.

(** Writing a column that exists twice leaves the second writing. *)
Lemma set_set_column_values df name vs ws :
  name ∈ columns df -> length vs = length (rows df) ->
  set_column_values (set_column_values df name vs) name ws
  = set_column_values df name ws.
Proof.
  intros Hin Hlen. unfold set_column_values.
  destruct (decide (name ∈ columns df)) as [?|?]; [|done]. simpl.
  destruct (decide (name ∈ columns df)) as [?|?]; [|done].
  f_equal. apply zip_with_zip_with_l; [|done].
  intros row v w. apply row_set_row_set.
Qed.

Lemma length_set_column_values df name vs :
  length vs = length (rows df) ->
  length (rows (set_column_values df name vs)) = length (rows df).
Proof.
  intros Hlen. unfold set_column_values. case_decide; simpl;
    rewrite length_zip_with; lia.
Qed.

Lemma well_formed_set_column_values df name vs :
  well_formed df -> well_formed (set_column_values df name vs).
Proof.
  unfold well_formed, set_column_values. intros Hwf.
  case_decide; simpl.
  - revert vs. induction Hwf as [|row l Hrow _ IH]; intros [|v vs]; simpl;
      try constructor; [by rewrite length_row_set | apply IH].
  - revert vs. induction Hwf as [|row l Hrow _ IH]; intros [|v vs]; simpl;
      try constructor; [|apply IH].
    rewrite !length_app. simpl. lia.
Qed.

Lemma traverse_ok {A B} (f : A -> result B) (l : list A) (k : list B) :
  Forall2 (fun x y => f x = Ok y) l k -> traverse f l = Ok k.
Proof.
  induction 1 as [|x y l k Hxy _ IH]; simpl; [done|].
  by rewrite Hxy, IH.
Qed.


(** *** Rendering a date and reading it again *)

Lemma digit_value_digit_char d :
  0 <= d < 10 -> digit_value (digit_char d) = Some d.
Proof.
  intros Hd.
  assert (d = 0 \/ d = 1 \/ d = 2 \/ d = 3 \/ d = 4
          \/ d = 5 \/ d = 6 \/ d = 7 \/ d = 8 \/ d = 9) as Hcases by lia.
  repeat (destruct Hcases as [->|Hcases]; [reflexivity|]).
  by subst.
Qed.

Lemma append_String c s r : String c s +:+ r = String c (s +:+ r).
Proof. reflexivity. Qed.

Lemma parse_digits_step n acc c s :
  parse_digits (S n) acc (String c s)
  = d ← digit_value c; parse_digits n (10 * acc + d) s.
Proof. reflexivity. Qed.

Ltac read_digit :=
  rewrite parse_digits_step, digit_value_digit_char
    by (apply Z.mod_pos_bound; lia);
  cbn [mbind option_bind].

Lemma parse_digits_pad2 n rest :
  0 <= n < 100 -> parse_digits 2 0 (pad2 n +:+ rest) = Some (n, rest).
Proof.
  intros Hn. unfold pad2. rewrite !append_String.
  do 2 read_digit. cbn [parse_digits String.append].
  do 2 f_equal. Z.to_euclidean_division_equations; lia.
Qed.

Lemma parse_digits_pad4 n rest :
  0 <= n < 10000 -> parse_digits 4 0 (pad4 n +:+ rest) = Some (n, rest).
Proof.
  intros Hn. unfold pad4, pad2. rewrite !append_String.
  do 4 read_digit. cbn [parse_digits String.append].
  do 2 f_equal. Z.to_euclidean_division_equations; lia.
Qed.

Lemma days_in_month_le y m : days_in_month y m <= 31.
Proof.
  unfold days_in_month.
  repeat match goal with |- context [if ?b then _ else _] => destruct b end; lia.
Qed.

Lemma days_in_month_ge y m : 28 <= days_in_month y m.
Proof.
  unfold days_in_month.
  repeat match goal with |- context [if ?b then _ else _] => destruct b end; lia.
Qed.

Lemma parse_digits_pad2_end n :
  0 <= n < 100 -> parse_digits 2 0 (pad2 n) = Some (n, "").
Proof.
  intros Hn. unfold pad2.
  do 2 read_digit. cbn [parse_digits].
  do 2 f_equal. Z.to_euclidean_division_equations; lia.
Qed.

Lemma traverse_fmap {A B} (f : A -> result B) (g : A -> B) (l : list A) :
  Forall (fun x => f x = Ok (g x)) l -> traverse f l = Ok (g <$> l).
Proof.
  induction 1 as [|x l Hx _ IH]; simpl; [done|].
  by rewrite Hx, IH.
Qed.

Lemma get_column_ok df name :
  name ∈ columns df ->
  get_column df name = Ok (mkSeries name (row_get (columns df) name <$> rows df)).
Proof. intros Hin. unfold get_column. by rewrite decide_True. Qed.

Lemma traverse_length {A B} (f : A -> result B) (l : list A) (k : list B) :
  traverse f l = Ok k -> length k = length l.
Proof.
  revert k. induction l as [|x l IH]; intros k; cbn [traverse].
  - by intros [= <-].
  - destruct (f x) as [y|]; cbn [mbind result_bind]; [|done].
    destruct (traverse f l) as [ys|]; cbn [mbind result_bind]; [|done].
    intros [= <-]. simpl. by rewrite (IH ys).
Qed.

(** [strptime] step by step. *)
Lemma strptime_literal c rest s t :
  c ≠ "%"%char ->
  strptime (String c rest) (String c s) t = strptime rest s t.
Proof.
  intros Hc. cbn [strptime]. rewrite decide_False by done.
  unfold expect. by rewrite decide_True.
Qed.

Lemma strptime_Y rest s t :
  strptime (String "%" (String "Y" rest)) s t
  = '(n, s') ← parse_digits 4 0 s;
    strptime rest s' (mkTimestamp n (month t) (day t) (hour t) (minute t)
                                  (second t) (nanosecond t)).
Proof. reflexivity. Qed.

Lemma strptime_m rest s t :
  strptime (String "%" (String "m" rest)) s t
  = '(n, s') ← parse_digits 2 0 s;
    strptime rest s' (mkTimestamp (year t) n (day t) (hour t) (minute t)
                                  (second t) (nanosecond t)).
Proof. reflexivity. Qed.

Lemma strptime_d rest s t :
  strptime (String "%" (String "d" rest)) s t
  = '(n, s') ← parse_digits 2 0 s;
    strptime rest s' (mkTimestamp (year t) (month t) n (hour t) (minute t)
                                  (second t) (nanosecond t)).
Proof. reflexivity. Qed.

Lemma strptime_H rest s t :
  strptime (String "%" (String "H" rest)) s t
  = '(n, s') ← parse_digits 2 0 s;
    strptime rest s' (mkTimestamp (year t) (month t) (day t) n (minute t)
                                  (second t) (nanosecond t)).
Proof. reflexivity. Qed.

Lemma strptime_M rest s t :
  strptime (String "%" (String "M" rest)) s t
  = '(n, s') ← parse_digits 2 0 s;
    strptime rest s' (mkTimestamp (year t) (month t) (day t) (hour t) n
                                  (second t) (nanosecond t)).
Proof. reflexivity. Qed.

Lemma strptime_S rest s t :
  strptime (String "%" (String "S" rest)) s t
  = '(n, s') ← parse_digits 2 0 s;
    strptime rest s' (mkTimestamp (year t) (month t) (day t) (hour t)
                                  (minute t) n (nanosecond t)).
Proof. reflexivity. Qed.

(** A text rendered by [strftime] is read back by [strptime] under the same
    format, into the fields the format names. *)
Lemma strptime_strftime (n : nat) :
  forall datetime_format t acc text,
    (String.length datetime_format <= n)%nat ->
    valid_timestamp t ->
    strftime datetime_format t = Some text ->
    strptime datetime_format text acc = Some (overlay datetime_format t acc).
Proof.
  induction n as [|n IH]; intros fmt t acc text Hlen Hvalid.
  { destruct fmt; [|simpl in Hlen; lia]. by intros [= <-]. }
  destruct fmt as [|c rest]; [by intros [= <-]|].
  pose proof Hvalid as (Hy & Hm & Hd & Hh & Hmi & Hs & _).
  pose proof (days_in_month_le (year t) (month t)) as Hdim.
  cbn [strftime overlay]. destruct (decide (c = "%"%char)) as [->|Hc].
  - destruct rest as [|d rest']; [done|].
    destruct (directive d t) as [txt|] eqn:Hdir; cbn [mbind option_bind]; [|done].
    destruct (strftime rest' t) as [tail|] eqn:Htail;
      cbn [mbind option_bind]; [|done].
    intros [= <-].
    assert (Hrest : forall acc',
              strptime rest' tail acc' = Some (overlay rest' t acc')).
    { intros acc'. apply IH; [simpl in Hlen; lia|done|done]. }
    unfold directive in Hdir.
    repeat match type of Hdir with
           | context [decide (d = ?ch)] =>
               destruct (decide (d = ch)) as [->|?]
           end;
      try discriminate Hdir; injection Hdir as <-.
    + rewrite strptime_Y, parse_digits_pad4 by lia. apply Hrest.
    + rewrite strptime_m, parse_digits_pad2 by lia. apply Hrest.
    + rewrite strptime_d, parse_digits_pad2 by lia. apply Hrest.
    + rewrite strptime_H, parse_digits_pad2 by lia. apply Hrest.
    + rewrite strptime_M, parse_digits_pad2 by lia. apply Hrest.
    + rewrite strptime_S, parse_digits_pad2 by lia. apply Hrest.
    + apply (Hrest acc).
  - destruct (strftime rest t) as [tail|] eqn:Htail; [|done].
    intros [= <-]. rewrite strptime_literal by done.
    apply IH; [simpl in Hlen; lia|done|done].
Qed.

(** *** The range of timestamps *)

Lemma days_from_civil_range y m d :
  1678 <= y <= 2261 -> 1 <= m <= 12 -> 1 <= d <= 31 ->
  -106700 <= days_from_civil y m d <= 106700.
Proof.
  intros Hy Hm Hd. unfold days_from_civil.
  destruct (Z.leb_spec m 2), (Z.gtb_spec m 2); try lia;
    Z.to_euclidean_division_equations; lia.
Qed.

(** A valid timestamp fits the 64-bit count of nanoseconds. *)
Lemma valid_fits t : valid_timestamp t -> fits_int64 (to_ns t) = true.
Proof.
  intros (Hy & Hm & Hd & Hh & Hmi & Hs & Hns).
  pose proof (days_in_month_le (year t) (month t)) as Hdim.
  pose proof (days_from_civil_range (year t) (month t) (day t)
                Hy Hm ltac:(lia)) as Hdays.
  unfold fits_int64, to_ns, ns_per_day.
  apply andb_true_intro. split; [apply Z.ltb_lt | apply Z.ltb_lt]; lia.
Qed.

Lemma valid_truncate p t : valid_timestamp t -> valid_timestamp (truncate p t).
Proof.
  intros (Hy & Hm & Hd & Hh & Hmi & Hs & Hns).
  pose proof (days_in_month_ge (year t) (month t)) as Hge.
  pose proof (days_in_month_ge (year t) 1) as Hge1.
  destruct p; repeat split; cbn [truncate year month day hour minute second
                                  nanosecond]; lia.
Qed.

(** *** A column rendered and read again *)

Lemma strftime_render p t : strftime (format_of p) t = Some (render p t).
Proof. destruct p; reflexivity. Qed.

Lemma overlay_truncate p t :
  overlay (format_of p) t (mkTimestamp 1900 1 1 0 0 0 0) = truncate p t.
Proof. destruct p; reflexivity. Qed.

Lemma is_date_valid t : valid_timestamp t -> is_date t = true.
Proof.
  intros (Hy & Hm & Hd & Hh & Hmi & Hs & Hns).
  unfold is_date. apply bool_decide_eq_true. lia.
Qed.

Lemma read_as_render p t :
  valid_timestamp t -> read_as (format_of p) (render p t) = Some (truncate p t).
Proof.
  intros Hvalid. unfold read_as.
  rewrite (strptime_strftime _ _ t _ _ (Nat.le_refl _) Hvalid
             (strftime_render p t)).
  cbn [mbind option_bind]. rewrite overlay_truncate.
  by rewrite is_date_valid by by apply valid_truncate.
Qed.

Lemma iso_format_render p t : iso_format (render p t) = Some (format_of p).
Proof. destruct p; reflexivity. Qed.

(** pandas infers from a rendered text the format it was rendered with. *)
Lemma guess_render p t :
  valid_timestamp t -> guess_datetime_format (render p t) = Some (format_of p).
Proof.
  intros Hvalid. unfold guess_datetime_format.
  rewrite iso_format_render. cbn [mbind option_bind].
  by rewrite read_as_render.
Qed.

Lemma first_non_null_cons c cells :
  first_non_null (c :: cells)
  = if isna c then first_non_null cells else Some c.
Proof.
  unfold first_non_null. destruct (isna c) eqn:Hc.
  - by rewrite filter_cons_False by by rewrite Hc.
  - by rewrite filter_cons_True.
Qed.

Lemma first_non_null_render p cells :
  Forall valid_cell cells ->
  (first_non_null (render_cell p <$> cells) = None
   /\ Forall (fun c => c = Null) cells)
  \/ exists t, valid_timestamp t
               /\ first_non_null (render_cell p <$> cells)
                  = Some (Str (render p t)).
Proof.
  induction 1 as [|c cells Hc _ IH]; [by left|].
  rewrite fmap_cons, first_non_null_cons.
  destruct c as [| t | | | |]; try done; cbn [render_cell isna].
  - right. by exists t.
  - destruct IH as [[-> Hall]|(t & Ht & ->)]; [left | right; eauto].
    split; [done|]. by constructor.
Qed.

Lemma strptime_cell_render p c :
  valid_cell c ->
  strptime_cell (format_of p) (render_cell p c) = Ok (truncate_cell p c).
Proof.
  destruct c as [| t | | | |]; try done. intros Hvalid.
  cbn [render_cell strptime_cell truncate_cell].
  rewrite read_as_render by done. unfold timestamp_cell.
  by rewrite valid_fits by by apply valid_truncate.
Qed.

(** Reading the texts [strftime] has written: pandas infers the format they
    were written in, and every one of them is read under it. *)
Lemma to_datetime_rendered p cells :
  Forall valid_cell cells ->
  to_datetime (render_cell p <$> cells) = Ok (truncate_cell p <$> cells).
Proof.
  intros Hcells. unfold to_datetime.
  destruct (first_non_null_render p cells Hcells)
    as [[-> Hnull]|(t & Ht & ->)].
  - apply traverse_ok, Forall2_fmap, Forall_Forall2_diag.
    eapply Forall_impl; [exact Hnull|]. by intros c ->.
  - rewrite guess_render by done.
    apply traverse_ok, Forall2_fmap, Forall_Forall2_diag.
    eapply Forall_impl; [exact Hcells|]. intros c Hc.
    by apply strptime_cell_render.
Qed.

Lemma dt_strftime_render p cells :
  Forall valid_cell cells ->
  dt_strftime cells (format_of p) = Ok (render_cell p <$> cells).
Proof.
  intros Hcells. unfold dt_strftime. apply traverse_fmap.
  eapply Forall_impl; [exact Hcells|]. intros c Hc.
  destruct c as [| t | | | |]; try done.
  cbn [strftime_cell render_cell]. by rewrite strftime_render.
Qed.

Lemma to_datetime_length values parsed :
  to_datetime values = Ok parsed -> length parsed = length values.
Proof.
  unfold to_datetime. destruct (first_non_null values) as [[s| | | | |]|];
    try apply traverse_length.
  destruct (guess_datetime_format s); [apply traverse_length | done].
Qed.

(** [date_format] at a precision, on a column that [pd.to_datetime] reads:
    every timestamp is cut to the precision, and a missing value stays
    missing. *)
Lemma date_format_precision df col p parsed :
  col ∈ columns df ->
  well_formed df ->
  to_datetime (row_get (columns df) col <$> rows df) = Ok parsed ->
  Forall valid_cell parsed ->
  date_format df col (format_of p)
  = Ok (set_column_values df col (truncate_cell p <$> parsed)).
Proof.
  intros Hcol Hwf Hread Hvalid.
  assert (Hlen : length parsed = length (rows df)).
  { rewrite (to_datetime_length _ _ Hread). by rewrite length_fmap. }
  unfold date_format. rewrite get_column_ok by done.
  cbn [mbind result_bind s_values]. rewrite Hread.
  cbn [mbind result_bind].
  rewrite get_set_column_values by done.
  cbn [mbind result_bind s_values].
  rewrite dt_strftime_render by done. cbn [mbind result_bind].
  rewrite to_datetime_rendered by done. cbn [mbind result_bind].
  by rewrite set_set_column_values.
Qed.

(** A column that is of the timestamp type already is left as it is. *)
Lemma to_datetime_datetime cells :
  Forall (fun c => is_datetime c = true) cells -> to_datetime cells = Ok cells.
Proof.
  intros Hcells.
  assert (Heach : traverse to_datetime_cell cells = Ok cells).
  { rewrite <- (list_fmap_id cells) at 2. apply traverse_fmap.
    eapply Forall_impl; [exact Hcells|]. by intros [| | | | |]. }
  unfold to_datetime.
  destruct (first_non_null cells) as [[s| | | | |]|] eqn:Hfirst; try done.
  unfold first_non_null in Hfirst.
  assert (Hin : Str s ∈ filter (fun c => isna c = false) cells).
  { destruct (filter _ cells); [done|]. injection Hfirst as ->. left. }
  apply list_elem_of_filter in Hin as [_ Hin].
  by apply (proj1 (Forall_forall _ _) Hcells) in Hin.
Qed.

Lemma date_format_timestamps df col p ts :
  col ∈ columns df ->
  well_formed df ->
  to_datetime (row_get (columns df) col <$> rows df) = Ok (Time <$> ts) ->
  Forall valid_timestamp ts ->
  date_format df col (format_of p)
  = Ok (set_column_values df col (Time ∘ truncate p <$> ts)).
Proof.
  intros Hcol Hwf Hread Hvalid.
  rewrite (date_format_precision df col p (Time <$> ts)); try done.
  - by rewrite <- list_fmap_compose.
  - by apply Forall_fmap.
Qed.




(** ** [calculate_time_delta] *)

(** The first docstring example of [calculate_time_delta]. *)
Example calculate_time_delta_doctest_1 :
  fst <$> (match calculate_time_delta DeltaDoctest.test_df
                   "date_of_birth" "date_leave" "years" "leaving" with
           | Ok r => Some r | Raise _ => None end)
  = Some (mkSeries "age_upon_leaving(years)" [Float (11 # 10)]).
Proof. vm_compute. reflexivity. Qed.

(** The second docstring example of [calculate_time_delta]. *)
Example calculate_time_delta_doctest_2 :
  fst <$> (match calculate_time_delta DeltaDoctest.test_df2
                   "date_start" "date_end" "days" "" with
           | Ok r => Some r | Raise _ => None end)
  = Some (mkSeries "duration(days)" [Int 389]).
Proof. vm_compute. reflexivity. Qed.

Lemma traverse_fmap_fmap {A B C} (f : B -> result C) (h : A -> B) (g : A -> C)
    (l : list A) :
  (forall x, f (h x) = Ok (g x)) -> traverse f (h <$> l) = Ok (g <$> l).
Proof.
  intros Hf. induction l as [|x l IH]; [done|].
  rewrite !fmap_cons. cbn [traverse]. by rewrite Hf, IH.
Qed.

Lemma zip_fmap_Time (a b : list Timestamp) :
  zip (Time <$> a) (Time <$> b) = (fun p => (Time p.1, Time p.2)) <$> zip a b.
Proof.
  revert b. induction a as [|x a IH]; intros [|y b]; simpl; try done.
  by rewrite <- IH.
Qed.

Lemma traverse_fmap_Forall {A B C} (f : B -> result C) (h : A -> B)
    (g : A -> C) (l : list A) :
  Forall (fun x => f (h x) = Ok (g x)) l ->
  traverse f (h <$> l) = Ok (g <$> l).
Proof.
  induction 1 as [|x l Hx _ IH]; [done|].
  rewrite !fmap_cons. cbn [traverse]. by rewrite Hx, IH.
Qed.

Lemma forallb_is_datetime_Time (ts : list Timestamp) :
  forallb is_datetime (Time <$> ts) = true.
Proof. by induction ts as [|t ts IH]. Qed.

(** The differences of two columns of timestamps that fit the 64-bit count
    of nanoseconds. *)
Lemma series_sub_ok (ends starts : list Timestamp) :
  Forall (fun p => fits_int64 (to_ns p.1 - to_ns p.2) = true)
         (zip ends starts) ->
  series_sub (Time <$> ends) (Time <$> starts)
  = Ok ((fun p => Timedelta (to_ns p.1 - to_ns p.2)) <$> zip ends starts).
Proof.
  intros Hfit. unfold series_sub. rewrite !forallb_is_datetime_Time.
  cbn [andb]. rewrite zip_fmap_Time. apply traverse_fmap_Forall.
  eapply Forall_impl; [exact Hfit|]. intros p Hp. cbn [fst snd sub_cell].
  by rewrite Hp.
Qed.

(** The whole days between two columns of timestamps. *)
Lemma time_in_days_ok (ends starts : list Timestamp) :
  Forall (fun p => fits_int64 (to_ns p.1 - to_ns p.2) = true)
         (zip ends starts) ->
  series_sub (Time <$> ends) (Time <$> starts)
  ≫= dt_days
  = Ok ((fun p => Int (whole_days p.1 p.2)) <$> zip ends starts).
Proof.
  intros Hfit. rewrite series_sub_ok by done. unfold dt_days.
  cbn [mbind result_bind].
  by rewrite (traverse_fmap_fmap _ _ (fun p => Int (whole_days p.1 p.2))).
Qed.

(** Rounding a count of days over 365.25 to one decimal gives the nearest
    tenth, and no count of days is halfway between two tenths. *)
Lemma round1_years d :
  exists k, round1 (inject_Z d / days_per_year) = k # 10
            /\ 2 * Z.abs (1461 * k - 40 * d) < 1461.
Proof.
  unfold round1, round_half_even, days_per_year. cbn.
  change (Z.pos (1 * 1461 * 1)) with 1461.
  eexists. split; [reflexivity|].
  repeat match goal with
         | |- context [?a <? ?b] => destruct (Z.ltb_spec a b)
         | |- context [Z.even ?a] => destruct (Z.even a)
         end;
    Z.to_euclidean_division_equations; lia.
Qed.

Example round1_389 : round1 (inject_Z 389 / days_per_year) = 11 # 10.
Proof. reflexivity. Qed.

Lemma whole_days_floor e s :
  ns_per_day * whole_days e s <= to_ns e - to_ns s
  < ns_per_day * (whole_days e s + 1).
Proof.
  unfold whole_days, ns_per_day. Z.to_euclidean_division_equations; lia.
Qed.

Lemma length_zip_same {A B} (a : list A) (b : list B) n :
  length a = n -> length b = n -> length (zip a b) = n.
Proof. intros <- Hb. rewrite length_zip_with. lia. Qed.

(** C7.  With the start column named date_of_birth and the unit years, the
    new column is named age_upon_<suffix>(years) and holds, for each row, the
    whole days from start to end divided by 365.25 and rounded to one
    decimal: the tenth nearest to the quotient.  389 days give 1.1.  The
    two columns hold valid timestamps, and the difference of every row fits
    the 64-bit count of nanoseconds pandas subtracts in (some 292 years). *)
Theorem age_in_years (df : DataFrame) (end_ col_suffix : string)
    (starts ends : list Timestamp) :
  well_formed df ->
  "date_of_birth" ∈ columns df ->
  end_ ∈ columns df ->
  row_get (columns df) "date_of_birth" <$> rows df = Time <$> starts ->
  row_get (columns df) end_ <$> rows df = Time <$> ends ->
  Forall valid_timestamp starts ->
  Forall valid_timestamp ends ->
  Forall (fun p => fits_int64 (to_ns p.1 - to_ns p.2) = true)
         (zip ends starts) ->
  (exists df',
     calculate_time_delta df "date_of_birth" end_ "years" col_suffix
     = Ok (mkSeries ("age_upon_" +:+ col_suffix +:+ "(years)")
             ((fun p => Float (round1 (inject_Z (whole_days p.1 p.2)
                                       / days_per_year)))
                <$> zip ends starts),
           df'))
  /\ (forall d : Z,
        exists k, round1 (inject_Z d / days_per_year) = k # 10
                  /\ 2 * Z.abs (1461 * k - 40 * d) < 1461)
  /\ round1 (inject_Z 389 / days_per_year) = 11 # 10.
Proof.
  intros Hwf Hstart Hend Hstarts Hends _ _ Hfit.
  split; [|split; [exact round1_years | reflexivity]].
  assert (Hls : length starts = length (rows df)).
  { apply (f_equal length) in Hstarts. by rewrite !length_fmap in Hstarts. }
  assert (Hle : length ends = length (rows df)).
  { apply (f_equal length) in Hends. by rewrite !length_fmap in Hends. }
  unfold calculate_time_delta.
  rewrite (get_column_ok df end_), (get_column_ok df "date_of_birth") by done.
  cbn [mbind result_bind s_values]. rewrite Hstarts, Hends.
  pose proof (time_in_days_ok ends starts Hfit) as Hdays.
  destruct (series_sub (Time <$> ends) (Time <$> starts)) as [time_delta|];
    [|done].
  cbn [mbind result_bind] in Hdays |- *. rewrite Hdays.
  cbn [mbind result_bind]. rewrite !decide_True by done.
  rewrite (traverse_fmap_fmap _ _
    (fun p => Float (inject_Z (whole_days p.1 p.2) / days_per_year))) by done.
  cbn [mbind result_bind].
  rewrite (traverse_fmap_fmap _ _
    (fun p => Float (round1 (inject_Z (whole_days p.1 p.2) / days_per_year))))
    by done.
  cbn [mbind result_bind].
  rewrite get_set_column_values;
    [|done|rewrite length_fmap; by apply length_zip_same].
  cbn [mbind result_bind]. eauto.
Qed.

(** C8.  With a start column not named date_of_birth, whatever the unit,
    the new column is named duration(<unit>) and holds the whole days from
    start to end, rounded down; the call returns that column, a series, and
    not the table.  The two columns hold valid timestamps, and the
    difference of every row fits the 64-bit count of nanoseconds pandas
    subtracts in (some 292 years). *)
Theorem duration_in_days (df : DataFrame) (start end_ unit col_suffix : string)
    (starts ends : list Timestamp) :
  well_formed df ->
  start ≠ "date_of_birth" ->
  start ∈ columns df ->
  end_ ∈ columns df ->
  row_get (columns df) start <$> rows df = Time <$> starts ->
  row_get (columns df) end_ <$> rows df = Time <$> ends ->
  Forall valid_timestamp starts ->
  Forall valid_timestamp ends ->
  Forall (fun p => fits_int64 (to_ns p.1 - to_ns p.2) = true)
         (zip ends starts) ->
  (exists df',
     calculate_time_delta df start end_ unit col_suffix
     = Ok (mkSeries ("duration(" +:+ unit +:+ ")")
             ((fun p => Int (whole_days p.1 p.2)) <$> zip ends starts),
           df'))
  /\ (forall e s : Timestamp,
        ns_per_day * whole_days e s <= to_ns e - to_ns s
        < ns_per_day * (whole_days e s + 1)).
Proof.
  intros Hwf Hne Hstart Hend Hstarts Hends _ _ Hfit.
  split; [|exact whole_days_floor].
  assert (Hls : length starts = length (rows df)).
  { apply (f_equal length) in Hstarts. by rewrite !length_fmap in Hstarts. }
  assert (Hle : length ends = length (rows df)).
  { apply (f_equal length) in Hends. by rewrite !length_fmap in Hends. }
  unfold calculate_time_delta.
  rewrite (get_column_ok df end_), (get_column_ok df start) by done.
  cbn [mbind result_bind s_values]. rewrite Hstarts, Hends.
  pose proof (time_in_days_ok ends starts Hfit) as Hdays.
  destruct (series_sub (Time <$> ends) (Time <$> starts)) as [time_delta|];
    [|done].
  cbn [mbind result_bind] in Hdays |- *. rewrite Hdays.
  cbn [mbind result_bind]. rewrite decide_False by done.
  rewrite get_set_column_values;
    [|done|rewrite length_fmap; by apply length_zip_same].
  cbn [mbind result_bind]. eauto.
Qed.

Lemma age_in_years_witness :
  exists df',
    calculate_time_delta DeltaDoctest.test_df
      "date_of_birth" "date_leave" "years" "leaving"
    = Ok (mkSeries "age_upon_leaving(years)" [Float (11 # 10)], df').
Proof.
  destruct (age_in_years DeltaDoctest.test_df "date_leave" "leaving"
              [mkTimestamp 2014 4 2 15 55 0 0] [mkTimestamp 2015 4 27 14 45 0 0])
    as [[df' Hrun] _].
  - by repeat constructor.
  - left.
  - right. left.
  - reflexivity.
  - reflexivity.
  - constructor; [repeat split; by vm_compute | constructor].
  - constructor; [repeat split; by vm_compute | constructor].
  - by repeat constructor.
  - exists df'. exact Hrun.
Defined.

Lemma duration_in_days_witness :
  exists df',
    calculate_time_delta DeltaDoctest.test_df2
      "date_start" "date_end" "years" ""
    = Ok (mkSeries "duration(years)" [Int 389], df').
Proof.
  destruct (duration_in_days DeltaDoctest.test_df2
              "date_start" "date_end" "years" ""
              [mkTimestamp 2014 4 2 15 55 0 0] [mkTimestamp 2015 4 27 14 45 0 0])
    as [[df' Hrun] _].
  - by repeat constructor.
  - discriminate.
  - left.
  - right. left.
  - reflexivity.
  - reflexivity.
  - constructor; [repeat split; by vm_compute | constructor].
  - constructor; [repeat split; by vm_compute | constructor].
  - by repeat constructor.
  - exists df'. exact Hrun.
Defined.

(** * Further properties *)

(** ** [merge_intake_n_outcome] *)

(** ** The join on the docstring tables *)

Lemma Doctest_outcome_typed : timestamp_typed (outcome_data Doctest.args).
Proof. repeat constructor. Defined.

Lemma Doctest_outcome_keys :
  NoDup (outcome_key (outcome_data Doctest.args)
           <$> rows (outcome_data Doctest.args)).
Proof. apply (bool_decide_unpack _). vm_compute. exact I. Defined.

Lemma merged_row_count_ge_witness :
  exists merged_data args',
    merge_intake_n_outcome Doctest.args = Ok (merged_data, args')
    /\ (6 <= length (rows merged_data))%nat.
Proof. exact (merged_row_count_ge Doctest.args Doctest_contract). Defined.

Lemma join_is_fifo_pairing_witness :
  exists merged_data args',
    merge_intake_n_outcome Doctest.args = Ok (merged_data, args')
    /\ length (rows merged_data) = 6%nat.
Proof.
  destruct (join_is_fifo_pairing Doctest.args Doctest_contract
              Doctest_outcome_typed Doctest_outcome_keys)
    as (m & a & Hrun & Hcount & _).
  by exists m, a.
Defined.

(** ** The matched column *)

Lemma imap_lookup_default {A} (ts : list Cell) (l : list A) :
  imap (fun k _ => default Null (ts !! k)) l
  = take (length l) ts ++ replicate (length l - length ts) Null.
Proof.
  apply list_eq. intros j. rewrite list_lookup_imap.
  destruct (decide (j < length l)%nat) as [Hj|Hj].
  - destruct (lookup_lt_is_Some_2 l j Hj) as [x ->]. simpl.
    destruct (decide (j < length ts)%nat) as [Hts|Hts].
    + rewrite lookup_app_l by (rewrite length_take; lia).
      rewrite lookup_take_lt by done.
      by destruct (lookup_lt_is_Some_2 ts j Hts) as [t ->].
    + rewrite (lookup_ge_None_2 ts j) by lia. simpl.
      rewrite lookup_app_r by (rewrite length_take; lia).
      rewrite length_take. symmetry. apply lookup_replicate_2. lia.
  - rewrite (lookup_ge_None_2 l j) by lia. simpl. symmetry.
    apply lookup_ge_None_2.
    rewrite length_app, length_take, length_replicate. lia.
Qed.

Lemma matched_timestamp_assign args o row :
  length row = length (columns (intake_data args)) ->
  matched_timestamp (columns (intake_reset args))
    (assign (columns (intake_reset args)) o
            (reset_row (columns (intake_data args)) row))
  = default NaT o.
Proof.
  intros Hlen. destruct o as [t|]; simpl.
  - apply row_get_row_set_eq; [apply set_column_has | by apply length_reset_row].
  - by apply matched_timestamp_reset_row.
Qed.

(** X3.  The column the call writes into the intake table holds, on the intake
    rows of an entity taken in table order, the outcome timestamps of that
    entity in outcome-table order, missing ones among them, as far as there
    are intake rows; the intake rows beyond the last outcome get [NaT].  So
    when an entity has more intake rows than outcomes, its first intake
    rows are the matched ones. *)
Theorem matched_column_of_entity (args : Tables) :
  contract args ->
  exists merged_data args',
    merge_intake_n_outcome args = Ok (merged_data, args')
    /\ forall E,
         let i := length (rows_of (intake_data args) E) in
         let ts := outcome_timestamps (outcome_data args) E in
         matched_timestamp (columns (intake_data args'))
           <$> rows_of (intake_data args') E
         = take i ts ++ replicate (i - length ts) NaT.
Proof.
  intros (Hkeys & Hwf & _).
  destruct (merge_intake_n_outcome_ok args Hkeys) as (d & Hq & Hrun).
  destruct Hkeys as (Hid & _ & _).
  eexists _, _. split; [exact Hrun|]. cbn [intake_data columns].
  intros E. cbv zeta.
  rewrite rows_of_paired by done.
  rewrite <- imap_lookup_default.
  apply list_eq. intros j.
  rewrite list_lookup_fmap, !list_lookup_imap.
  destruct (rows_of (intake_data args) E !! j) as [row0|] eqn:Hj; [|done].
  simpl. f_equal. apply matched_timestamp_assign.
  eapply rows_of_well_formed; [done|]. by eapply list_elem_of_lookup_2.
Qed.

(** ** What the pairing reads *)

Lemma queue_nil_lookup (d : gmap Cell (list Cell)) E :
  queue d E = [] -> d !! E = None \/ d !! E = Some [].
Proof. unfold queue. destruct (d !! E) as [[|]|]; simpl; by eauto. Qed.

Lemma queue_cons_lookup (d : gmap Cell (list Cell)) E t q :
  queue d E = t :: q -> d !! E = Some (t :: q).
Proof. unfold queue. destruct (d !! E) as [[|]|]; simpl; by intros [= -> ->] || done. Qed.

(** Two runs of the second loop over rows with the same entities, from
    dictionaries with the same queues, write the same timestamps. *)
Lemma pair_rows_matched_same cols1 cols2 d1 d2 rs1 rs2 :
  "datetime_outcome" ∈ cols1 -> "datetime_outcome" ∈ cols2 ->
  (forall E, queue d1 E = queue d2 E) ->
  Forall2 (fun r1 r2 => entity cols1 r1 = entity cols2 r2) rs1 rs2 ->
  Forall (fun r => length r = length cols1 /\ matched_timestamp cols1 r = NaT) rs1 ->
  Forall (fun r => length r = length cols2 /\ matched_timestamp cols2 r = NaT) rs2 ->
  matched_timestamp cols1 <$> pair_rows cols1 d1 rs1
  = matched_timestamp cols2 <$> pair_rows cols2 d2 rs2.
Proof.
  intros Hc1 Hc2 Hq Hrs. revert d1 d2 Hq.
  induction Hrs as [|r1 r2 rs1 rs2 He _ IH]; intros d1 d2 Hq H1 H2; [done|].
  apply Forall_cons in H1 as [[Hl1 Hm1] H1].
  apply Forall_cons in H2 as [[Hl2 Hm2] H2].
  cbn [pair_rows]. rewrite <- He.
  destruct (queue d1 (entity cols1 r1)) as [|t q] eqn:Hq1.
  - assert (Hq2 : queue d2 (entity cols1 r1) = []) by by rewrite <- Hq.
    destruct (queue_nil_lookup _ _ Hq1) as [->| ->],
             (queue_nil_lookup _ _ Hq2) as [->| ->];
      rewrite !fmap_cons, Hm1, Hm2; f_equal; by apply IH.
  - assert (Hq2 : queue d2 (entity cols1 r1) = t :: q) by by rewrite <- Hq.
    rewrite (queue_cons_lookup _ _ _ _ Hq1), (queue_cons_lookup _ _ _ _ Hq2).
    rewrite !fmap_cons. unfold matched_timestamp at 1 3.
    rewrite !row_get_row_set_eq by done. f_equal.
    apply IH; [|done|done].
    intros E. rewrite !queue_insert. by case_decide.
Qed.

Lemma intake_reset_ready args :
  "animal_id" ∈ columns (intake_data args) ->
  well_formed (intake_data args) ->
  Forall (fun r => length r = length (columns (intake_reset args))
                   /\ matched_timestamp (columns (intake_reset args)) r = NaT)
         (rows (intake_reset args)).
Proof.
  intros Hid Hwf. rewrite intake_reset_rows, Forall_fmap.
  eapply Forall_impl; [exact Hwf|]. intros row Hlen. simpl in *.
  split; [by apply length_reset_row | by apply matched_timestamp_reset_row].
Qed.

Lemma entity_intake_reset args :
  "animal_id" ∈ columns (intake_data args) ->
  well_formed (intake_data args) ->
  entity (columns (intake_reset args)) <$> rows (intake_reset args)
  = entity (columns (intake_data args)) <$> rows (intake_data args).
Proof.
  intros Hid Hwf. rewrite intake_reset_rows, <- list_fmap_compose.
  apply Forall_fmap_ext. eapply Forall_impl; [exact Hwf|].
  intros row Hlen. simpl in *. by apply row_get_reset_row.
Qed.

(** X4.  The pairing reads the intake table's animal_id column and nothing else
    of it: two intake tables with the same animal_id column, joined with one
    outcome table, get the same matched timestamps row by row, whatever
    their other columns hold. *)
Theorem pairing_reads_animal_id_only (args1 args2 : Tables) :
  contract args1 ->
  contract args2 ->
  outcome_data args1 = outcome_data args2 ->
  entity (columns (intake_data args1)) <$> rows (intake_data args1)
  = entity (columns (intake_data args2)) <$> rows (intake_data args2) ->
  exists merged1 args1' merged2 args2',
    merge_intake_n_outcome args1 = Ok (merged1, args1')
    /\ merge_intake_n_outcome args2 = Ok (merged2, args2')
    /\ matched_timestamp (columns (intake_data args1')) <$> rows (intake_data args1')
       = matched_timestamp (columns (intake_data args2')) <$> rows (intake_data args2').
Proof.
  intros (Hkeys1 & Hwf1 & _) (Hkeys2 & Hwf2 & _) Hout Hent.
  destruct (merge_intake_n_outcome_ok args1 Hkeys1) as (d1 & Hq1 & Hrun1).
  destruct (merge_intake_n_outcome_ok args2 Hkeys2) as (d2 & Hq2 & Hrun2).
  destruct Hkeys1 as (Hid1 & _ & _), Hkeys2 as (Hid2 & _ & _).
  eexists _, _, _, _. split; [exact Hrun1|]. split; [exact Hrun2|].
  cbn [intake_data columns rows].
  apply pair_rows_matched_same.
  - apply set_column_has.
  - apply set_column_has.
  - intros E. by rewrite Hq1, Hq2, Hout.
  - apply (Forall2_fmap _ _ eq). rewrite !entity_intake_reset by done.
    rewrite Hent. by apply Forall_Forall2_diag, Forall_true.
  - by apply intake_reset_ready.
  - by apply intake_reset_ready.
Qed.

Lemma matched_column_of_entity_witness :
  exists merged_data args',
    merge_intake_n_outcome Doctest.args = Ok (merged_data, args')
    /\ matched_timestamp (columns (intake_data args'))
         <$> rows_of (intake_data args') (Str "a")
       = [Doctest.ts 2019 5 13 18 20; NaT].
Proof.
  destruct (matched_column_of_entity Doctest.args Doctest_contract)
    as (m & a & Hrun & Hcolumn).
  exists m, a. split; [exact Hrun|]. exact (Hcolumn (Str "a")).
Defined.

Lemma pairing_reads_animal_id_only_witness :
  exists merged1 args1' merged2 args2',
    merge_intake_n_outcome Doctest.args = Ok (merged1, args1')
    /\ merge_intake_n_outcome (mkTables test_intake_later Doctest.test_outcome)
       = Ok (merged2, args2')
    /\ matched_timestamp (columns (intake_data args1')) <$> rows (intake_data args1')
       = matched_timestamp (columns (intake_data args2')) <$> rows (intake_data args2').
Proof.
  apply pairing_reads_animal_id_only.
  - exact Doctest_contract.
  - repeat split; repeat constructor.
  - reflexivity.
  - reflexivity.
Defined.

(** ** The rows of the joined table *)

Lemma join_row_take left right left_on right_on l :
  Forall (fun row => take (length l) row = l)
         (join_row left right left_on right_on l).
Proof.
  unfold join_row. destruct (filter _ (rows right)) as [|r rs].
  - repeat constructor. apply take_app_length.
  - apply Forall_fmap, Forall_true. intros r'. apply take_app_length.
Qed.

Lemma join_row_nonempty left right left_on right_on l :
  join_row left right left_on right_on l ≠ [].
Proof. unfold join_row. by destruct (filter _ (rows right)). Qed.

Lemma take_concat_singletons {A} (n : nat) (f : list A -> list (list A))
    (ls : list (list A)) :
  Forall (fun l => length l = n) ls ->
  (forall l, length (f l) = 1%nat) ->
  (forall l, Forall (fun row => take (length l) row = l) (f l)) ->
  take n <$> concat (f <$> ls) = ls.
Proof.
  intros Hls Hone Htake. induction Hls as [|l ls Hl _ IH]; [done|].
  rewrite fmap_cons, concat_cons, fmap_app, IH.
  specialize (Hone l). specialize (Htake l).
  destruct (f l) as [|row [|row' rest]]; simpl in Hone; try done.
  apply Forall_cons in Htake as [Htake _]. simpl. by rewrite <- Hl, Htake.
Qed.

(** X5.  The left join keeps the intake rows and their order: every output row
    begins with a row of the intake table the call leaves, every such row
    begins some output row, and when no two outcome rows share entity and
    timestamp the output rows cut to the intake columns are the intake rows,
    in their order.  So an entity of the outcome table alone is in no output
    row. *)
Theorem output_rows_extend_intake (args : Tables) :
  contract args ->
  exists merged_data args',
    merge_intake_n_outcome args = Ok (merged_data, args')
    /\ let n := length (columns (intake_data args')) in
       (forall row, row ∈ rows merged_data ->
          take n row ∈ rows (intake_data args'))
       /\ (forall l, l ∈ rows (intake_data args') ->
             exists row, row ∈ rows merged_data /\ take n row = l)
       /\ (NoDup (outcome_key (outcome_data args) <$> rows (outcome_data args)) ->
           take n <$> rows merged_data = rows (intake_data args')).
Proof.
  intros (Hkeys & Hwf & _).
  destruct (merge_intake_n_outcome_ok args Hkeys) as (d & Hq & Hrun).
  eexists _, _. split; [exact Hrun|].
  cbn [intake_data columns rows joined]. unfold merge_rows. cbn [rows columns].
  set (cols1 := columns (intake_reset args)).
  set (paired := pair_rows cols1 d (rows (intake_reset args))).
  assert (Hlen : Forall (fun l => length l = length cols1) paired).
  { apply Forall_forall. intros l Hl. by apply (well_formed_paired args d). }
  split; [|split].
  - intros row Hrow.
    apply list_elem_of_In, in_concat in Hrow as (out & Hout & Hrow).
    apply list_elem_of_In, list_elem_of_fmap in Hout as (l & -> & Hl).
    apply list_elem_of_In in Hrow.
    rewrite <- (proj1 (Forall_forall _ _) Hlen l Hl).
    by rewrite (proj1 (Forall_forall _ _) (join_row_take _ _ _ _ l) row Hrow).
  - intros l Hl.
    pose proof (join_row_nonempty
                  (mkDataFrame cols1 paired) (outcome_data args)
                  ["animal_id"; "datetime_outcome"] ["animal_id"; "datetime"] l)
      as Hne.
    pose proof (join_row_take
                  (mkDataFrame cols1 paired) (outcome_data args)
                  ["animal_id"; "datetime_outcome"] ["animal_id"; "datetime"] l)
      as Htake.
    destruct (join_row _ _ _ _ l) as [|row rest] eqn:Hjoin; [done|].
    exists row. split.
    + apply list_elem_of_In, in_concat. exists (row :: rest). split.
      * apply list_elem_of_In, list_elem_of_fmap. exists l. by rewrite Hjoin.
      * by left.
    + apply Forall_cons in Htake as [Htake _].
      by rewrite <- (proj1 (Forall_forall _ _) Hlen l Hl).
  - intros Hnodup. apply take_concat_singletons; [done| |].
    + intros l. unfold join_row.
      pose proof (length_filter_NoDup
        (merge_key (columns (outcome_data args)) ["animal_id"; "datetime"])
        (merge_key cols1 ["animal_id"; "datetime_outcome"] l)
        (rows (outcome_data args)) Hnodup) as Hle.
      cbn [columns rows] in Hle |- *.
      destruct (filter _ (rows (outcome_data args))) as [|r [|r' rs]];
        simpl in *; [done | done | lia].
    + intros l. apply join_row_take.
Qed.

Lemma output_rows_extend_intake_witness :
  exists merged_data args',
    merge_intake_n_outcome Doctest.args = Ok (merged_data, args')
    /\ take (length (columns (intake_data args'))) <$> rows merged_data
       = rows (intake_data args').
Proof.
  destruct (output_rows_extend_intake Doctest.args Doctest_contract)
    as (m & a & Hrun & _ & _ & Horder).
  exists m, a. split; [exact Hrun|]. apply Horder.
  apply (bool_decide_unpack _). vm_compute. exact I.
Defined.

(** ** Empty tables and missing columns *)

Lemma pair_rows_no_queue cols d rs :
  (forall E, queue d E = []) -> pair_rows cols d rs = rs.
Proof.
  intros Hq. induction rs as [|row rest IH]; [done|]. cbn [pair_rows].
  destruct (queue_nil_lookup d (entity cols row) (Hq _)) as [->| ->];
    by rewrite IH.
Qed.

(** X6.  With no outcome row, no intake row is matched: the call leaves the
    intake table with the added column empty, and each output row is an
    intake row followed by nulls.  With no intake row, the output has no
    row. *)
Theorem merge_with_empty_table (args : Tables) :
  contract args ->
  exists merged_data args',
    merge_intake_n_outcome args = Ok (merged_data, args')
    /\ (rows (outcome_data args) = [] ->
        intake_data args' = set_column (intake_data args) "datetime_outcome" NaT
        /\ rows merged_data
           = (fun l => l ++ replicate
                (length (drop_columns ["animal_id"] (columns (outcome_data args))))
                NaT)
             <$> rows (intake_data args'))
    /\ (rows (intake_data args) = [] -> rows merged_data = []).
Proof.
  intros (Hkeys & Hwf & _).
  destruct (merge_intake_n_outcome_ok args Hkeys) as (d & Hq & Hrun).
  eexists _, _. split; [exact Hrun|].
  cbn [intake_data columns rows joined]. unfold merge_rows. cbn [rows columns].
  split.
  - intros Hempty.
    assert (Hnone : forall E, queue d E = []).
    { intros E. rewrite Hq. unfold outcome_timestamps, rows_of.
      by rewrite Hempty. }
    rewrite pair_rows_no_queue by done.
    fold (intake_reset args). split; [by destruct (intake_reset args)|].
    unfold join_row. cbn [rows columns]. rewrite Hempty.
    clear Hrun. induction (rows (intake_reset args)) as [|l ls IH]; [done|].
    rewrite !fmap_cons, concat_cons, IH. done.
  - intros Hempty. rewrite intake_reset_rows, Hempty. done.
Qed.

Lemma merge_with_empty_table_witness :
  exists merged_data args',
    merge_intake_n_outcome
      (mkTables Doctest.test_intake (mkDataFrame ["animal_id"; "datetime"] []))
    = Ok (merged_data, args')
    /\ length (rows merged_data) = 6%nat.
Proof.
  destruct (merge_with_empty_table
              (mkTables Doctest.test_intake
                        (mkDataFrame ["animal_id"; "datetime"] [])))
    as (m & a & Hrun & Hout & _).
  - repeat split; repeat constructor.
  - exists m, a. split; [exact Hrun|].
    destruct (Hout eq_refl) as [Ha ->]. rewrite Ha. reflexivity.
Defined.

(** *** Missing key columns *)

Lemma outcome_loop_raises cols irs d e :
  for_each (outcome_loop_body cols) irs d = Raise e -> e = AttributeError.
Proof.
  revert d. induction irs as [|ir irs IH]; intros d; [done|]. cbn [for_each].
  destruct (outcome_loop_body cols d ir) as [d1|e1] eqn:Hbody;
    cbn [mbind result_bind]; [apply IH|].
  intros [= <-]. unfold outcome_loop_body, getattr in Hbody.
  destruct (decide ("animal_id" ∈ cols)); cbn [mbind result_bind] in Hbody;
    [|congruence].
  destruct (d !! _), (decide ("datetime" ∈ cols));
    cbn [mbind result_bind] in Hbody; congruence.
Qed.

Lemma intake_loop_raises cols irs st e :
  for_each (intake_loop_body cols) irs st = Raise e -> e = AttributeError.
Proof.
  revert st. induction irs as [|[index row] irs IH]; intros [d df]; [done|].
  cbn [for_each].
  destruct (intake_loop_body cols (d, df) (index, row)) as [st1|e1] eqn:Hbody;
    cbn [mbind result_bind]; [apply IH|].
  intros [= <-]. unfold intake_loop_body, getattr in Hbody.
  destruct (decide ("animal_id" ∈ cols)); cbn [mbind result_bind] in Hbody;
    [|congruence].
  by destruct (d !! _) as [[|front rest]|].
Qed.

Lemma intake_loop_columns cols irs d df d' df' :
  for_each (intake_loop_body cols) irs (d, df) = Ok (d', df') ->
  columns df' = columns df.
Proof.
  revert d df. induction irs as [|[index row] irs IH]; intros d df.
  - by intros [= _ ->].
  - cbn [for_each].
    destruct (intake_loop_body cols (d, df) (index, row)) as [[d1 df1]|e1]
      eqn:Hbody; cbn [mbind result_bind]; [|done].
    intros Hloop. rewrite (IH _ _ Hloop).
    unfold intake_loop_body in Hbody.
    destruct (getattr cols row "animal_id") as [animal_id|];
      cbn [mbind result_bind] in Hbody; [|done].
    destruct (d !! animal_id) as [[|front rest]|]; by injection Hbody as _ <-.
Qed.

Lemma set_column_keeps_inv df name v c :
  c ∈ columns (set_column df name v) -> c ≠ name -> c ∈ columns df.
Proof.
  unfold set_column. case_decide; simpl; [done|].
  intros [?|Hc%list_elem_of_singleton]%elem_of_app; done.
Qed.

(** A call that returns had its key columns. *)
Lemma merge_returns_has_keys args r :
  merge_intake_n_outcome args = Ok r -> has_keys args.
Proof.
  unfold merge_intake_n_outcome.
  destruct (for_each (outcome_loop_body _) _ ∅) as [d|]; [|done].
  cbn [mbind result_bind].
  destruct (for_each (intake_loop_body _) _ _) as [[d' df']|] eqn:Hloop; [|done].
  cbn [mbind result_bind]. unfold pd_merge_left.
  destruct (decide _) as [[Hl Hr]|]; [|done]. intros _.
  apply intake_loop_columns in Hloop.
  apply Forall_cons in Hl as [Hl _]. rewrite Hloop in Hl.
  apply set_column_keeps_inv in Hl; [|done].
  apply Forall_cons in Hr as [Hr1 [Hr2 _]%Forall_cons].
  by repeat split.
Qed.

Lemma merge_raises args e :
  merge_intake_n_outcome args = Raise e -> e = AttributeError \/ e = KeyError.
Proof.
  unfold merge_intake_n_outcome.
  destruct (for_each (outcome_loop_body _) _ ∅) as [d|e1] eqn:H1.
  2:{ intros [= <-]. left. by eapply outcome_loop_raises. }
  cbn [mbind result_bind].
  destruct (for_each (intake_loop_body _) _ _) as [[d' df']|e2] eqn:H2.
  2:{ intros [= <-]. left. by eapply intake_loop_raises. }
  cbn [mbind result_bind]. unfold pd_merge_left.
  destruct (decide _); [done|]. intros [= <-]. by right.
Qed.

(** X7.  A call on tables that lack a key column raises, [AttributeError] from
    [row.animal_id] or [row.datetime] in a loop or [KeyError] from the
    join: it returns no table.  The column names of each table are taken
    distinct, so that [row.animal_id] is one value. *)
Theorem merge_without_keys_raises (args : Tables) :
  NoDup (columns (intake_data args)) ->
  NoDup (columns (outcome_data args)) ->
  ~ has_keys args ->
  exists e, merge_intake_n_outcome args = Raise e
            /\ (e = AttributeError \/ e = KeyError).
Proof.
  intros _ _ Hnokeys.
  destruct (merge_intake_n_outcome args) as [r|e] eqn:Hrun.
  - destruct Hnokeys. by eapply merge_returns_has_keys.
  - exists e. split; [done|]. by eapply merge_raises.
Qed.

Lemma merge_without_keys_raises_witness :
  exists e,
    merge_intake_n_outcome (mkTables Doctest.test_intake outcome_renamed)
    = Raise e
    /\ (e = AttributeError \/ e = KeyError).
Proof.
  apply merge_without_keys_raises.
  - apply (bool_decide_unpack _). vm_compute. exact I.
  - apply (bool_decide_unpack _). vm_compute. exact I.
  - intros (_ & _ & Hdt). cbn in Hdt.
    by repeat (apply elem_of_cons in Hdt as [Hdt|Hdt]; [discriminate|]);
      apply elem_of_nil in Hdt.
Defined.

(** ** The rows joined *)

Lemma join_row_cases left right left_on right_on l row :
  row ∈ join_row left right left_on right_on l ->
  (row = l ++ replicate
           (length (drop_columns (shared_keys left_on right_on) (columns right)))
           Null
   /\ Forall (fun r => merge_key (columns right) right_on r
                       ≠ merge_key (columns left) left_on l) (rows right))
  \/ exists r,
       r ∈ rows right
       /\ row = l ++ drop_cells (shared_keys left_on right_on) (columns right) r
       /\ merge_key (columns right) right_on r
          = merge_key (columns left) left_on l.
Proof.
  unfold join_row.
  destruct (filter _ (rows right)) as [|r0 rs] eqn:Hfilter.
  - intros ->%list_elem_of_singleton. left. split; [done|].
    apply Forall_forall. intros r Hr Hkey.
    assert (Hin : r ∈ filter
              (fun r => merge_key (columns right) right_on r
                        = merge_key (columns left) left_on l) (rows right))
      by by apply list_elem_of_filter.
    rewrite Hfilter in Hin. by apply elem_of_nil in Hin.
  - intros (r & -> & Hr)%list_elem_of_fmap. right. exists r.
    rewrite <- Hfilter in Hr. apply list_elem_of_filter in Hr as [Hkey Hr].
    done.
Qed.

(** X21.  The join never puts two animals in one row.  Every output row is a
    row of the intake table the call leaves, followed either by the cells of
    an outcome row of the same animal_id whose timestamp is the one written
    for that intake row, or - when the outcome table has no such row - by
    nulls only. *)
Theorem joined_outcome_same_entity (args : Tables) :
  contract args ->
  exists merged_data args',
    merge_intake_n_outcome args = Ok (merged_data, args')
    /\ forall row, row ∈ rows merged_data ->
         exists l,
           l ∈ rows (intake_data args')
           /\ ((row = l ++ replicate
                          (length (drop_columns ["animal_id"]
                                     (columns (outcome_data args))))
                          Null
                /\ Forall (fun r =>
                             entity (columns (outcome_data args)) r
                             = entity (columns (intake_data args')) l ->
                             row_get (columns (outcome_data args)) "datetime" r
                             ≠ matched_timestamp (columns (intake_data args')) l)
                          (rows (outcome_data args)))
               \/ exists r,
                    r ∈ rows (outcome_data args)
                    /\ row = l ++ drop_cells ["animal_id"]
                                    (columns (outcome_data args)) r
                    /\ entity (columns (outcome_data args)) r
                       = entity (columns (intake_data args')) l
                    /\ row_get (columns (outcome_data args)) "datetime" r
                       = matched_timestamp (columns (intake_data args')) l).
Proof.
  intros (Hkeys & _).
  destruct (merge_intake_n_outcome_ok args Hkeys) as (d & _ & Hrun).
  eexists _, _. split; [exact Hrun|].
  cbn [intake_data columns rows joined]. unfold merge_rows. cbn [rows columns].
  intros row Hrow.
  apply list_elem_of_In, in_concat in Hrow as (out & Hout & Hrow).
  apply list_elem_of_In, list_elem_of_fmap in Hout as (l & -> & Hl).
  apply list_elem_of_In, join_row_cases in Hrow.
  exists l. split; [done|]. cbn [columns rows] in Hrow.
  destruct Hrow as [[-> Hnone]|(r & Hr & -> & Hkey)].
  - left. split; [done|].
    eapply Forall_impl; [exact Hnone|]. intros r Hne He Hdt. apply Hne.
    unfold merge_key. cbn [fmap list_fmap].
    unfold entity, matched_timestamp in *. by rewrite He, Hdt.
  - right. exists r. split; [done|]. split; [done|].
    unfold merge_key in Hkey. cbn [fmap list_fmap] in Hkey.
    by injection Hkey.
Qed.

Lemma joined_outcome_same_entity_witness :
  exists merged_data args',
    merge_intake_n_outcome Doctest.args = Ok (merged_data, args')
    /\ forall row, row ∈ rows merged_data ->
         exists l, l ∈ rows (intake_data args') /\ take (length l) row = l.
Proof.
  destruct (joined_outcome_same_entity Doctest.args Doctest_contract)
    as (m & a & Hrun & Hrows).
  exists m, a. split; [exact Hrun|]. intros row Hrow.
  destruct (Hrows row Hrow) as (l & Hl & Hcases). exists l. split; [done|].
  destruct Hcases as [[-> _]|(r & _ & -> & _)]; apply take_app_length.
Defined.

(** ** [get_data] *)

(** ** What [get_data] returns and when it stops *)

Section get_data_more.

Context (web : Web).

Lemma for_each_app {A S} (body : S -> A -> result S) (l1 l2 : list A) (s : S) :
  for_each body (l1 ++ l2) s = s' ← for_each body l1 s; for_each body l2 s'.
Proof.
  revert s. induction l1 as [|x l1 IH]; intros s; [done|].
  cbn [app for_each]. destruct (body s x) as [s1|e]; cbn [mbind result_bind];
    [apply IH | done].
Qed.

Lemma get_data_body_unfold d out file_name url :
  get_data_body web (d, out) (file_name, url)
  = status ← requests_get web url;
    if decide (status = 200)
    then data ← read_csv web url;
         Ok (<[file_name := data]> d,
             out ++ [success_message file_name (length (rows data))])
    else Ok (d, out ++ [failure_message file_name status]).
Proof. reflexivity. Qed.

(** Over entries with distinct names none of whose requests raises, the loop
    collects under each name the table read from its address, prints one
    line per entry, and leaves the other names as they were. *)
Lemma get_data_loop_reads urls d0 out0 :
  NoDup urls.*1 ->
  (forall name url, (name, url) ∈ urls ->
     exists status, requests_get web url = Ok status
       /\ (status = 200 -> exists data, read_csv web url = Ok data)) ->
  exists d out,
    for_each (get_data_body web) urls (d0, out0) = Ok (d, out)
    /\ length out = (length out0 + length urls)%nat
    /\ (forall name url data,
          (name, url) ∈ urls -> requests_get web url = Ok 200 ->
          read_csv web url = Ok data -> d !! name = Some data)
    /\ (forall name, name ∉ urls.*1 -> d !! name = d0 !! name).
Proof.
  revert d0 out0. induction urls as [|[file_name url] urls IH];
    intros d0 out0 Hnodup Hok.
  - exists d0, out0. split; [done|]. split; [simpl; lia|].
    split; [by intros ??? ?%elem_of_nil | done].
  - rewrite fmap_cons in Hnodup. apply NoDup_cons in Hnodup as [Hfresh Hnodup].
    cbn [fst] in Hfresh.
    destruct (Hok file_name url) as (status & Hget & Hcsv); [left|].
    assert (Hok' : forall name u, (name, u) ∈ urls ->
              exists status, requests_get web u = Ok status
                /\ (status = 200 -> exists data, read_csv web u = Ok data)).
    { intros name u Hin. apply (Hok name u). by right. }
    cbn [for_each]. rewrite get_data_body_unfold, Hget.
    cbn [mbind result_bind]. case_decide as Hstatus.
    + destruct (Hcsv Hstatus) as [data Hdata]. rewrite Hdata.
      cbn [mbind result_bind].
      destruct (IH (<[file_name := data]> d0)
                   (out0 ++ [success_message file_name (length (rows data))])
                   Hnodup Hok') as (d & out & Hloop & Hlen & Hread & Hkeep).
      exists d, out. split; [done|]. split.
      { rewrite Hlen, length_app. simpl. lia. }
      split.
      * intros name u data' [[= -> ->]|Hin]%elem_of_cons Hu Hdata'.
        -- rewrite (Hkeep _ Hfresh), lookup_insert_eq. congruence.
        -- by eapply Hread.
      * intros name [Hne Hnin]%not_elem_of_cons.
        rewrite (Hkeep _ Hnin). by rewrite lookup_insert_ne.
    + destruct (IH d0 (out0 ++ [failure_message file_name status])
                   Hnodup Hok') as (d & out & Hloop & Hlen & Hread & Hkeep).
      exists d, out. split; [done|]. split.
      { rewrite Hlen, length_app. simpl. lia. }
      split.
      * intros name u data' [[= -> ->]|Hin]%elem_of_cons Hu Hdata'.
        -- congruence.
        -- by eapply Hread.
      * intros name [Hne Hnin]%not_elem_of_cons. by apply Hkeep.
Qed.

(** X8.  When the entries named intake and outcome are retrieved with status 200
    and no request raises, [get_data] returns the two tables read from their
    addresses, in that order, whatever other entries the dictionary has and
    wherever the two stand in it; it prints one line per entry. *)
Theorem get_data_returns_read_tables (urls : list (string * string))
    (url_i url_o : string) (table_i table_o : DataFrame) :
  NoDup urls.*1 ->
  ("intake", url_i) ∈ urls ->
  ("outcome", url_o) ∈ urls ->
  requests_get web url_i = Ok 200 -> read_csv web url_i = Ok table_i ->
  requests_get web url_o = Ok 200 -> read_csv web url_o = Ok table_o ->
  (forall name url, (name, url) ∈ urls ->
     exists status, requests_get web url = Ok status
       /\ (status = 200 -> exists data, read_csv web url = Ok data)) ->
  exists out,
    get_data web urls = Ok ((table_i, table_o), out)
    /\ length out = length urls.
Proof.
  intros Hnodup Hi Ho Hgi Hci Hgo Hco Hok.
  destruct (get_data_loop_reads urls ∅ [] Hnodup Hok)
    as (d & out & Hloop & Hlen & Hread & _).
  exists out. split; [|done].
  unfold get_data. rewrite Hloop. cbn [mbind result_bind]. unfold getitem.
  rewrite (Hread _ _ _ Hi Hgi Hci), (Hread _ _ _ Ho Hgo Hco). done.
Qed.

(** X9.  A request that raises stops the call with its exception, for any entry,
    whatever follows it: the entries before it were processed, those after
    it are not, and no table is returned. *)
Theorem get_data_request_raises (before after : list (string * string))
    (file_name url : string) (st : gmap string DataFrame * list string) (e : exn) :
  for_each (get_data_body web) before (∅, []) = Ok st ->
  requests_get web url = Raise e
  \/ (requests_get web url = Ok 200 /\ read_csv web url = Raise e) ->
  get_data web (before ++ (file_name, url) :: after) = Raise e.
Proof.
  intros Hbefore Hraise. unfold get_data. rewrite for_each_app, Hbefore.
  cbn [mbind result_bind for_each]. destruct st as [d out].
  rewrite get_data_body_unfold.
  destruct Hraise as [-> | [-> ->]]; [done|].
  cbn [mbind result_bind]. by rewrite decide_True.
Qed.

End get_data_more.

Lemma get_data_returns_read_tables_witness :
  exists out,
    get_data Online.web Online.urls
    = Ok ((Doctest.test_intake, Doctest.test_outcome), out)
    /\ length out = 3%nat.
Proof.
  apply (get_data_returns_read_tables Online.web Online.urls
           "https://data.example/intake.csv" "https://data.example/outcome.csv").
  - apply (bool_decide_unpack _). vm_compute. exact I.
  - left.
  - right. right. left.
  - reflexivity.
  - reflexivity.
  - reflexivity.
  - reflexivity.
  - intros name url _. exists 200. split; [reflexivity|]. intros _.
    unfold Online.web. simpl. case_decide; eauto.
Defined.

Lemma get_data_request_raises_witness :
  get_data Online.unreachable Online.urls = Raise IOError.
Proof.
  apply (get_data_request_raises Online.unreachable
           [("intake", "https://data.example/intake.csv")]
           [("outcome", "https://data.example/outcome.csv")]
           "locations" "https://data.example/locations.csv"
           (<["intake" := Doctest.test_intake]> ∅, [success_message "intake" 6])).
  - reflexivity.
  - left. reflexivity.
Defined.

(** ** [date_format] *)

(** ** [date_format]: the table it leaves *)

Lemma traverse_Forall {A B} (f : A -> result B) (P : B -> Prop)
    (l : list A) (k : list B) :
  (forall x y, f x = Ok y -> P y) -> traverse f l = Ok k -> Forall P k.
Proof.
  intros Hf. revert k. induction l as [|x l IH]; intros k; cbn [traverse].
  - intros [= <-]. constructor.
  - destruct (f x) as [y|] eqn:Hx; cbn [mbind result_bind]; [|done].
    destruct (traverse f l) as [ys|]; cbn [mbind result_bind]; [|done].
    intros [= <-]. constructor; [by eapply Hf | by apply IH].
Qed.

Lemma traverse_raises {A B} (f : A -> result B) (e : exn) (l : list A) :
  Forall (fun x => (exists y, f x = Ok y) \/ f x = Raise e) l ->
  Exists (fun x => f x = Raise e) l ->
  traverse f l = Raise e.
Proof.
  induction 1 as [|x l Hx _ IH]; intros Hex; [by apply Exists_nil in Hex|].
  cbn [traverse]. destruct Hx as [[y Hy]| ->]; [|done]. rewrite Hy.
  cbn [mbind result_bind].
  apply Exists_cons in Hex as [Hex|Hex]; [congruence|].
  by rewrite IH.
Qed.

Lemma get_column_missing df name :
  name ∉ columns df -> get_column df name = Raise KeyError.
Proof. intros Hnin. unfold get_column. by rewrite decide_False. Qed.

Lemma columns_set_column_values df name vs :
  name ∈ columns df -> columns (set_column_values df name vs) = columns df.
Proof. intros Hin. unfold set_column_values. by rewrite decide_True. Qed.

Lemma column_set_column_values df name vs :
  name ∈ columns df -> well_formed df -> length vs = length (rows df) ->
  row_get (columns (set_column_values df name vs)) name
    <$> rows (set_column_values df name vs) = vs.
Proof.
  intros Hin Hwf Hlen. unfold set_column_values. rewrite decide_True by done.
  cbn [columns rows].
  eapply fmap_zip_with_get; [exact Hwf| |done].
  intros row v Hrow. simpl in Hrow. by apply row_get_row_set_eq.
Qed.

Lemma fmap_zip_with_keep {A B C} (f : A -> B -> A) (g : A -> C)
    (l : list A) (vs : list B) :
  (forall x v, g (f x v) = g x) -> length vs = length l ->
  g <$> zip_with f l vs = g <$> l.
Proof.
  intros Hgf. revert vs. induction l as [|x l IH]; intros [|v vs]; simpl;
    try done.
  intros [= Hlen]. by rewrite Hgf, IH.
Qed.

Lemma other_column_set_column_values df name vs c :
  name ∈ columns df -> c ≠ name -> length vs = length (rows df) ->
  row_get (columns (set_column_values df name vs)) c
    <$> rows (set_column_values df name vs)
  = row_get (columns df) c <$> rows df.
Proof.
  intros Hin Hne Hlen. unfold set_column_values. rewrite decide_True by done.
  cbn [columns rows]. apply fmap_zip_with_keep; [|done].
  intros row v. by apply row_get_row_set_ne.
Qed.

Lemma valid_cell_truncate p c : valid_cell c -> valid_cell (truncate_cell p c).
Proof.
  destruct c as [| t | | | |]; try done. cbn [valid_cell truncate_cell].
  apply valid_truncate.
Qed.

Lemma valid_cell_datetime c : valid_cell c -> is_datetime c = true.
Proof. by destruct c. Qed.

(** X10.  [date_format] writes one column and nothing else.  On a column the
    table does not have it raises [KeyError], whatever the format.  With the
    format of a precision, on a column [pd.to_datetime] reads, it returns,
    and it leaves the table with the same columns in the same order and the
    same number of rows, every other column cell for cell as it was, and
    the named column cut to the precision. *)
Theorem date_format_frame (df : DataFrame) (col : string) :
  well_formed df ->
  (col ∉ columns df ->
   forall datetime_format, date_format df col datetime_format = Raise KeyError)
  /\ forall (p : Precision) (parsed : list Cell),
       col ∈ columns df ->
       to_datetime (row_get (columns df) col <$> rows df) = Ok parsed ->
       Forall valid_cell parsed ->
       exists df',
         date_format df col (format_of p) = Ok df'
         /\ columns df' = columns df
         /\ length (rows df') = length (rows df)
         /\ well_formed df'
         /\ (forall c, c ≠ col ->
               row_get (columns df') c <$> rows df'
               = row_get (columns df) c <$> rows df)
         /\ row_get (columns df') col <$> rows df' = truncate_cell p <$> parsed.
Proof.
  intros Hwf. split.
  { intros Hnin fmt. unfold date_format. by rewrite get_column_missing. }
  intros p parsed Hcol Hread Hvalid.
  assert (Hlen : length (truncate_cell p <$> parsed) = length (rows df)).
  { rewrite length_fmap, (to_datetime_length _ _ Hread). by rewrite length_fmap. }
  eexists. split; [by apply date_format_precision|].
  split; [by apply columns_set_column_values|].
  split; [by apply length_set_column_values|].
  split; [by apply well_formed_set_column_values|].
  split; [intros c Hc; by apply other_column_set_column_values|].
  by apply column_set_column_values.
Qed.

Lemma date_format_frame_witness :
  exists df',
    date_format loaded_dates "date" "%Y-%m-%d" = Ok df'
    /\ columns df' = ["animal_id"; "date"]
    /\ row_get (columns df') "animal_id" <$> rows df' = [Str "a"; Str "b"].
Proof.
  destruct (date_format_frame loaded_dates "date") as (_ & Hframe).
  - by repeat constructor.
  - destruct (Hframe Day
                [Time (mkTimestamp 2013 10 11 11 29 35 0);
                 Time (mkTimestamp 2014 4 2 15 55 0 0)])
      as (df' & Hrun & Hcols & _ & _ & Hother & _).
    + right. left.
    + reflexivity.
    + repeat constructor; by vm_compute.
    + exists df'. split; [exact Hrun|]. split; [exact Hcols|].
      by rewrite (Hother "animal_id").
Defined.

(** X11.  With the format of year, month, day, hour and minute, [date_format]
    leaves in the column, for every value of a column [pd.to_datetime]
    reads, that timestamp cut to its minute: the date, the hour and the
    minute are kept, the seconds and their fraction are zero. *)
Theorem date_format_to_minute (df : DataFrame) (col : string)
    (ts : list Timestamp) :
  col ∈ columns df ->
  well_formed df ->
  to_datetime (row_get (columns df) col <$> rows df) = Ok (Time <$> ts) ->
  Forall valid_timestamp ts ->
  exists df' minutes,
    date_format df col "%Y-%m-%d %H:%M" = Ok df'
    /\ row_get (columns df') col <$> rows df' = Time <$> minutes
    /\ Forall2 (fun t m =>
                  year m = year t /\ month m = month t /\ day m = day t
                  /\ hour m = hour t /\ minute m = minute t
                  /\ second m = 0 /\ nanosecond m = 0)
               ts minutes.
Proof.
  intros Hcol Hwf Hread Hvalid.
  assert (Hlen : length ts = length (rows df)).
  { apply to_datetime_length in Hread. by rewrite !length_fmap in Hread. }
  exists (set_column_values df col (Time ∘ truncate Minute <$> ts)),
         (truncate Minute <$> ts).
  split; [exact (date_format_timestamps df col Minute ts Hcol Hwf Hread Hvalid)|].
  split.
  - rewrite column_set_column_values by (by rewrite ?length_fmap).
    by rewrite list_fmap_compose.
  - apply Forall2_fmap_r, Forall_Forall2_diag, Forall_true. by intros t.
Qed.

Lemma date_format_to_minute_witness :
  exists df',
    date_format loaded_dates "date" "%Y-%m-%d %H:%M" = Ok df'
    /\ row_get (columns df') "date" <$> rows df'
       = [Time (mkTimestamp 2013 10 11 11 29 0 0);
          Time (mkTimestamp 2014 4 2 15 55 0 0)].
Proof.
  destruct (date_format_to_minute loaded_dates "date"
              [mkTimestamp 2013 10 11 11 29 35 0; mkTimestamp 2014 4 2 15 55 0 0])
    as (df' & minutes & Hrun & Hcol & Hcut).
  - right; left.
  - by repeat constructor.
  - reflexivity.
  - repeat constructor; by vm_compute.
  - exists df'. split; [exact Hrun|].
    vm_compute in Hrun. injection Hrun as <-. reflexivity.
Defined.

(** ** [date_format]: one format after another *)

Lemma truncate_truncate p q t :
  truncate q (truncate p t) = truncate (coarser p q) t.
Proof. by destruct p, q. Qed.

Lemma truncate_cell_truncate_cell p q c :
  truncate_cell q (truncate_cell p c) = truncate_cell (coarser p q) c.
Proof.
  destruct c as [| t | | | |]; try done.
  cbn [truncate_cell]. by rewrite truncate_truncate.
Qed.

(** X12.  One format after another cuts to the coarser of the two
    precisions: [date_format] at a precision, and then at a second one on
    the table the first call left, gives the table that one call at the
    coarser precision gives.  So a second call with the same format changes
    nothing, and neither does a call with a finer format. *)
Theorem date_format_again (df : DataFrame) (col : string) (p q : Precision)
    (parsed : list Cell) :
  col ∈ columns df ->
  well_formed df ->
  to_datetime (row_get (columns df) col <$> rows df) = Ok parsed ->
  Forall valid_cell parsed ->
  exists first second,
    date_format df col (format_of p) = Ok first
    /\ date_format first col (format_of q) = Ok second
    /\ date_format df col (format_of (coarser p q)) = Ok second
    /\ (coarser p q = p -> second = first).
Proof.
  intros Hcol Hwf Hread Hvalid.
  assert (Hlen : length (truncate_cell p <$> parsed) = length (rows df)).
  { rewrite length_fmap, (to_datetime_length _ _ Hread). by rewrite length_fmap. }
  assert (Hvalid' : Forall valid_cell (truncate_cell p <$> parsed)).
  { apply Forall_fmap. eapply Forall_impl; [exact Hvalid|].
    intros c. apply valid_cell_truncate. }
  eexists _, _. split; [by apply date_format_precision|].
  assert (Hsecond :
    date_format (set_column_values df col (truncate_cell p <$> parsed)) col
                (format_of q)
    = Ok (set_column_values df col (truncate_cell (coarser p q) <$> parsed))).
  { rewrite (date_format_precision _ col q (truncate_cell p <$> parsed)).
    - rewrite set_set_column_values by done.
      rewrite <- list_fmap_compose. do 2 f_equal.
      apply list_fmap_ext. intros i c _. apply truncate_cell_truncate_cell.
    - by rewrite columns_set_column_values.
    - by apply well_formed_set_column_values.
    - rewrite column_set_column_values by done.
      apply to_datetime_datetime.
      eapply Forall_impl; [exact Hvalid'|]. apply valid_cell_datetime.
    - done. }
  split; [exact Hsecond|].
  split; [by apply date_format_precision|].
  by intros ->.
Qed.

Lemma date_format_again_witness :
  exists first second,
    date_format loaded_dates "date" "%Y-%m-%d %H:%M" = Ok first
    /\ date_format first "date" "%Y-%m-%d" = Ok second
    /\ date_format loaded_dates "date" "%Y-%m-%d" = Ok second.
Proof.
  destruct (date_format_again loaded_dates "date" Minute Day
              [Time (mkTimestamp 2013 10 11 11 29 35 0);
               Time (mkTimestamp 2014 4 2 15 55 0 0)])
    as (first & second & H1 & H2 & H3 & _).
  - right. left.
  - by repeat constructor.
  - reflexivity.
  - repeat constructor; by vm_compute.
  - exists first, second. exact (conj H1 (conj H2 H3)).
Defined.

(** ** [date_format]: missing dates and two spellings *)

Lemma strptime_cell_isna fmt c v :
  strptime_cell fmt c = Ok v -> isna v = isna c.
Proof.
  destruct c as [s| t | | | |]; cbn [strptime_cell]; try done.
  - destruct (read_as fmt s) as [t|].
    + unfold timestamp_cell. case_match; [|done]. by intros [= <-].
    + by destruct (guess_datetime_format s).
  - by intros [= <-].
  - by intros [= <-].
Qed.

Lemma to_datetime_cell_isna c v :
  to_datetime_cell c = Ok v -> isna v = isna c.
Proof.
  destruct c as [s| t | | | |]; cbn [to_datetime_cell]; try done.
  - destruct (guess_datetime_format s) as [fmt|]; [|done].
    apply strptime_cell_isna.
  - by intros [= <-].
  - by intros [= <-].
Qed.

Lemma traverse_isna (f : Cell -> result Cell) values parsed :
  (forall c v, f c = Ok v -> isna v = isna c) ->
  traverse f values = Ok parsed -> isna <$> parsed = isna <$> values.
Proof.
  intros Hf. revert parsed.
  induction values as [|c values IH]; intros parsed; cbn [traverse].
  - by intros [= <-].
  - destruct (f c) as [v|] eqn:Hc; cbn [mbind result_bind]; [|done].
    destruct (traverse f values) as [vs|]; cbn [mbind result_bind]; [|done].
    intros [= <-]. rewrite !fmap_cons, (Hf _ _ Hc). f_equal. by apply IH.
Qed.

(** [pd.to_datetime] leaves a missing value missing, and no other. *)
Lemma to_datetime_isna values parsed :
  to_datetime values = Ok parsed -> isna <$> parsed = isna <$> values.
Proof.
  unfold to_datetime.
  destruct (first_non_null values) as [[s| | | | |]|];
    try (apply traverse_isna, to_datetime_cell_isna).
  destruct (guess_datetime_format s) as [fmt|]; [|done].
  apply traverse_isna, strptime_cell_isna.
Qed.

Lemma truncate_cell_isna p c : valid_cell c -> isna (truncate_cell p c) = isna c.
Proof. by destruct c. Qed.

(** X22.  A missing date stays missing.  On a column [pd.to_datetime] reads,
    missing values among its timestamps, [date_format] with the format of a
    precision returns: the values that were missing are [NaT] and no other
    is, and every timestamp is cut to the precision. *)
Theorem date_format_keeps_missing (df : DataFrame) (col : string)
    (p : Precision) (parsed : list Cell) :
  col ∈ columns df ->
  well_formed df ->
  to_datetime (row_get (columns df) col <$> rows df) = Ok parsed ->
  Forall valid_cell parsed ->
  date_format df col (format_of p)
  = Ok (set_column_values df col (truncate_cell p <$> parsed))
  /\ isna <$> (truncate_cell p <$> parsed)
     = isna <$> (row_get (columns df) col <$> rows df)
  /\ Forall2 (fun c v => forall t, c = Time t -> v = Time (truncate p t))
             parsed (truncate_cell p <$> parsed).
Proof.
  intros Hcol Hwf Hread Hvalid.
  split; [by apply date_format_precision|]. split.
  - rewrite <- (to_datetime_isna _ _ Hread), <- !list_fmap_compose.
    apply Forall_fmap_ext. eapply Forall_impl; [exact Hvalid|].
    intros c Hc. by apply truncate_cell_isna.
  - apply Forall2_fmap_r, Forall_Forall2_diag, Forall_true.
    by intros c t ->.
Qed.

Lemma date_format_keeps_missing_witness :
  date_format dates_with_missing "date" "%Y-%m-%d"
  = Ok (mkDataFrame ["animal_id"; "date"]
          [ [Str "a"; Time (mkTimestamp 2013 10 11 0 0 0 0)];
            [Str "b"; NaT];
            [Str "c"; Time (mkTimestamp 2014 4 2 0 0 0 0)] ]).
Proof.
  apply (date_format_keeps_missing dates_with_missing "date" Day
           [Time (mkTimestamp 2013 10 11 11 29 35 0); NaT;
            Time (mkTimestamp 2014 4 2 15 55 0 0)]).
  - right. left.
  - by repeat constructor.
  - reflexivity.
  - repeat constructor; by vm_compute.
Defined.




(** ** [calculate_time_delta] *)

(** ** [calculate_time_delta]: the table it leaves *)

Lemma traverse_bind {A B C} (f : A -> result B) (g : B -> result C)
    (l : list A) :
  (forall x y, f x = Ok y -> exists z, g y = Ok z) ->
  traverse f l ≫= traverse g = traverse (fun x => f x ≫= g) l.
Proof.
  intros Hg. induction l as [|x l IH]; [done|]. cbn [traverse].
  destruct (f x) as [y|] eqn:Hx; cbn [mbind result_bind]; [|done].
  rewrite <- IH. destruct (Hg x y Hx) as [z Hz].
  destruct (traverse f l) as [ys|]; cbn [mbind result_bind traverse];
    by rewrite Hz.
Qed.

Lemma traverse_ext {A B} (f g : A -> result B) (l : list A) :
  (forall x, f x = g x) -> traverse f l = traverse g l.
Proof.
  intros Hfg. induction l as [|x l IH]; [done|].
  cbn [traverse]. by rewrite Hfg, IH.
Qed.

Lemma days_cell_sub_cell e s d :
  sub_cell e s = Ok d -> exists z, days_cell d = Ok z.
Proof.
  destruct e, s; cbn [sub_cell]; try done; try case_match; try done;
    intros [= <-]; cbn [days_cell]; eauto.
Qed.

Lemma div_years_cell_days e s d :
  sub_cell e s ≫= days_cell = Ok d -> exists z, div_years_cell d = Ok z.
Proof.
  destruct e, s; cbn [sub_cell]; try done; try case_match;
    cbn [mbind result_bind days_cell]; try done;
    intros [= <-]; cbn [div_years_cell]; eauto.
Qed.

Lemma round1_cell_years e s q :
  (sub_cell e s ≫= days_cell) ≫= div_years_cell = Ok q ->
  exists z, round1_cell q = Ok z.
Proof.
  destruct e, s; cbn [sub_cell]; try done; try case_match;
    cbn [mbind result_bind days_cell div_years_cell]; try done;
    intros [= <-]; cbn [round1_cell]; eauto.
Qed.

Lemma time_in_days_rows (a b : list Cell) :
  forallb is_datetime a && forallb is_datetime b = true ->
  series_sub a b ≫= dt_days
  = traverse (fun p => sub_cell p.1 p.2 ≫= days_cell) (zip a b).
Proof.
  intros Htyped. unfold series_sub, dt_days. rewrite Htyped.
  apply traverse_bind. intros p d. apply days_cell_sub_cell.
Qed.

Lemma time_delta_rows_length start unit ends starts vs :
  time_delta_rows start unit ends starts = Ok vs ->
  length vs = length (zip ends starts).
Proof.
  unfold time_delta_rows. case_match; [apply traverse_length | done].
Qed.

(** The function computes its column row by row when both columns are of
    the timestamp type, and writes the table once, after every row has been
    computed. *)
Lemma calculate_time_delta_rows df start end_ unit col_suffix :
  calculate_time_delta df start end_ unit col_suffix
  = (ends ← get_column df end_;
     starts ← get_column df start;
     vs ← time_delta_rows start unit (s_values ends) (s_values starts);
     let df' := set_column_values df (column_name start unit col_suffix) vs in
     column ← get_column df' (column_name start unit col_suffix);
     Ok (column, df')).
Proof.
  unfold calculate_time_delta, column_name, time_delta_rows.
  destruct (get_column df end_) as [ends|]; cbn [mbind result_bind]; [|done].
  destruct (get_column df start) as [starts|]; cbn [mbind result_bind]; [|done].
  destruct (forallb is_datetime (s_values ends)
            && forallb is_datetime (s_values starts)) eqn:Htyped.
  2:{ unfold series_sub. rewrite Htyped. by cbn. }
  pose proof (time_in_days_rows (s_values ends) (s_values starts) Htyped)
    as Hdays.
  set (l := zip (s_values ends) (s_values starts)) in *.
  assert (Hrows : traverse (fun p => row_delta start unit p.1 p.2) l
          = if decide (start = "date_of_birth") then
              if decide (unit = "years") then
                (series_sub (s_values ends) (s_values starts) ≫= dt_days)
                  ≫= (fun days => traverse div_years_cell days
                                  ≫= traverse round1_cell)
              else series_sub (s_values ends) (s_values starts) ≫= dt_days
            else series_sub (s_values ends) (s_values starts) ≫= dt_days).
  { rewrite Hdays. unfold row_delta.
    destruct (decide (start = "date_of_birth")) as [Hs|Hs];
      [destruct (decide (unit = "years")) as [Hu|Hu]|].
    - transitivity
        (traverse (fun p => ((sub_cell p.1 p.2 ≫= days_cell)
                               ≫= div_years_cell) ≫= round1_cell) l).
      { apply traverse_ext. intros p.
        destruct (sub_cell p.1 p.2) as [d|]; cbn [mbind result_bind]; [|done].
        by destruct (days_cell d). }
      rewrite <- (traverse_bind _ round1_cell)
        by (intros p q; apply round1_cell_years).
      rewrite <- (traverse_bind _ div_years_cell)
        by (intros p q; apply div_years_cell_days).
      by destruct (traverse _ l).
    - apply traverse_ext. intros p.
      destruct (sub_cell p.1 p.2) as [d|]; cbn [mbind result_bind]; [|done].
      by destruct (days_cell d).
    - apply traverse_ext. intros p.
      destruct (sub_cell p.1 p.2) as [d|]; cbn [mbind result_bind]; [|done].
      by destruct (days_cell d). }
  rewrite Hrows. clear Hrows Hdays.
  destruct (series_sub (s_values ends) (s_values starts)) as [ds|];
    cbn [mbind result_bind]; [|by repeat case_decide].
  destruct (dt_days ds) as [ys|]; cbn [mbind result_bind];
    [|by repeat case_decide].
  destruct (decide (start = "date_of_birth")) as [Hs|Hs];
    [destruct (decide (unit = "years")) as [Hu|Hu]|]; try done.
  destruct (traverse div_years_cell ys) as [qs|];
    cbn [mbind result_bind]; [|done].
  by destruct (traverse round1_cell qs).
Qed.

Lemma columns_set_column_values_new df name vs :
  name ∉ columns df ->
  columns (set_column_values df name vs) = columns df ++ [name].
Proof. intros Hnin. unfold set_column_values. by rewrite decide_False. Qed.

Lemma set_column_values_new df name vs :
  name ∉ columns df ->
  set_column_values df name vs
  = mkDataFrame (columns df ++ [name])
      (zip_with (fun row v => row ++ [v]) (rows df) vs).
Proof. intros Hnin. unfold set_column_values. by rewrite decide_False. Qed.

Lemma kept_column_set_column_values df name vs c :
  well_formed df -> c ∈ columns df -> c ≠ name ->
  length vs = length (rows df) ->
  row_get (columns (set_column_values df name vs)) c
    <$> rows (set_column_values df name vs)
  = row_get (columns df) c <$> rows df.
Proof.
  intros Hwf Hc Hne Hlen.
  destruct (decide (name ∈ columns df)) as [Hin|Hnin].
  { by apply other_column_set_column_values. }
  unfold set_column_values. rewrite decide_False by done. cbn [columns rows].
  clear Hnin. revert vs Hlen. unfold well_formed in Hwf.
  induction Hwf as [|row rs Hrow _ IH]; intros [|v vs]; simpl; try done.
  intros [= Hlen]. rewrite IH by done. by rewrite row_get_snoc.
Qed.

Lemma written_column_set_column_values df name vs :
  well_formed df -> length vs = length (rows df) ->
  row_get (columns (set_column_values df name vs)) name
    <$> rows (set_column_values df name vs) = vs.
Proof.
  intros Hwf Hlen.
  pose proof (get_set_column_values df name vs Hwf Hlen) as Hget.
  unfold get_column in Hget. case_decide; [|done]. by injection Hget.
Qed.

Lemma set_column_values_again df name vs ws :
  well_formed df -> length vs = length (rows df) ->
  length ws = length (rows df) ->
  set_column_values (set_column_values df name vs) name ws
  = set_column_values df name ws.
Proof.
  intros Hwf Hvs Hws.
  destruct (decide (name ∈ columns df)) as [Hin|Hnin].
  { by apply set_set_column_values. }
  rewrite !(set_column_values_new df) by done.
  unfold set_column_values. rewrite decide_True by set_solver.
  cbn [columns rows].
  f_equal. revert vs ws Hvs Hws. unfold well_formed in Hwf.
  induction Hwf as [|row rs Hrow _ IH]; intros [|v vs] [|w ws]; simpl;
    try done.
  intros [= Hvs] [= Hws]. rewrite IH by done. f_equal.
  unfold row_set. rewrite index_of_app_new by done.
  rewrite <- Hrow. rewrite insert_app_r_alt by lia.
  by replace (length row - length row)%nat with 0%nat by lia.
Qed.

(** A call that returns has read both columns, computed one value for every
    row, and written them under the column's name. *)
Lemma calculate_time_delta_inv df start end_ unit col_suffix column df' :
  well_formed df ->
  calculate_time_delta df start end_ unit col_suffix = Ok (column, df') ->
  start ∈ columns df /\ end_ ∈ columns df
  /\ exists vs,
       time_delta_rows start unit (row_get (columns df) end_ <$> rows df)
                       (row_get (columns df) start <$> rows df) = Ok vs
       /\ length vs = length (rows df)
       /\ column = mkSeries (column_name start unit col_suffix) vs
       /\ df' = set_column_values df (column_name start unit col_suffix) vs.
Proof.
  intros Hwf. rewrite calculate_time_delta_rows.
  destruct (decide (end_ ∈ columns df)) as [He|He].
  2:{ rewrite (get_column_missing df end_) by done. by cbn. }
  destruct (decide (start ∈ columns df)) as [Hs|Hs].
  2:{ rewrite (get_column_ok df end_), (get_column_missing df start) by done.
      by cbn. }
  rewrite !get_column_ok by done. cbn [mbind result_bind s_values].
  destruct (time_delta_rows _ _ _ _) as [vs|] eqn:Hvs;
    cbn [mbind result_bind]; [|done].
  assert (Hlen : length vs = length (rows df)).
  { rewrite (time_delta_rows_length _ _ _ _ _ Hvs).
    apply length_zip_same; by rewrite length_fmap. }
  cbv zeta. rewrite get_set_column_values by done.
  cbn [mbind result_bind]. intros [= <- <-]. eauto 10.
Qed.

(** X13.  [calculate_time_delta] writes one column and nothing else.  A call that
    returns leaves the table with the same rows in number and, when the
    name of the new column is not yet a column, with that one column added
    after the others; every other column is cell for cell as it was; and
    the column of the name holds the values of the series returned. *)
Theorem time_delta_frame (df : DataFrame) (start end_ unit col_suffix : string)
    (column : Series) (df' : DataFrame) :
  well_formed df ->
  calculate_time_delta df start end_ unit col_suffix = Ok (column, df') ->
  let name := column_name start unit col_suffix in
  s_name column = name
  /\ columns df' = (if decide (name ∈ columns df) then columns df
                    else columns df ++ [name])
  /\ length (rows df') = length (rows df)
  /\ length (s_values column) = length (rows df)
  /\ well_formed df'
  /\ (forall c, c ∈ columns df -> c ≠ name ->
        row_get (columns df') c <$> rows df' = row_get (columns df) c <$> rows df)
  /\ row_get (columns df') name <$> rows df' = s_values column.
Proof.
  intros Hwf Hrun name.
  destruct (calculate_time_delta_inv _ _ _ _ _ _ _ Hwf Hrun)
    as (_ & _ & vs & _ & Hlen & -> & ->).
  fold name. cbn [s_name s_values].
  split; [done|]. split.
  { case_decide; [by apply columns_set_column_values
                 |by apply columns_set_column_values_new]. }
  split; [by apply length_set_column_values|]. split; [done|].
  split; [by apply well_formed_set_column_values|].
  split; [intros c Hc Hne; by apply kept_column_set_column_values|].
  by apply written_column_set_column_values.
Qed.

Lemma time_delta_frame_witness :
  exists column df',
    calculate_time_delta stays "came" "left" "days" "" = Ok (column, df')
    /\ columns df'
       = ["animal_id"; "date_of_birth"; "came"; "left"; "duration(days)"]
    /\ row_get (columns df') "animal_id" <$> rows df' = [Str "a"; Str "b"]
    /\ row_get (columns df') "duration(days)" <$> rows df' = s_values column.
Proof.
  eexists _, _. split; [vm_compute; reflexivity|].
  edestruct (time_delta_frame stays "came" "left" "days" "")
    as (_ & Hcols & _ & _ & _ & Hkept & Hnew).
  - by repeat constructor.
  - vm_compute. reflexivity.
  - split; [exact Hcols|]. split; [|exact Hnew].
    rewrite (Hkept "animal_id"); [reflexivity|left|discriminate].
Defined.

Lemma in_columns_set_column_values df name vs c :
  c ∈ columns df -> c ∈ columns (set_column_values df name vs).
Proof.
  intros Hc. unfold set_column_values. case_decide; cbn [columns]; set_solver.
Qed.

(** X14.  A second call on the table the first call left computes the same column
    and leaves the table as it is, provided the new column does not take the
    name of the start or of the end column. *)
Theorem time_delta_twice (df : DataFrame) (start end_ unit col_suffix : string)
    (column : Series) (df' : DataFrame) :
  well_formed df ->
  column_name start unit col_suffix ≠ start ->
  column_name start unit col_suffix ≠ end_ ->
  calculate_time_delta df start end_ unit col_suffix = Ok (column, df') ->
  calculate_time_delta df' start end_ unit col_suffix = Ok (column, df').
Proof.
  intros Hwf Hns Hne Hrun.
  destruct (calculate_time_delta_inv _ _ _ _ _ _ _ Hwf Hrun)
    as (Hs & He & vs & Hvs & Hlen & -> & ->).
  set (name := column_name start unit col_suffix) in *.
  rewrite calculate_time_delta_rows. fold name.
  rewrite !get_column_ok by by apply in_columns_set_column_values.
  cbn [mbind result_bind s_values].
  rewrite !(kept_column_set_column_values df) by done.
  rewrite Hvs. cbn [mbind result_bind]. cbv zeta.
  rewrite set_column_values_again by done.
  rewrite get_set_column_values by done. done.
Qed.

Lemma time_delta_twice_witness :
  exists column df',
    calculate_time_delta stays "came" "left" "days" "" = Ok (column, df')
    /\ calculate_time_delta df' "came" "left" "days" "" = Ok (column, df').
Proof.
  eexists _, _. split; [vm_compute; reflexivity|].
  apply (time_delta_twice stays).
  - by repeat constructor.
  - discriminate.
  - discriminate.
  - vm_compute. reflexivity.
Defined.

(** ** [calculate_time_delta]: missing dates and texts *)

Lemma forallb_is_datetime cells :
  Forall (fun c => is_datetime c = true) cells ->
  forallb is_datetime cells = true.
Proof. induction 1 as [|c cells Hc _ IH]; [done|]. simpl. by rewrite Hc, IH. Qed.

Lemma row_delta_datetime start unit e s :
  is_datetime e = true -> is_datetime s = true ->
  (forall te ts, e = Time te -> s = Time ts ->
     fits_int64 (to_ns te - to_ns ts) = true) ->
  exists v,
    row_delta start unit e s = Ok v
    /\ isna v = isna e || isna s
    /\ forall te ts, e = Time te -> s = Time ts ->
         number v = Some (row_number start unit (whole_days te ts)).
Proof.
  intros He Hs Hfit. unfold row_delta, row_number.
  destruct e as [| te | | | |], s as [| ts | | | |]; try discriminate;
    cbn [sub_cell]; rewrite ?(Hfit _ _ eq_refl eq_refl);
    cbn [mbind result_bind days_cell];
    repeat case_decide;
    cbn [div_years_cell mbind result_bind round1_cell];
    eexists; (split; [reflexivity|]); (split; [reflexivity|]);
    intros te' ts'; try discriminate; by intros [= <-] [= <-].
Qed.

Lemma traverse_Forall2 {A B} (f : A -> result B) (R : B -> A -> Prop)
    (l : list A) :
  Forall (fun x => exists y, f x = Ok y /\ R y x) l ->
  exists k, traverse f l = Ok k /\ Forall2 R k l.
Proof.
  induction 1 as [|x l (y & Hy & Hxy) _ (k & Hk & IH)].
  - exists []. by split.
  - exists (y :: k). cbn [traverse]. rewrite Hy, Hk. split; [done|].
    by constructor.
Qed.

Lemma Forall_zip {A B} (P : A -> Prop) (Q : B -> Prop) (a : list A)
    (b : list B) :
  Forall P a -> Forall Q b -> Forall (fun p => P p.1 /\ Q p.2) (zip a b).
Proof.
  intros Ha. revert b. induction Ha as [|x a Hx _ IH]; intros b Hb; [done|].
  destruct Hb as [|y b Hy Hb]; [done|]. simpl. constructor; [done|].
  by apply IH.
Qed.

(** X15.  On two columns of valid timestamps, rows with a missing start or end
    among them, whose differences fit the 64-bit count of nanoseconds,
    [calculate_time_delta] does not fail: the row of a missing date gets a
    missing value, and no other row does; a row with both dates gets the
    whole days between them - on the path of the age in years, those days
    over 365.25 rounded to one decimal, and on the path of the age in any
    other unit the days all the same. *)
Theorem time_delta_values (df : DataFrame) (start end_ unit col_suffix : string) :
  well_formed df ->
  start ∈ columns df ->
  end_ ∈ columns df ->
  Forall valid_cell (row_get (columns df) start <$> rows df) ->
  Forall valid_cell (row_get (columns df) end_ <$> rows df) ->
  Forall (fun p => forall te ts, p.1 = Time te -> p.2 = Time ts ->
                     fits_int64 (to_ns te - to_ns ts) = true)
         (zip (row_get (columns df) end_ <$> rows df)
              (row_get (columns df) start <$> rows df)) ->
  exists vs df',
    calculate_time_delta df start end_ unit col_suffix
    = Ok (mkSeries (column_name start unit col_suffix) vs, df')
    /\ Forall2 (fun v p =>
                  isna v = isna p.1 || isna p.2
                  /\ forall te ts, p.1 = Time te -> p.2 = Time ts ->
                       number v
                       = Some (row_number start unit (whole_days te ts)))
         vs (zip (row_get (columns df) end_ <$> rows df)
                 (row_get (columns df) start <$> rows df)).
Proof.
  intros Hwf Hs He Hstarts Hends Hfit.
  assert (Hts : Forall (fun c => is_datetime c = true)
                       (row_get (columns df) start <$> rows df)).
  { eapply Forall_impl; [exact Hstarts|]. apply valid_cell_datetime. }
  assert (Hte : Forall (fun c => is_datetime c = true)
                       (row_get (columns df) end_ <$> rows df)).
  { eapply Forall_impl; [exact Hends|]. apply valid_cell_datetime. }
  rewrite calculate_time_delta_rows.
  rewrite !get_column_ok by done. cbn [mbind result_bind s_values].
  unfold time_delta_rows. rewrite !forallb_is_datetime by done. cbn [andb].
  edestruct (traverse_Forall2 (fun p => row_delta start unit p.1 p.2)
    (fun v p =>
       isna v = isna p.1 || isna p.2
       /\ forall te ts, p.1 = Time te -> p.2 = Time ts ->
            number v = Some (row_number start unit (whole_days te ts))))
    as (vs & Hvs & Hrel).
  { pose proof (Forall_zip _ _ _ _ Hte Hts) as Htyped.
    apply Forall_forall. intros [e s] Hin. cbn [fst snd].
    destruct (proj1 (Forall_forall _ _) Htyped _ Hin) as [Hpe Hps].
    pose proof (proj1 (Forall_forall _ _) Hfit _ Hin) as Hp.
    cbn [fst snd] in *.
    exact (row_delta_datetime start unit e s Hpe Hps Hp). }
  rewrite Hvs. cbn [mbind result_bind]. cbv zeta.
  assert (Hlen : length vs = length (rows df)).
  { rewrite (traverse_length _ _ _ Hvs).
    apply length_zip_same; by rewrite length_fmap. }
  rewrite get_set_column_values by done. cbn [mbind result_bind].
  eexists _, _. split; [reflexivity|]. exact Hrel.
Qed.

Lemma time_delta_values_witness :
  exists vs df',
    calculate_time_delta stays "came" "left" "days" ""
    = Ok (mkSeries "duration(days)" vs, df')
    /\ isna <$> vs = [false; true]
    /\ number <$> vs !! 0%nat = Some (Some (inject_Z (-1))).
Proof.
  destruct (time_delta_values stays "came" "left" "days" "")
    as (vs & df' & Hrun & Hvs).
  - by repeat constructor.
  - right; right; left.
  - right; right; right; left.
  - repeat constructor; by vm_compute.
  - repeat constructor; by vm_compute.
  - constructor; [by intros te ts [= <-] [= <-]|].
    constructor; [by intros te ts ? [=]|constructor].
  - exists vs, df'. split; [exact Hrun|].
    cbn in Hvs.
    apply Forall2_cons_inv_r in Hvs as (v1 & vs1 & [Hna1 Hnum1] & Hvs & ->).
    apply Forall2_cons_inv_r in Hvs as (v2 & vs2 & [Hna2 _] & Hvs & ->).
    apply Forall2_nil_inv_r in Hvs as ->.
    cbn [fmap list_fmap]. rewrite Hna1, Hna2. split; [reflexivity|].
    cbn [lookup list_lookup fmap option_fmap option_map].
    by rewrite (Hnum1 _ _ eq_refl eq_refl).
Defined.

Lemma forallb_is_datetime_false cells :
  Exists (fun c => is_str c = true) cells -> forallb is_datetime cells = false.
Proof.
  induction 1 as [c cells Hc|c cells _ IH]; simpl.
  - by destruct c.
  - rewrite IH. apply andb_false_r.
Qed.

Lemma existsb_is_str cells :
  Exists (fun c => is_str c = true) cells -> existsb is_str cells = true.
Proof.
  induction 1 as [c cells Hc|c cells _ IH]; simpl.
  - by rewrite Hc.
  - rewrite IH. apply orb_true_r.
Qed.

Lemma Exists_zip_or {A B} (P : A -> Prop) (Q : B -> Prop) (a : list A)
    (b : list B) :
  Exists (fun p => P p.1 \/ Q p.2) (zip a b) -> Exists P a \/ Exists Q b.
Proof.
  revert b. induction a as [|x a IH]; intros [|y b]; simpl;
    try by intros ?%Exists_nil.
  intros [[Hx|Hy]|Hrest]%Exists_cons.
  - left. by left.
  - right. by left.
  - destruct (IH b Hrest); [left | right]; by right.
Qed.

(** X16.  Without one of the two columns the call raises [KeyError]; on columns
    that still hold a text in some row - dates as they are loaded, not yet
    converted - it raises [TypeError].  No column is computed in part. *)
Theorem time_delta_raises (df : DataFrame) (start end_ unit col_suffix : string) :
  (start ∉ columns df \/ end_ ∉ columns df ->
   calculate_time_delta df start end_ unit col_suffix = Raise KeyError)
  /\ (start ∈ columns df -> end_ ∈ columns df ->
      Exists (fun p => is_str p.1 || is_str p.2 = true)
             (zip (row_get (columns df) end_ <$> rows df)
                  (row_get (columns df) start <$> rows df)) ->
      calculate_time_delta df start end_ unit col_suffix = Raise TypeError).
Proof.
  split.
  - intros Hmiss. rewrite calculate_time_delta_rows.
    destruct (decide (end_ ∈ columns df)) as [He|He].
    + destruct Hmiss as [Hs|]; [|done].
      by rewrite (get_column_ok df end_), (get_column_missing df start).
    + by rewrite (get_column_missing df end_).
  - intros Hs He Htext. rewrite calculate_time_delta_rows.
    rewrite !get_column_ok by done. cbn [mbind result_bind s_values].
    unfold time_delta_rows.
    destruct (Exists_zip_or (fun c => is_str c = true)
                (fun c => is_str c = true)
                (row_get (columns df) end_ <$> rows df)
                (row_get (columns df) start <$> rows df)) as [Hin|Hin].
    { eapply Exists_impl; [exact Htext|]. intros [e s] Hp. cbn [fst snd] in *.
      by apply orb_true_iff in Hp. }
    + rewrite (forallb_is_datetime_false _ Hin). cbn [andb].
      unfold sub_error. by rewrite (existsb_is_str _ Hin).
    + rewrite (forallb_is_datetime_false _ Hin), andb_false_r.
      unfold sub_error. by rewrite (existsb_is_str _ Hin), orb_true_r.
Qed.

Lemma time_delta_raises_witness :
  calculate_time_delta loaded_dates "date" "day" "days" "" = Raise KeyError
  /\ calculate_time_delta loaded_dates "date" "date" "days" "" = Raise TypeError.
Proof.
  split.
  - apply time_delta_raises. right.
    intros Hin. repeat (apply elem_of_cons in Hin as [Hin|Hin]; [done|]).
    by apply elem_of_nil in Hin.
  - apply time_delta_raises.
    + right; left.
    + right; left.
    + by left.
Defined.

(** ** [calculate_time_delta]: columns of timestamps *)

Lemma row_delta_times start unit e s :
  fits_int64 (to_ns e - to_ns s) = true ->
  row_delta start unit (Time e) (Time s)
  = Ok (row_cell start unit (whole_days e s)).
Proof.
  intros Hfit. unfold row_delta, row_cell. cbn [sub_cell]. rewrite Hfit.
  cbn [mbind result_bind days_cell]. by repeat case_decide.
Qed.

Lemma calculate_time_delta_times df start end_ unit col_suffix starts ends :
  well_formed df -> start ∈ columns df -> end_ ∈ columns df ->
  row_get (columns df) start <$> rows df = Time <$> starts ->
  row_get (columns df) end_ <$> rows df = Time <$> ends ->
  Forall (fun p => fits_int64 (to_ns p.1 - to_ns p.2) = true)
         (zip ends starts) ->
  let vs := (fun p => row_cell start unit (whole_days p.1 p.2))
              <$> zip ends starts in
  calculate_time_delta df start end_ unit col_suffix
  = Ok (mkSeries (column_name start unit col_suffix) vs,
        set_column_values df (column_name start unit col_suffix) vs).
Proof.
  intros Hwf Hs He Hstarts Hends Hfit vs.
  assert (Hls : length starts = length (rows df)).
  { apply (f_equal length) in Hstarts. by rewrite !length_fmap in Hstarts. }
  assert (Hle : length ends = length (rows df)).
  { apply (f_equal length) in Hends. by rewrite !length_fmap in Hends. }
  rewrite calculate_time_delta_rows.
  rewrite !get_column_ok by done. cbn [mbind result_bind s_values].
  rewrite Hstarts, Hends. unfold time_delta_rows.
  rewrite !forallb_is_datetime_Time. cbn [andb]. rewrite zip_fmap_Time.
  rewrite (traverse_fmap_Forall _ _
             (fun p => row_cell start unit (whole_days p.1 p.2))).
  2:{ eapply Forall_impl; [exact Hfit|]. intros p Hp.
      by apply row_delta_times. }
  cbn [mbind result_bind]. cbv zeta. fold vs.
  rewrite get_set_column_values;
    [done|done|unfold vs; rewrite length_fmap; by apply length_zip_same].
Qed.

Lemma lookup_fmap_zip {A B C} (f : A * B -> C) (a : list A) (b : list B)
    (i : nat) (x : A) (y : B) :
  a !! i = Some x -> b !! i = Some y -> (f <$> zip a b) !! i = Some (f (x, y)).
Proof.
  intros Hx Hy. rewrite list_lookup_fmap.
  by rewrite (proj2 (lookup_zip_with_Some pair a b i (x, y)))
    by (exists x, y; eauto).
Qed.

Lemma fits_lookup {A B} (P : A * B -> Prop) (a : list A) (b : list B) i x y :
  Forall P (zip a b) -> a !! i = Some x -> b !! i = Some y -> P (x, y).
Proof.
  intros Hall Hx Hy. apply (proj1 (Forall_lookup _ _) Hall i).
  apply lookup_zip_with_Some. exists x, y. eauto.
Qed.

Lemma number_row_cell start unit d :
  number (row_cell start unit d) = Some (row_number start unit d).
Proof. unfold row_cell, row_number. by repeat case_decide. Qed.

(** ** [calculate_time_delta]: the arithmetic of days *)

Lemma whole_days_mono s e1 e2 :
  to_ns e1 <= to_ns e2 -> whole_days e1 s <= whole_days e2 s.
Proof.
  intros Hle. unfold whole_days. apply Z.div_le_mono; [done|lia].
Qed.

Lemma round1_years_mono d1 d2 :
  d1 <= d2 ->
  (round1 (inject_Z d1 / days_per_year)
   <= round1 (inject_Z d2 / days_per_year))%Q.
Proof.
  intros Hle.
  destruct (round1_years d1) as (k1 & -> & H1).
  destruct (round1_years d2) as (k2 & -> & H2).
  unfold Qle. cbn [Qnum Qden]. lia.
Qed.

Lemma row_number_mono start unit d1 d2 :
  d1 <= d2 -> (row_number start unit d1 <= row_number start unit d2)%Q.
Proof.
  intros Hle. unfold row_number.
  repeat case_decide; try (by rewrite <- Zle_Qle).
  by apply round1_years_mono.
Qed.

(** X17.  A later end never gives a smaller value.  When a table has two end
    columns, the second never before the first, the column
    [calculate_time_delta] computes from the second is row by row at least
    the column it computes from the first, on every path: neither the
    rounding down to whole days nor the rounding of the age in years to one
    decimal inverts the order. *)
Theorem later_end_not_less (df : DataFrame)
    (start end1 end2 unit col_suffix : string)
    (starts ends1 ends2 : list Timestamp) :
  well_formed df ->
  start ∈ columns df -> end1 ∈ columns df -> end2 ∈ columns df ->
  row_get (columns df) start <$> rows df = Time <$> starts ->
  row_get (columns df) end1 <$> rows df = Time <$> ends1 ->
  row_get (columns df) end2 <$> rows df = Time <$> ends2 ->
  Forall (fun p => fits_int64 (to_ns p.1 - to_ns p.2) = true)
         (zip ends1 starts) ->
  Forall (fun p => fits_int64 (to_ns p.1 - to_ns p.2) = true)
         (zip ends2 starts) ->
  Forall2 (fun e1 e2 => to_ns e1 <= to_ns e2) ends1 ends2 ->
  exists column1 df1 column2 df2,
    calculate_time_delta df start end1 unit col_suffix = Ok (column1, df1)
    /\ calculate_time_delta df start end2 unit col_suffix = Ok (column2, df2)
    /\ forall i e1 e2,
         ends1 !! i = Some e1 -> ends2 !! i = Some e2 ->
         exists q1 q2,
           number <$> s_values column1 !! i = Some (Some q1)
           /\ number <$> s_values column2 !! i = Some (Some q2)
           /\ (q1 <= q2)%Q.
Proof.
  intros Hwf Hs He1 He2 Hstarts Hends1 Hends2 Hfit1 Hfit2 Hle.
  eexists _, _, _, _.
  split; [by apply (calculate_time_delta_times df start end1)|].
  split; [by apply (calculate_time_delta_times df start end2)|].
  cbn [s_values]. intros i e1 e2 Hi1 Hi2.
  assert (Hlen : length starts = length ends1).
  { apply (f_equal length) in Hstarts, Hends1.
    rewrite !length_fmap in Hstarts, Hends1. congruence. }
  destruct (lookup_lt_is_Some_2 starts i) as [s Hsi].
  { rewrite Hlen. by eapply lookup_lt_Some. }
  exists (row_number start unit (whole_days e1 s)),
         (row_number start unit (whole_days e2 s)).
  rewrite !(lookup_fmap_zip _ _ _ i _ s) by done.
  cbn [fmap option_fmap option_map]. rewrite !number_row_cell.
  split; [done|]. split; [done|].
  apply row_number_mono, whole_days_mono.
  by apply (Forall2_lookup_lr _ _ _ _ _ _ Hle Hi1 Hi2).
Qed.

Lemma later_end_not_less_witness :
  exists column1 df1 column2 df2,
    calculate_time_delta year_ends "came" "left" "weeks" "" = Ok (column1, df1)
    /\ calculate_time_delta year_ends "came" "day_after" "weeks" ""
       = Ok (column2, df2)
    /\ s_name column1 = "duration(weeks)"
    /\ s_values column1 = [Int 1; Int 5; Int 10]
    /\ s_values column2 = [Int 2; Int 6; Int 11].
Proof.
  destruct (later_end_not_less year_ends "came" "left" "day_after" "weeks" ""
              [mkTimestamp 2015 12 30 9 0 0 0; mkTimestamp 2016 2 23 9 0 0 0;
               mkTimestamp 2015 2 18 9 0 0 0]
              [mkTimestamp 2015 12 31 9 0 0 0; mkTimestamp 2016 2 28 9 0 0 0;
               mkTimestamp 2015 2 28 9 0 0 0]
              [mkTimestamp 2016 1 1 9 0 0 0; mkTimestamp 2016 2 29 9 0 0 0;
               mkTimestamp 2015 3 1 9 0 0 0])
    as (c1 & df1 & c2 & df2 & H1 & H2 & _).
  - by repeat constructor.
  - left.
  - right; left.
  - right; right; left.
  - reflexivity.
  - reflexivity.
  - reflexivity.
  - by repeat constructor.
  - by repeat constructor.
  - repeat constructor; by vm_compute.
  - exists c1, df1, c2, df2. split; [exact H1|]. split; [exact H2|].
    vm_compute in H1, H2. injection H1 as <- _. injection H2 as <- _.
    by repeat split.
Defined.

Lemma fits_int64_opp n : fits_int64 (- n) = fits_int64 n.
Proof.
  unfold fits_int64.
  destruct (Z.ltb_spec (- 2 ^ 63) n), (Z.ltb_spec n (2 ^ 63)),
           (Z.ltb_spec (- 2 ^ 63) (- n)), (Z.ltb_spec (- n) (2 ^ 63));
    simpl; try done; lia.
Qed.

Lemma whole_days_reversed e s :
  (whole_days e s < 0 <-> to_ns e < to_ns s)
  /\ whole_days s e
     = if decide ((to_ns e - to_ns s) mod ns_per_day = 0)
       then - whole_days e s
       else - whole_days e s - 1.
Proof.
  unfold whole_days, ns_per_day. split.
  - split; intros H; Z.to_euclidean_division_equations; lia.
  - case_decide as Hmod; revert Hmod; Z.to_euclidean_division_equations; lia.
Qed.

(** X18.  The days are rounded down, not towards zero.  On the path of the
    durations, the count [calculate_time_delta] stores is negative as soon
    as the end is before the start, by however little; and the count of the
    call with start and end exchanged is the opposite of the count only
    when the two are whole days apart - otherwise it is one day less. *)
Theorem days_of_reversed (df : DataFrame) (a b unit col_suffix : string)
    (as_ bs : list Timestamp) :
  well_formed df ->
  a ≠ "date_of_birth" -> b ≠ "date_of_birth" ->
  a ∈ columns df -> b ∈ columns df ->
  row_get (columns df) a <$> rows df = Time <$> as_ ->
  row_get (columns df) b <$> rows df = Time <$> bs ->
  Forall (fun p => fits_int64 (to_ns p.1 - to_ns p.2) = true) (zip bs as_) ->
  exists forward df1 backward df2,
    calculate_time_delta df a b unit col_suffix = Ok (forward, df1)
    /\ calculate_time_delta df b a unit col_suffix = Ok (backward, df2)
    /\ forall i s e,
         as_ !! i = Some s -> bs !! i = Some e ->
         exists d d',
           s_values forward !! i = Some (Int d)
           /\ s_values backward !! i = Some (Int d')
           /\ (d < 0 <-> to_ns e < to_ns s)
           /\ d' = if decide ((to_ns e - to_ns s) mod ns_per_day = 0)
                   then - d else - d - 1.
Proof.
  intros Hwf Ha Hb Hina Hinb Has Hbs Hfit.
  assert (Hfit' : Forall (fun p => fits_int64 (to_ns p.1 - to_ns p.2) = true)
                         (zip as_ bs)).
  { apply Forall_lookup. intros i [s e] Hi.
    apply lookup_zip_with_Some in Hi as (s' & e' & [= <- <-] & Hs & He).
    pose proof (fits_lookup _ _ _ _ _ _ Hfit He Hs) as Hp. cbn [fst snd] in *.
    rewrite <- Hp, <- fits_int64_opp. f_equal. lia. }
  eexists _, _, _, _.
  split; [by apply (calculate_time_delta_times df a b)|].
  split; [by apply (calculate_time_delta_times df b a)|].
  cbn [s_values]. intros i s e Hs He.
  exists (whole_days e s), (whole_days s e).
  rewrite (lookup_fmap_zip _ _ _ i e s) by done.
  rewrite (lookup_fmap_zip _ _ _ i s e) by done.
  unfold row_cell. rewrite !decide_False by done. cbn [fst snd].
  split; [done|]. split; [done|]. apply whole_days_reversed.
Qed.

Lemma days_of_reversed_witness :
  exists forward df1 backward df2,
    calculate_time_delta stays_ended "came" "left" "days" "" = Ok (forward, df1)
    /\ calculate_time_delta stays_ended "left" "came" "days" ""
       = Ok (backward, df2)
    /\ s_values forward = [Int (-1); Int 4]
    /\ s_values backward = [Int 0; Int (-4)].
Proof.
  destruct (days_of_reversed stays_ended "came" "left" "days" ""
              [mkTimestamp 2015 4 27 14 45 0 0; mkTimestamp 2016 2 28 9 0 0 0]
              [mkTimestamp 2015 4 27 13 45 0 0; mkTimestamp 2016 3 3 9 0 0 0])
    as (f & df1 & b & df2 & Hf & Hb & _).
  - by repeat constructor.
  - discriminate.
  - discriminate.
  - right; left.
  - right; right; left.
  - reflexivity.
  - reflexivity.
  - by repeat constructor.
  - exists f, df1, b, df2. split; [exact Hf|]. split; [exact Hb|].
    vm_compute in Hf, Hb. injection Hf as <- _. injection Hb as <- _.
    by split.
Defined.

Ltac calendar_constants :=
  repeat match goal with
         | |- context [Z.pos ?a + Z.pos ?b] =>
             let r := eval vm_compute in (Z.pos a + Z.pos b) in
             change (Z.pos a + Z.pos b) with r
         | |- context [Z.pos ?a - Z.pos ?b] =>
             let r := eval vm_compute in (Z.pos a - Z.pos b) in
             change (Z.pos a - Z.pos b) with r
         | |- context [Z.pos ?a * Z.pos ?b] =>
             let r := eval vm_compute in (Z.pos a * Z.pos b) in
             change (Z.pos a * Z.pos b) with r
         | |- context [Z.pos ?a / Z.pos ?b] =>
             let r := eval vm_compute in (Z.pos a / Z.pos b) in
             change (Z.pos a / Z.pos b) with r
         | |- context [Z.pos ?a <=? Z.pos ?b] =>
             let r := eval vm_compute in (Z.pos a <=? Z.pos b) in
             change (Z.pos a <=? Z.pos b) with r
         | |- context [Z.pos ?a >? Z.pos ?b] =>
             let r := eval vm_compute in (Z.pos a >? Z.pos b) in
             change (Z.pos a >? Z.pos b) with r
         | |- context [Z.pos ?a <? Z.pos ?b] =>
             let r := eval vm_compute in (Z.pos a <? Z.pos b) in
             change (Z.pos a <? Z.pos b) with r
         | |- context [Z.pos ?a =? Z.pos ?b] =>
             let r := eval vm_compute in (Z.pos a =? Z.pos b) in
             change (Z.pos a =? Z.pos b) with r
         end;
  cbv iota.

Lemma days_from_civil_next y m d :
  days_from_civil y m (d + 1) = days_from_civil y m d + 1.
Proof. unfold days_from_civil. lia. Qed.

Lemma days_from_civil_month_end y m :
  1 <= m < 12 ->
  days_from_civil y (m + 1) 1 = days_from_civil y m (days_in_month y m) + 1.
Proof.
  intros Hm.
  assert (Hcases : m = 1 \/ m = 2 \/ m = 3 \/ m = 4 \/ m = 5 \/ m = 6 \/ m = 7
                   \/ m = 8 \/ m = 9 \/ m = 10 \/ m = 11) by lia.
  unfold days_in_month, is_leap, days_from_civil.
  repeat (destruct Hcases as [->|Hcases]); try subst m;
    calendar_constants; cbn [orb andb negb]; calendar_constants; try lia.
  all: repeat match goal with
         | |- context [?a =? ?b] => destruct (Z.eqb_spec a b)
         end;
    cbn [orb andb negb]; Z.to_euclidean_division_equations; lia.
Qed.

Lemma days_from_civil_year_end y :
  days_from_civil (y + 1) 1 1 = days_from_civil y 12 31 + 1.
Proof.
  unfold days_from_civil. calendar_constants.
  replace (y + 1 - 1) with y by lia.
  Z.to_euclidean_division_equations; lia.
Qed.

Lemma civil_days_next_day t :
  valid_timestamp t -> civil_days (next_day t) = civil_days t + 1.
Proof.
  intros (Hy & Hm & Hd & _). unfold civil_days, next_day.
  destruct (Z.ltb_spec (day t) (days_in_month (year t) (month t))) as [Hlt|Hge].
  { cbn [year month day]. apply days_from_civil_next. }
  assert (Hend : day t = days_in_month (year t) (month t)) by lia.
  destruct (Z.ltb_spec (month t) 12) as [Hlt|Hdec]; cbn [year month day].
  - rewrite Hend. apply days_from_civil_month_end. lia.
  - assert (Hmonth : month t = 12) by lia. rewrite Hmonth in *.
    rewrite Hend. apply days_from_civil_year_end.
Qed.

Lemma to_ns_next_day t :
  valid_timestamp t -> to_ns (next_day t) = to_ns t + ns_per_day.
Proof.
  intros Hvalid. pose proof (civil_days_next_day t Hvalid) as Hnext.
  unfold to_ns. fold (civil_days t) (civil_days (next_day t)).
  rewrite Hnext. unfold next_day.
  repeat case_match; cbn [hour minute second nanosecond]; lia.
Qed.

Lemma whole_days_next_day t s :
  valid_timestamp t -> whole_days (next_day t) s = whole_days t s + 1.
Proof.
  intros Hvalid. unfold whole_days. rewrite to_ns_next_day by done.
  replace (to_ns t + ns_per_day - to_ns s)
    with (to_ns t - to_ns s + 1 * ns_per_day) by lia.
  by rewrite Z.div_add.
Qed.

(** X19.  The count of days agrees with the calendar.  When a column holds,
    row by row, the same time of day as the end column on the next day of
    the calendar - across the end of a month, of February in leap years and
    others, and of the year - the days [calculate_time_delta] counts to it
    are one more than the days it counts to the end column. *)
Theorem next_day_one_more (df : DataFrame)
    (start end_ next unit col_suffix : string) (starts ends : list Timestamp) :
  well_formed df ->
  start ≠ "date_of_birth" ->
  start ∈ columns df -> end_ ∈ columns df -> next ∈ columns df ->
  row_get (columns df) start <$> rows df = Time <$> starts ->
  row_get (columns df) end_ <$> rows df = Time <$> ends ->
  row_get (columns df) next <$> rows df = Time <$> (next_day <$> ends) ->
  Forall valid_timestamp ends ->
  Forall (fun p => fits_int64 (to_ns p.1 - to_ns p.2) = true)
         (zip ends starts) ->
  Forall (fun p => fits_int64 (to_ns p.1 - to_ns p.2) = true)
         (zip (next_day <$> ends) starts) ->
  exists to_end df1 to_next df2,
    calculate_time_delta df start end_ unit col_suffix = Ok (to_end, df1)
    /\ calculate_time_delta df start next unit col_suffix = Ok (to_next, df2)
    /\ forall i e, ends !! i = Some e ->
         exists d,
           s_values to_end !! i = Some (Int d)
           /\ s_values to_next !! i = Some (Int (d + 1)).
Proof.
  intros Hwf Hne Hs He Hn Hstarts Hends Hnext Hvalid Hfit Hfit'.
  eexists _, _, _, _.
  split; [by apply (calculate_time_delta_times df start end_)|].
  split; [by apply (calculate_time_delta_times df start next)|].
  cbn [s_values]. intros i e Hi.
  assert (Hlen : length starts = length ends).
  { apply (f_equal length) in Hstarts, Hends.
    rewrite !length_fmap in Hstarts, Hends. congruence. }
  destruct (lookup_lt_is_Some_2 starts i) as [s Hsi].
  { rewrite Hlen. by eapply lookup_lt_Some. }
  exists (whole_days e s).
  rewrite (lookup_fmap_zip _ _ _ i e s) by done.
  rewrite (lookup_fmap_zip _ _ _ i (next_day e) s)
    by (by rewrite ?list_lookup_fmap, ?Hi).
  unfold row_cell. rewrite !decide_False by done. cbn [fst snd].
  split; [done|]. rewrite whole_days_next_day; [done|].
  by apply (proj1 (Forall_lookup _ _) Hvalid i).
Qed.

Lemma next_day_one_more_witness :
  exists to_end df1 to_next df2,
    calculate_time_delta year_ends "came" "left" "days" "" = Ok (to_end, df1)
    /\ calculate_time_delta year_ends "came" "day_after" "days" ""
       = Ok (to_next, df2)
    /\ s_values to_end = [Int 1; Int 5; Int 10]
    /\ s_values to_next = [Int 2; Int 6; Int 11].
Proof.
  destruct (next_day_one_more year_ends "came" "left" "day_after" "days" ""
              [mkTimestamp 2015 12 30 9 0 0 0; mkTimestamp 2016 2 23 9 0 0 0;
               mkTimestamp 2015 2 18 9 0 0 0]
              [mkTimestamp 2015 12 31 9 0 0 0; mkTimestamp 2016 2 28 9 0 0 0;
               mkTimestamp 2015 2 28 9 0 0 0])
    as (c1 & df1 & c2 & df2 & H1 & H2 & _).
  - by repeat constructor.
  - discriminate.
  - left.
  - right; left.
  - right; right; left.
  - reflexivity.
  - reflexivity.
  - reflexivity.
  - repeat constructor; by vm_compute.
  - by repeat constructor.
  - by repeat constructor.
  - exists c1, df1, c2, df2. split; [exact H1|]. split; [exact H2|].
    vm_compute in H1, H2. injection H1 as <- _. injection H2 as <- _.
    by split.
Defined.

(** X25.  The difference of two timestamps is a count of nanoseconds in 64
    bits: when in some row the end is 2^63 nanoseconds (some 292 years) or
    more after the start, or more than that before it, the subtraction
    overflows and [calculate_time_delta] raises [OverflowError], on columns
    of timestamps; no column is computed in part. *)
Theorem time_delta_overflow (df : DataFrame)
    (start end_ unit col_suffix : string) (starts ends : list Timestamp) :
  start ∈ columns df -> end_ ∈ columns df ->
  row_get (columns df) start <$> rows df = Time <$> starts ->
  row_get (columns df) end_ <$> rows df = Time <$> ends ->
  Exists (fun p => 2 ^ 63 <= to_ns p.1 - to_ns p.2
                   \/ to_ns p.1 - to_ns p.2 < - 2 ^ 63)
         (zip ends starts) ->
  calculate_time_delta df start end_ unit col_suffix = Raise OverflowError.
Proof.
  intros Hs He Hstarts Hends Hover.
  unfold calculate_time_delta.
  rewrite (get_column_ok df end_), (get_column_ok df start) by done.
  cbn [mbind result_bind s_values]. rewrite Hstarts, Hends.
  unfold series_sub. rewrite !forallb_is_datetime_Time. cbn [andb].
  rewrite zip_fmap_Time, (traverse_raises _ OverflowError); [done| |].
  - apply Forall_fmap, Forall_true. intros [e s]. unfold compose.
    cbn [fst snd sub_cell].
    destruct (fits_int64 (to_ns e - to_ns s)); eauto.
  - apply Exists_fmap. eapply Exists_impl; [exact Hover|].
    intros [e s] Hp. unfold compose. cbn [fst snd sub_cell] in *.
    replace (fits_int64 (to_ns e - to_ns s)) with false; [done|].
    symmetry. unfold fits_int64.
    destruct (Z.ltb_spec (- 2 ^ 63) (to_ns e - to_ns s)),
             (Z.ltb_spec (to_ns e - to_ns s) (2 ^ 63)); simpl; try done; lia.
Qed.

Lemma time_delta_overflow_witness :
  calculate_time_delta
    (mkDataFrame ["first_seen"; "last_seen"]
       [ [Time (mkTimestamp 1678 1 1 0 0 0 0);
          Time (mkTimestamp 2261 12 31 0 0 0 0)] ])
    "first_seen" "last_seen" "days" ""
  = Raise OverflowError.
Proof.
  apply (time_delta_overflow _ "first_seen" "last_seen" "days" ""
           [mkTimestamp 1678 1 1 0 0 0 0] [mkTimestamp 2261 12 31 0 0 0 0]).
  - left.
  - right; left.
  - reflexivity.
  - reflexivity.
  - left. left. by vm_compute.
Defined.

(** ** [date_format], then [calculate_time_delta] *)

Lemma whole_days_midnight e s :
  whole_days (midnight e) (midnight s) = civil_days e - civil_days s.
Proof.
  unfold whole_days, to_ns, midnight, civil_days.
  cbn [year month day hour minute second nanosecond].
  replace (_ - _) with
    ((days_from_civil (year e) (month e) (day e)
      - days_from_civil (year s) (month s) (day s)) * ns_per_day) by lia.
  by rewrite Z.div_mul.
Qed.

Lemma zip_fmap_both {A B} (f : A -> B) (a b : list A) :
  zip (f <$> a) (f <$> b) = (fun p => (f p.1, f p.2)) <$> zip a b.
Proof.
  revert b. induction a as [|x a IH]; intros [|y b]; simpl; try done.
  by rewrite <- IH.
Qed.

Lemma fits_days d : -106751 <= d <= 106751 -> fits_int64 (d * ns_per_day) = true.
Proof.
  intros Hd. unfold fits_int64, ns_per_day.
  apply andb_true_intro. split; apply Z.ltb_lt; lia.
Qed.

Lemma to_ns_midnight t : to_ns (midnight t) = civil_days t * ns_per_day.
Proof.
  unfold to_ns, midnight, civil_days.
  cbn [year month day hour minute second nanosecond]. lia.
Qed.

(** X20.  The two functions as they are used one after the other: when the start
    and the end column have been cut to the day with [date_format], the
    column [calculate_time_delta] writes holds for every row the days of
    the calendar from the start date to the end date, whatever the times of
    day were - the age in years being computed from that count.  The two
    columns are columns [pd.to_datetime] reads, of valid timestamps at most
    106751 days (some 292 years) apart in every row. *)
Theorem days_between_dates (df : DataFrame) (start end_ unit col_suffix : string)
    (starts ends : list Timestamp) :
  well_formed df ->
  start ≠ end_ ->
  start ∈ columns df ->
  end_ ∈ columns df ->
  to_datetime (row_get (columns df) start <$> rows df) = Ok (Time <$> starts) ->
  to_datetime (row_get (columns df) end_ <$> rows df) = Ok (Time <$> ends) ->
  Forall valid_timestamp starts ->
  Forall valid_timestamp ends ->
  Forall (fun p => -106751 <= civil_days p.1 - civil_days p.2 <= 106751)
         (zip ends starts) ->
  exists df1 df2 column df3,
    date_format df start "%Y-%m-%d" = Ok df1
    /\ date_format df1 end_ "%Y-%m-%d" = Ok df2
    /\ calculate_time_delta df2 start end_ unit col_suffix = Ok (column, df3)
    /\ s_values column
       = (fun p => row_cell start unit (civil_days p.1 - civil_days p.2))
           <$> zip ends starts.
Proof.
  intros Hwf Hne Hs He Hstarts Hends Hvs Hve Hnear.
  assert (Hls : length starts = length (rows df)).
  { apply to_datetime_length in Hstarts. by rewrite !length_fmap in Hstarts. }
  assert (Hle : length ends = length (rows df)).
  { apply to_datetime_length in Hends. by rewrite !length_fmap in Hends. }
  set (df1 := set_column_values df start (Time ∘ midnight <$> starts)).
  set (df2 := set_column_values df1 end_ (Time ∘ midnight <$> ends)).
  assert (Hwf1 : well_formed df1) by by apply well_formed_set_column_values.
  assert (Hcols1 : columns df1 = columns df)
    by by apply columns_set_column_values.
  assert (Hrows1 : length (rows df1) = length (rows df)).
  { apply length_set_column_values. by rewrite length_fmap. }
  assert (Hend1 : row_get (columns df1) end_ <$> rows df1
                  = row_get (columns df) end_ <$> rows df).
  { apply other_column_set_column_values; [done|done|by rewrite length_fmap]. }
  assert (Hstart1 : row_get (columns df1) start <$> rows df1
                    = Time ∘ midnight <$> starts).
  { apply column_set_column_values; [done|done|by rewrite length_fmap]. }
  assert (Hwf2 : well_formed df2) by by apply well_formed_set_column_values.
  assert (Hcols2 : columns df2 = columns df).
  { unfold df2. rewrite columns_set_column_values; [done|by rewrite Hcols1]. }
  assert (Hstart2 : row_get (columns df2) start <$> rows df2
                    = Time <$> (midnight <$> starts)).
  { unfold df2. rewrite other_column_set_column_values.
    - by rewrite Hstart1, list_fmap_compose.
    - by rewrite Hcols1.
    - done.
    - rewrite length_fmap. lia. }
  assert (Hend2 : row_get (columns df2) end_ <$> rows df2
                  = Time <$> (midnight <$> ends)).
  { unfold df2. rewrite column_set_column_values.
    - by rewrite list_fmap_compose.
    - by rewrite Hcols1.
    - done.
    - rewrite length_fmap. lia. }
  eexists df1, df2, _, _.
  split; [by apply (date_format_timestamps df start Day)|].
  split.
  { apply (date_format_timestamps df1 end_ Day);
      [by rewrite Hcols1|done|by rewrite Hend1|done]. }
  split.
  { apply (calculate_time_delta_times df2 start end_ unit col_suffix
             (midnight <$> starts) (midnight <$> ends));
      [done|by rewrite Hcols2|by rewrite Hcols2|done|done|].
    rewrite zip_fmap_both. apply Forall_fmap.
    eapply Forall_impl; [exact Hnear|]. intros [e s] Hp. unfold compose.
    cbn [fst snd] in *. rewrite !to_ns_midnight.
    replace (civil_days e * ns_per_day - civil_days s * ns_per_day)
      with ((civil_days e - civil_days s) * ns_per_day) by lia.
    by apply fits_days. }
  cbn [s_values]. rewrite zip_fmap_both, <- list_fmap_compose.
  apply list_fmap_ext. intros i [e s] _. unfold compose. cbn [fst snd].
  by rewrite whole_days_midnight.
Qed.

Lemma days_between_dates_witness :
  exists df1 df2 column df3,
    date_format loaded_stays "came" "%Y-%m-%d" = Ok df1
    /\ date_format df1 "left" "%Y-%m-%d" = Ok df2
    /\ calculate_time_delta df2 "came" "left" "days" "" = Ok (column, df3)
    /\ s_values column = [Int 5; Int 2].
Proof.
  destruct (days_between_dates loaded_stays "came" "left" "days" ""
              [mkTimestamp 2019 5 8 18 20 0 0; mkTimestamp 2020 2 28 23 59 0 0]
              [mkTimestamp 2019 5 13 9 5 0 0; mkTimestamp 2020 3 1 0 1 0 0])
    as (df1 & df2 & column & df3 & H1 & H2 & H3 & Hvalues).
  - by repeat constructor.
  - discriminate.
  - right; left.
  - right; right; left.
  - reflexivity.
  - reflexivity.
  - repeat constructor; by vm_compute.
  - repeat constructor; by vm_compute.
  - repeat constructor; by vm_compute.
  - exists df1, df2, column, df3.
    split; [exact H1|]. split; [exact H2|]. split; [exact H3|].
    rewrite Hvalues. reflexivity.
Defined.

(** ** [date_format], then [merge_intake_n_outcome] *)

Lemma Forall_column {A B} (P : B -> Prop) (g : A -> B) (l : list A) :
  Forall (fun x => P (g x)) l <-> Forall P (g <$> l).
Proof. by rewrite Forall_fmap. Qed.

(** X23.  [date_format] prepares a table for the correlator.  When the
    tables are rectangular, have their key columns and string entity keys,
    and the datetime column of the outcome table is one [pd.to_datetime]
    reads, [date_format] on that column with the format of a precision
    returns a table with which the conditions the correlator is specified
    under hold: the key columns are there, the entity keys are the strings
    they were, and the datetime column is of the timestamp type, its cells
    the dates read, cut to the precision. *)
Theorem date_format_then_merge (intake outcome : DataFrame) (p : Precision)
    (parsed : list Cell) :
  has_keys (mkTables intake outcome) ->
  well_formed intake ->
  well_formed outcome ->
  Forall (fun row => is_str (entity (columns intake) row) = true) (rows intake) ->
  Forall (fun row => is_str (entity (columns outcome) row) = true)
         (rows outcome) ->
  to_datetime (row_get (columns outcome) "datetime" <$> rows outcome)
  = Ok parsed ->
  Forall valid_cell parsed ->
  exists outcome',
    date_format outcome "datetime" (format_of p) = Ok outcome'
    /\ contract (mkTables intake outcome')
    /\ row_get (columns outcome') "datetime" <$> rows outcome'
       = truncate_cell p <$> parsed.
Proof.
  intros (Hid & Hido & Hdt) Hwfi Hwfo Hstri Hstro Hread Hvalid.
  cbn [intake_data outcome_data] in *.
  assert (Hlen : length (truncate_cell p <$> parsed) = length (rows outcome)).
  { rewrite length_fmap, (to_datetime_length _ _ Hread). by rewrite length_fmap. }
  exists (set_column_values outcome "datetime" (truncate_cell p <$> parsed)).
  split; [by apply date_format_precision|].
  assert (Hcol : row_get
                   (columns (set_column_values outcome "datetime"
                               (truncate_cell p <$> parsed))) "datetime"
                 <$> rows (set_column_values outcome "datetime"
                             (truncate_cell p <$> parsed))
                 = truncate_cell p <$> parsed)
    by by apply column_set_column_values.
  split; [|exact Hcol].
  split.
  { repeat split; cbn [intake_data outcome_data];
      by rewrite ?columns_set_column_values. }
  cbn [intake_data outcome_data].
  split; [done|]. split; [by apply well_formed_set_column_values|].
  split; [done|]. split.
  - apply (Forall_column (fun c => is_str c = true)). unfold entity.
    rewrite other_column_set_column_values by done.
    by apply (Forall_column (fun c => is_str c = true)) in Hstro.
  - apply (Forall_column (fun c => is_datetime c = true)).
    rewrite Hcol. apply Forall_fmap.
    eapply Forall_impl; [exact Hvalid|]. intros c Hc.
    by apply valid_cell_datetime, valid_cell_truncate.
Qed.

Lemma date_format_then_merge_witness :
  exists outcome',
    date_format Doctest.test_outcome "datetime" "%Y-%m-%d" = Ok outcome'
    /\ contract (mkTables Doctest.test_intake outcome')
    /\ row_get (columns outcome') "datetime" <$> rows outcome'
       = [Doctest.ts 2019 5 13 0 0; Doctest.ts 2013 4 21 0 0;
          Doctest.ts 2021 11 25 0 0; Doctest.ts 2022 9 18 0 0].
Proof.
  destruct (date_format_then_merge Doctest.test_intake Doctest.test_outcome Day
              (row_get (columns Doctest.test_outcome) "datetime"
                 <$> rows Doctest.test_outcome))
    as (outcome' & Hrun & Hcontract & Hcol).
  - repeat split; repeat constructor.
  - by repeat constructor.
  - by repeat constructor.
  - by repeat constructor.
  - by repeat constructor.
  - reflexivity.
  - repeat constructor; by vm_compute.
  - exists outcome'. split; [exact Hrun|]. split; [exact Hcontract|].
    rewrite Hcol. reflexivity.
Defined.
